(** * ScanR: the capture-session workflow of the exam-copy scanner

    A shallow embedding of the React front end: the roster navigator of
    [App] ([getNextStudent], [handleNextStudent], [handlePhotosCaptured])
    and the capture session of [PhotoCapture] (camera set-up, frame
    capture, page buffer, finish).

    The repository holds two revisions of both components.  They are kept
    apart by modules:
    - [App]          : src/src/App.jsx (has the Absent/Missing handlers),
    - [AppAuto]      : src/unnamed/part_000 (the parent advances by itself
                       after an upload),
    - [PhotoCapture] : src/src/components/PhotoCapture.jsx, first component
                       of the file (has file import),
    - [PhotoCaptureStatus] : same file, second component (has the
                       Absent/Missing buttons, no file import).

    Conventions.  A handler reads the state of the render it was created
    in and queues writes; the model of a handler therefore takes the
    rendered state, reads only from it, and returns the state after all
    queued writes.  What the browser or the back end answers is an input
    of the handler (a record of answers); what the handler does to the
    outside world is a list of events. *)

From Stdlib Require Import String Ascii DecimalString.
From Stdlib Require Import Bool Arith ZArith QArith Lia List.
Import ListNotations.
Local Open Scope string_scope.
Local Open Scope list_scope.
Local Open Scope nat_scope.

Set Implicit Arguments.

(** ** JavaScript helpers *)

Module Js.

(** [Array.prototype.findIndex]; [None] stands for the result [-1]. *)
Fixpoint findIndex (A : Type) (p : A -> bool) (l : list A) : option nat :=
  match l with
  | [] => None
  | x :: r => if p x then Some 0
              else match findIndex p r with
                   | Some i => Some (S i)
                   | None => None
                   end
  end.

(** Truthiness of a value that is [null] or a string: [null] and the
    empty string are falsy. *)
Definition truthy (v : option string) : bool :=
  match v with
  | Some s => negb (String.eqb s "")
  | None => false
  end.

(** [`${n}`] for a non-negative integer. *)
Definition numberToString (n : nat) : string :=
  NilEmpty.string_of_uint (Nat.to_uint n).

(** [s.startsWith(p)] *)
Definition startsWith (p s : string) : bool := String.prefix p s.

(** *** Numbers

    A JavaScript number is a double.  The finite ones are rationals; the
    sum of two of them is the double nearest to the exact sum, ties going
    to the even significand. *)

(** The integer nearest to [n / d] for [0 <= n], [0 < d], ties to even. *)
Definition roundHalfEven (n d : Z) : Z :=
  let fl := (n / d)%Z in
  let twice := (2 * (n mod d))%Z in
  if (twice <? d)%Z then fl
  else if (d <? twice)%Z then (fl + 1)%Z
  else if Z.even fl then fl else (fl + 1)%Z.

(** [n / d < 2 ^ e] *)
Definition below (n d e : Z) : bool :=
  if (0 <=? e)%Z then (n <? d * 2 ^ e)%Z else (n * 2 ^ (- e) <? d)%Z.

(** The [e] with [2 ^ e <= n / d < 2 ^ (e + 1)], for [0 < n], [0 < d]. *)
Definition exponent (n d : Z) : Z :=
  let e := (Z.log2 n - Z.log2 d)%Z in
  if below n d e then (e - 1)%Z else e.

(** The double nearest to a rational: 53 significant bits, and steps of
    [2 ^ -1074] below [2 ^ -1022].  From [2 ^ 1024] on a double is
    [Infinity]; such magnitudes are outside the model. *)
Definition roundDouble (q : Q) : Q :=
  match Qnum q with
  | Z0 => 0%Q
  | _ =>
      let n := Z.abs (Qnum q) in
      let d := Zpos (Qden q) in
      let p := Z.max (exponent n d - 52) (-1074) in
      let r := if (0 <=? p)%Z
               then inject_Z (roundHalfEven n (d * 2 ^ p) * 2 ^ p)
               else Qmake (roundHalfEven (n * 2 ^ (- p)) d)
                          (Z.to_pos (2 ^ (- p))) in
      if (Qnum q <? 0)%Z then Qopp r else r
  end.

(** [x + y] on numbers. *)
Definition plus (x y : Q) : Q := roundDouble (x + y)%Q.

End Js.
Arguments Js.plus : simpl never.

(** ** The roster *)

Record Student := mkStudent {
  _id : string;
  rollNumber : string;
  name : string;
  status : string;
  isScanned : bool;
  pdfPath : option string
}.

(** ** Captured pages, files and the outside world *)

(** A captured page as the component builds it.  [id] is the JavaScript
    number [Date.now() + Math.random()] (or [Date.now()]): a finite double,
    hence a rational, and [===] on such numbers is numeric equality. *)
Record Photo := mkPhoto {
  id : Q;
  data : string;
  pageNumber : nat;
  timestamp : string;
  studentRoll : string
}.

(** [new File([blob], name, { type })] *)
Record File := mkFile {
  fileName : string;
  fileType : string;
  blob : string
}.

(** One [formData.append(key, value)]. *)
Inductive FormEntry :=
| FileEntry (key : string) (file : File)
| TextEntry (key : string) (value : string).

(** The constraints object handed to [getUserMedia]:
    [{ video: { facingMode, width: { ideal }, height: { ideal } } }]. *)
Record VideoConstraints := mkVideo {
  facingMode : string;
  widthIdeal : nat;
  heightIdeal : nat
}.

(** A media stream is known by its tracks; a track by a number. *)
Record MediaStream := mkStream { getTracks : list nat }.

(** What an awaited call can do: resolve or reject. *)
Inductive Answer (A : Type) :=
| Returns (a : A)
| Throws (msg : string).
Arguments Returns {A} a.
Arguments Throws {A} msg.

Module UploadResponse.
Record t := mk {
  success : bool;
  message : option string;
  scannedPages : option nat
}.
End UploadResponse.

Module StudentsResponse.
Record t := mk {
  success : bool;
  students : list Student;
  totalStudents : nat;
  totalPages : nat;
  currentPage : nat
}.
End StudentsResponse.

(** What a handler does to the outside world, in order. *)
Inductive Event :=
| GetUserMedia (c : VideoConstraints)
| TrackStop (track : nat)
| Alert (msg : string)
| Fetch (url : string)
| UploadScans (studentId : string) (formData : list FormEntry)
| GetStudents (page limit : nat)
| OnFinish (photos : list Photo).

(** The answers of the browser and of the back end.

    [takePhoto] is [imageCapture.takePhoto()] followed by the [FileReader]
    read of its blob: [Throws] when [takePhoto()] rejects, [Returns (Some
    dataURL)] when the blob is read and [reader.onload] runs, [Returns None]
    when [takePhoto()] resolves but the read fails (the reader has no
    [onerror], so nothing runs).  [dateNow] and [mathRandom] are what
    [Date.now()] and [Math.random()] give, doubles both. *)
Record World := mkWorld {
  getUserMedia : VideoConstraints -> Answer MediaStream;
  imageCaptureInWindow : bool;
  takePhoto : Answer (option string);
  canvasFrame : Answer string;
  fetchBlob : string -> Answer string;
  uploadScans : string -> list FormEntry -> Answer UploadResponse.t;
  getStudents : nat -> nat -> Answer StudentsResponse.t;
  dateNow : Q;
  mathRandom : Q;
  isoString : string
}.

(** ** State of the two components *)

(** The [useState] cells of [App]. *)
Record AppState := mkApp {
  students : list Student;
  selectedStudent : option Student;
  showPhotoCapture : bool;
  capturedPhotos : list Photo;
  loading : bool;
  error : option string;
  currentPage : nat;
  itemsPerPage : nat;
  totalStudents : nat;
  totalPages : nat
}.

Definition setStudents (v : list Student) (a : AppState) : AppState :=
  mkApp v (selectedStudent a) (showPhotoCapture a) (capturedPhotos a)
        (loading a) (error a) (currentPage a) (itemsPerPage a)
        (totalStudents a) (totalPages a).
Definition setSelectedStudent (v : option Student) (a : AppState) : AppState :=
  mkApp (students a) v (showPhotoCapture a) (capturedPhotos a)
        (loading a) (error a) (currentPage a) (itemsPerPage a)
        (totalStudents a) (totalPages a).
Definition setShowPhotoCapture (v : bool) (a : AppState) : AppState :=
  mkApp (students a) (selectedStudent a) v (capturedPhotos a)
        (loading a) (error a) (currentPage a) (itemsPerPage a)
        (totalStudents a) (totalPages a).
Definition setCapturedPhotos (v : list Photo) (a : AppState) : AppState :=
  mkApp (students a) (selectedStudent a) (showPhotoCapture a) v
        (loading a) (error a) (currentPage a) (itemsPerPage a)
        (totalStudents a) (totalPages a).
Definition setLoading (v : bool) (a : AppState) : AppState :=
  mkApp (students a) (selectedStudent a) (showPhotoCapture a)
        (capturedPhotos a) v (error a) (currentPage a) (itemsPerPage a)
        (totalStudents a) (totalPages a).
Definition setError (v : option string) (a : AppState) : AppState :=
  mkApp (students a) (selectedStudent a) (showPhotoCapture a)
        (capturedPhotos a) (loading a) v (currentPage a) (itemsPerPage a)
        (totalStudents a) (totalPages a).
Definition setCurrentPage (v : nat) (a : AppState) : AppState :=
  mkApp (students a) (selectedStudent a) (showPhotoCapture a)
        (capturedPhotos a) (loading a) (error a) v (itemsPerPage a)
        (totalStudents a) (totalPages a).
Definition setTotalStudents (v : nat) (a : AppState) : AppState :=
  mkApp (students a) (selectedStudent a) (showPhotoCapture a)
        (capturedPhotos a) (loading a) (error a) (currentPage a)
        (itemsPerPage a) v (totalPages a).
Definition setTotalPages (v : nat) (a : AppState) : AppState :=
  mkApp (students a) (selectedStudent a) (showPhotoCapture a)
        (capturedPhotos a) (loading a) (error a) (currentPage a)
        (itemsPerPage a) (totalStudents a) v.

(** The [useState] cells of [PhotoCapture]. *)
Record CaptureState := mkCapture {
  currentPhoto : option string;
  isProcessing : bool;
  stream : option MediaStream;
  cameraReady : bool;
  cameraError : option string;
  uploading : bool
}.

Definition setCurrentPhoto (v : option string) (c : CaptureState) :=
  mkCapture v (isProcessing c) (stream c) (cameraReady c) (cameraError c)
            (uploading c).
Definition setIsProcessing (v : bool) (c : CaptureState) :=
  mkCapture (currentPhoto c) v (stream c) (cameraReady c) (cameraError c)
            (uploading c).
Definition setStream (v : option MediaStream) (c : CaptureState) :=
  mkCapture (currentPhoto c) (isProcessing c) v (cameraReady c)
            (cameraError c) (uploading c).
Definition setCameraReady (v : bool) (c : CaptureState) :=
  mkCapture (currentPhoto c) (isProcessing c) (stream c) v (cameraError c)
            (uploading c).
Definition setCameraError (v : option string) (c : CaptureState) :=
  mkCapture (currentPhoto c) (isProcessing c) (stream c) (cameraReady c) v
            (uploading c).
Definition setUploading (v : bool) (c : CaptureState) :=
  mkCapture (currentPhoto c) (isProcessing c) (stream c) (cameraReady c)
            (cameraError c) v.

(** The first render: every [useState] cell holds its initial value. *)
Definition initialCapture : CaptureState :=
  mkCapture None false None false None false.

(** A capture session: the parent's cells and the mounted component's. *)
Record Session := mkSession {
  app : AppState;
  capture : CaptureState
}.

(** ** Packaging of a batch (shared text of both [handlePhotosCaptured]) *)

(** [photosArray.map(async (photo, index) => ...)] under [Promise.all]:
    every [fetch] is issued, in array order; the files come back in array
    order; a failed conversion rejects the whole (when several fail, the
    model reports the first in array order).  [index] is the position of
    the first element of [photos] in the array; [rethrow] is what the
    callback does with a conversion error. *)
Fixpoint imageFiles (w : World) (rethrow : nat -> string -> string)
    (index : nat) (photos : list Photo) : Answer (list File) :=
  match photos with
  | [] => Returns []
  | photo :: rest =>
      match fetchBlob w (data photo) with
      | Throws m => Throws (rethrow index m)
      | Returns b =>
          match imageFiles w rethrow (S index) rest with
          | Throws m => Throws m
          | Returns files =>
              Returns
                (mkFile ("page_" ++ Js.numberToString (index + 1) ++ ".jpg")
                        "image/jpeg" b :: files)
          end
      end
  end.

Definition fetches (photos : list Photo) : list Event :=
  map (fun photo => Fetch (data photo)) photos.

(** [imageFiles.forEach(file => formData.append('images', file))] *)
Definition imagesForm (files : list File) : list FormEntry :=
  map (FileEntry "images") files.

(** [fetchStudents(page, limit)]: identical in both revisions of [App]. *)
Definition fetchStudents (w : World) (page limit : nat) (a : AppState)
    : AppState * list Event :=
  let a1 := setError None (setLoading true a) in
  let a2 :=
    match getStudents w page limit with
    | Returns r =>
        if StudentsResponse.success r then
          setCurrentPage (StudentsResponse.currentPage r)
            (setTotalPages (StudentsResponse.totalPages r)
               (setTotalStudents (StudentsResponse.totalStudents r)
                  (setStudents (StudentsResponse.students r) a1)))
        else a1
    | Throws m => setError (Some m) a1
    end in
  (setLoading false a2, [GetStudents page limit]).

(** ** The props of [PhotoCapture]

    [<PhotoCapture student=... capturedPhotos=... onPhotosUpdate=... />]:
    the parent builds them at each render.  A callback reads the parent's
    cells of that render and writes to the cells as they are when it runs.
    [onPhotosUpdate] is [setCapturedPhotos], which takes an updater
    ([setCapturedPhotos([])] is the constant updater). *)
Module Props.
Record t := mk {
  student : option Student;
  capturedPhotos : list Photo;
  onPhotosUpdate : (list Photo -> list Photo) -> AppState -> AppState;
  onFinish : World -> list Photo -> AppState
             -> AppState * Answer bool * list Event;
  onClose : AppState -> AppState;
  onNextStudent : AppState -> AppState * list Event;
  hasNextStudent : bool
}.
End Props.

Definition isSome (A : Type) (o : option A) : bool :=
  match o with Some _ => true | None => false end.

(** [value || fallback] on a string that may be missing. *)
Definition orElse (v : option string) (fallback : string) : string :=
  match v with
  | Some m => if String.eqb m "" then fallback else m
  | None => fallback
  end.

(** ** The parent component, src/src/App.jsx *)

Module App.

(** The test of the loop body:
    [students[i].status === 'Pending' && !students[i].isScanned]. *)
Definition eligible (s : Student) : bool :=
  String.eqb (status s) "Pending" && negb (isScanned s).

(** [for (let i = start; i < students.length; i++) ...]: [n] is the
    number of iterations left, [students.length - i]. *)
Fixpoint scan (students : list Student) (i n : nat) : option Student :=
  match n with
  | 0 => None
  | S n' =>
      match nth_error students i with
      | Some s => if eligible s then Some s else scan students (S i) n'
      | None => None
      end
  end.

Definition getNextStudent (students : list Student)
    (selectedStudent : option Student) : option Student :=
  match selectedStudent with
  | None => None
  | Some sel =>
      if Nat.eqb (length students) 0 then None
      else
        match Js.findIndex (fun s => String.eqb (_id s) (_id sel)) students with
        | None => None
        | Some currentIndex =>
            scan students (currentIndex + 1)
                 (length students - (currentIndex + 1))
        end
  end.

(** [r] is the render the handler belongs to, [a] the cells when it
    runs. *)
Definition handlePhotosCaptured (r : AppState) (w : World)
    (photosArray : list Photo) (a : AppState)
    : AppState * Answer bool * list Event :=
  match selectedStudent r with
  | None => (a, Returns false, [])
  | Some sel =>
      if Nat.eqb (length photosArray) 0 then (a, Returns false, [])
      else
        match imageFiles w (fun _ m => m) 0 photosArray with
        | Throws _ =>
            (setError (Some "Failed to upload scanned images") a,
             Returns false, fetches photosArray)
        | Returns files =>
            let formData := imagesForm files in
            let sent := fetches photosArray
                        ++ [UploadScans (_id sel) formData] in
            match uploadScans w (_id sel) formData with
            | Throws _ =>
                (setError (Some "Failed to upload scanned images") a,
                 Returns false, sent)
            | Returns response =>
                if UploadResponse.success response then
                  let (a', ev) :=
                    fetchStudents w (currentPage r) (itemsPerPage r) a in
                  (a', Returns true, sent ++ ev)
                else
                  (setError
                     (Some (orElse (UploadResponse.message response)
                                   "Failed to upload scans")) a,
                   Returns false, sent)
            end
        end
  end.

Definition handleNextStudent (r : AppState) (a : AppState)
    : AppState * list Event :=
  match getNextStudent (students r) (selectedStudent r) with
  | Some nextStudent =>
      (setCapturedPhotos [] (setSelectedStudent (Some nextStudent) a), [])
  | None =>
      (setCapturedPhotos []
         (setSelectedStudent None (setShowPhotoCapture false a)), [])
  end.

(** The inline [onClose] of the JSX. *)
Definition onClose (a : AppState) : AppState :=
  setCapturedPhotos []
    (setSelectedStudent None (setShowPhotoCapture false a)).

(** [const hasNextStudent = !!getNextStudent();] *)
Definition hasNextStudent (r : AppState) : bool :=
  isSome (getNextStudent (students r) (selectedStudent r)).

(** The props passed at the render [r]. *)
Definition props (r : AppState) : Props.t :=
  Props.mk (selectedStudent r) (capturedPhotos r)
           (fun f a => setCapturedPhotos (f (capturedPhotos a)) a)
           (handlePhotosCaptured r)
           onClose
           (handleNextStudent r)
           (hasNextStudent r).

End App.

(** ** The parent component, src/unnamed/part_000 *)

Module AppAuto.

(** [!students[i].isScanned && students[i].status !== 'Absent'] *)
Definition eligible (s : Student) : bool :=
  negb (isScanned s) && negb (String.eqb (status s) "Absent").

Fixpoint scan (students : list Student) (i n : nat) : option Student :=
  match n with
  | 0 => None
  | S n' =>
      match nth_error students i with
      | Some s => if eligible s then Some s else scan students (S i) n'
      | None => None
      end
  end.

(** Both branches after the loop return [null], whatever
    [currentPage < totalPages] says. *)
Definition getNextStudent (students : list Student)
    (selectedStudent : option Student) (currentPage totalPages : nat)
    : option Student :=
  match selectedStudent with
  | None => None
  | Some sel =>
      if Nat.eqb (length students) 0 then None
      else
        match Js.findIndex (fun s => String.eqb (_id s) (_id sel)) students with
        | None => None
        | Some currentIndex =>
            match scan students (currentIndex + 1)
                       (length students - (currentIndex + 1)) with
            | Some s => Some s
            | None => if Nat.ltb currentPage totalPages then None else None
            end
        end
  end.

(** The callback under [Promise.all] catches a conversion error and
    throws [`Failed to convert image ${index + 1}`] instead. *)
Definition rethrow (index : nat) (_ : string) : string :=
  "Failed to convert image " ++ Js.numberToString (index + 1).

Definition handlePhotosCaptured (r : AppState) (w : World)
    (photosArray : list Photo) (a : AppState)
    : AppState * Answer bool * list Event :=
  match selectedStudent r with
  | None => (a, Returns false, [])
  | Some sel =>
      if Nat.eqb (length photosArray) 0 then (a, Returns false, [])
      else
        let a0 := setError None a in
        match imageFiles w rethrow 0 photosArray with
        | Throws m =>
            (setError
               (Some (orElse (Some m) "Failed to upload scanned images"))
               a0,
             Returns false, fetches photosArray)
        | Returns files =>
            let formData :=
              imagesForm files
              ++ [TextEntry "studentId" (_id sel);
                  TextEntry "rollNumber" (rollNumber sel)] in
            let sent := fetches photosArray
                        ++ [UploadScans (_id sel) formData] in
            match uploadScans w (_id sel) formData with
            | Throws m =>
                (setError
                   (Some (orElse (Some m)
                                 "Failed to upload scanned images")) a0,
                 Returns false, sent)
            | Returns response =>
                if UploadResponse.success response then
                  let (a', ev) :=
                    fetchStudents w (currentPage r) (itemsPerPage r) a0 in
                  match getNextStudent (students r) (selectedStudent r)
                                       (currentPage r) (totalPages r) with
                  | Some nextStudent =>
                      (setCapturedPhotos []
                         (setSelectedStudent (Some nextStudent) a'),
                       Returns true, sent ++ ev)
                  | None => (a', Returns true, sent ++ ev)
                  end
                else
                  (setError
                     (Some (orElse (UploadResponse.message response)
                                   "Failed to upload scans")) a0,
                   Returns false, sent)
            end
        end
  end.

Definition handleNextStudent (r : AppState) (a : AppState)
    : AppState * list Event :=
  match getNextStudent (students r) (selectedStudent r)
                       (currentPage r) (totalPages r) with
  | Some nextStudent =>
      (setCapturedPhotos [] (setSelectedStudent (Some nextStudent) a), [])
  | None =>
      (setCapturedPhotos []
         (setSelectedStudent None (setShowPhotoCapture false a)),
       [Alert "All students scanned! Or no more students available for scanning."])
  end.

Definition onClose (a : AppState) : AppState :=
  setCapturedPhotos []
    (setSelectedStudent None (setShowPhotoCapture false a)).

Definition hasNextStudent (r : AppState) : bool :=
  isSome (getNextStudent (students r) (selectedStudent r)
                         (currentPage r) (totalPages r)).

Definition props (r : AppState) : Props.t :=
  Props.mk (selectedStudent r) (capturedPhotos r)
           (fun f a => setCapturedPhotos (f (capturedPhotos a)) a)
           (handlePhotosCaptured r)
           onClose
           (handleNextStudent r)
           (hasNextStudent r).

End AppAuto.

(** ** The capture session, PhotoCapture.jsx (first component of the file)

    [parent] is the render function of the parent as far as the props go
    ([App.props] or [AppAuto.props]).  Both parents pass every prop, so the
    guards [if (onPhotosUpdate)], [if (onNextStudent)], [if (onClose)] are
    always taken.  Messages are given without their emoji. *)

Module PhotoCapture.

Definition environmentConstraints : VideoConstraints :=
  mkVideo "environment" 1280 720.
Definition fallbackConstraints : VideoConstraints :=
  mkVideo "user" 1280 720.

(** [stream.getTracks().forEach((track) => track.stop())] under
    [if (stream)]. *)
Definition stopTracks (s : option MediaStream) : list Event :=
  match s with
  | Some ms => map TrackStop (getTracks ms)
  | None => []
  end.

(** [setupCamera], a [useCallback] on [stream]: [r] is the render whose
    closure runs, [c] the cells when it runs. *)
Definition setupCamera (w : World) (r c : CaptureState)
    : CaptureState * bool * list Event :=
  let c1 := setCameraError None c in
  let stops := stopTracks (stream r) in
  match getUserMedia w environmentConstraints with
  | Returns mediaStream =>
      (setCameraReady true (setStream (Some mediaStream) c1), true,
       stops ++ [GetUserMedia environmentConstraints])
  | Throws _ =>
      let tried := stops ++ [GetUserMedia environmentConstraints;
                             GetUserMedia fallbackConstraints] in
      match getUserMedia w fallbackConstraints with
      | Returns fallbackStream =>
          (setCameraReady true (setStream (Some fallbackStream) c1), true,
           tried)
      | Throws _ =>
          (setCameraReady false
             (setCameraError
                (Some "Camera access failed. Please check permissions and ensure camera is available.")
                c1),
           false, tried)
      end
  end.

(** [handleRetryCamera] is rebuilt at every render, so it runs the
    [setupCamera] of the render it is clicked in. *)
Definition handleRetryCamera (w : World) (r : CaptureState)
    : CaptureState * list Event :=
  let '(c, _, ev) :=
    setupCamera w r (setCameraReady false (setCameraError None r)) in
  (c, ev).

(** The camera effect, [useEffect(..., [])]: it runs once, after the
    first render, so [initCamera] and the clean-up it returns are the
    closures of the first render, where every cell is initial. *)
Definition initCamera (w : World) (c : CaptureState)
    : CaptureState * list Event :=
  let '(c', _, ev) := setupCamera w initialCapture c in (c', ev).

(** The body of the clean-up, for the render [r] it closes over. *)
Definition cameraCleanup (r : CaptureState) : list Event :=
  stopTracks (stream r).

(** What runs when the component is unmounted. *)
Definition unmount : list Event := cameraCleanup initialCapture.

(** [captureWithCanvasFallback], called with a stream held: the frame is
    stored, or the error is thrown on to [handleTakePhoto]. *)
Definition captureWithCanvasFallback (w : World) (r c : CaptureState)
    : Answer CaptureState :=
  match stream r with
  | None => Returns c
  | Some _ =>
      match canvasFrame w with
      | Returns imageDataURL => Returns (setCurrentPhoto (Some imageDataURL) c)
      | Throws m => Throws m
      end
  end.

Definition captureFailed : string :=
  "Failed to capture photo. Please try again or use file upload.".

(** The outer [catch] of [handleTakePhoto]. *)
Definition capturedOrAlert (c : CaptureState) (a : Answer CaptureState)
    : CaptureState * list Event :=
  match a with
  | Returns c' => (c', [])
  | Throws _ => (setIsProcessing false c, [Alert captureFailed])
  end.

Definition handleTakePhoto (w : World) (r : CaptureState)
    : CaptureState * list Event :=
  if isProcessing r || negb (cameraReady r) || negb (isSome (stream r))
  then (r, [])
  else
    let c := setIsProcessing true r in
    if imageCaptureInWindow w then
      match option_map getTracks (stream r) with
      | Some (_ :: _) =>
          match takePhoto w with
          | Returns (Some dataURL) =>
              (setIsProcessing false (setCurrentPhoto (Some dataURL) c), [])
          | Returns None =>
              (* the read of the blob fails: [reader.onload] never runs *)
              (c, [])
          | Throws _ =>
              capturedOrAlert c (captureWithCanvasFallback w r c)
          end
      | _ =>
          (* no video track: [new ImageCapture(undefined)] throws *)
          (setIsProcessing false c, [Alert captureFailed])
      end
    else capturedOrAlert c (captureWithCanvasFallback w r c).

(** The file the operator picked: [event.target.files[0]]. *)
Record Picked := mkPicked {
  type : string;
  size : N;
  readAsDataURL : Answer string
}.

Definition handleFileSelect (file : option Picked) (r : CaptureState)
    : CaptureState * list Event :=
  match file with
  | None => (r, [])
  | Some f =>
      if negb (Js.startsWith "image/" (type f)) then
        (r, [Alert "Please select an image file (JPEG, PNG, etc.)"])
      else if (10 * 1024 * 1024 <? size f)%N then
        (r, [Alert "Image size should be less than 10MB"])
      else
        match readAsDataURL f with
        | Returns result => (setCurrentPhoto (Some result) r, [])
        | Throws _ =>
            (r, [Alert "Error reading file. Please try another image."])
        end
  end.

(** The controls of the camera-error view and whether each is
    disabled. *)
Inductive Control := RetryCamera | UseFileUpload.

Definition cameraErrorActions (r : CaptureState) : list (Control * bool) :=
  [(RetryCamera, uploading r); (UseFileUpload, uploading r)].

Section WithParent.

Variable parent : AppState -> Props.t.

(** [studentData.rollNumber] *)
Definition studentRollNumber (p : Props.t) : string :=
  match Props.student p with
  | Some st => rollNumber st
  | None => "Unknown"
  end.

Definition addCurrentPhotoToCaptured (w : World) (s : Session)
    : Session * bool :=
  let p := parent (app s) in
  match currentPhoto (capture s) with
  | None => (s, false)
  | Some photo =>
      if String.eqb photo "" then (s, false)
      else
        let newPhoto :=
          mkPhoto (Js.plus (dateNow w) (mathRandom w)) photo
                  (length (Props.capturedPhotos p) + 1)
                  (isoString w) (studentRollNumber p) in
        (mkSession
           (Props.onPhotosUpdate p (fun prev => prev ++ [newPhoto]) (app s))
           (setCurrentPhoto None (capture s)),
         true)
  end.

Definition handleKeepAndAddMore (w : World) (s : Session) : Session :=
  if Js.truthy (currentPhoto (capture s))
     && negb (isProcessing (capture s))
  then fst (addCurrentPhotoToCaptured w s)
  else s.

Definition handleRetake (s : Session) : Session :=
  mkSession (app s) (setCurrentPhoto None (capture s)).

Definition handleRemovePhoto (photoId : Q) (s : Session) : Session :=
  let p := parent (app s) in
  mkSession
    (Props.onPhotosUpdate p
       (fun prev =>
          filter (fun photo => negb (Qeq_bool (id photo) photoId)) prev)
       (app s))
    (capture s).

(** [let finalPhotos = [...capturedPhotos]; if (currentPhoto) ...push] *)
Definition finalPhotos (w : World) (s : Session) : list Photo :=
  let p := parent (app s) in
  match currentPhoto (capture s) with
  | None => Props.capturedPhotos p
  | Some photo =>
      if String.eqb photo "" then Props.capturedPhotos p
      else
        Props.capturedPhotos p
        ++ [mkPhoto (dateNow w) photo
                    (length (Props.capturedPhotos p) + 1)
                    (isoString w) (studentRollNumber p)]
  end.

Definition handleFinish (w : World) (s : Session)
    : Session * list Event :=
  let p := parent (app s) in
  let totalPhotos :=
    length (Props.capturedPhotos p)
    + (if Js.truthy (currentPhoto (capture s)) then 1 else 0) in
  if Nat.eqb totalPhotos 0 then
    (s, [Alert "Please capture at least one photo before finishing."])
  else
    let c := setUploading true (capture s) in
    let batch := finalPhotos w s in
    let '(a, success, ev) := Props.onFinish p w batch (app s) in
    match success with
    | Returns true =>
        (mkSession (Props.onPhotosUpdate p (fun _ => []) a)
                   (setUploading false (setCurrentPhoto None c)),
         OnFinish batch :: ev)
    | Returns false =>
        (mkSession a (setUploading false c), OnFinish batch :: ev)
    | Throws _ =>
        (mkSession a (setUploading false c),
         OnFinish batch :: ev
         ++ [Alert "Error finishing session. Please try again."])
    end.

Definition handleNextStudent (s : Session) : Session * list Event :=
  let p := parent (app s) in
  let c := setCurrentPhoto None (capture s) in
  let a := Props.onPhotosUpdate p (fun _ => []) (app s) in
  let (a', ev) := Props.onNextStudent p a in
  (mkSession a' c, ev).

End WithParent.

End PhotoCapture.

(** ** The capture session, PhotoCapture.jsx (second component of the file)

    Camera set-up, capture, page buffer and the camera effect have the
    text of the first component (the capture alert and the file import are
    gone); [handleFinish] and [handleNextStudent] differ. *)

Module PhotoCaptureStatus.

Definition cameraErrorActions (r : CaptureState)
    : list (PhotoCapture.Control * bool) :=
  [(PhotoCapture.RetryCamera, uploading r)].

Section WithParent.

Variable parent : AppState -> Props.t.

(** After a successful upload the component itself advances:
    [if (hasNextStudent) setTimeout(() => onNextStudent(), 500);
     else onClose();].  The timer callback is the [onNextStudent] of
    the render [handleFinish] was created in. *)
Definition handleFinish (w : World) (s : Session)
    : Session * list Event :=
  let p := parent (app s) in
  let totalPhotos :=
    length (Props.capturedPhotos p)
    + (if Js.truthy (currentPhoto (capture s)) then 1 else 0) in
  if Nat.eqb totalPhotos 0 then
    (s, [Alert "Please capture at least one photo before finishing."])
  else
    let c := setUploading true (capture s) in
    let batch := PhotoCapture.finalPhotos parent w s in
    let '(a, success, ev) := Props.onFinish p w batch (app s) in
    match success with
    | Returns true =>
        let a1 := Props.onPhotosUpdate p (fun _ => []) a in
        let c1 := setUploading false (setCurrentPhoto None c) in
        if Props.hasNextStudent p then
          let (a2, ev2) := Props.onNextStudent p a1 in
          (mkSession a2 c1, OnFinish batch :: ev ++ ev2)
        else
          (mkSession (Props.onClose p a1) c1, OnFinish batch :: ev)
    | _ => (mkSession a (setUploading false c), OnFinish batch :: ev)
    end.

Definition handleNextStudent (s : Session) : Session * list Event :=
  let p := parent (app s) in
  let c := setCurrentPhoto None (capture s) in
  let a := Props.onPhotosUpdate p (fun _ => []) (app s) in
  let (a', ev) := Props.onNextStudent p a in
  (mkSession a' c, ev).

End WithParent.

End PhotoCaptureStatus.

(** ** Mounting, and the page buffer as a sequence of operations *)

(** [{showPhotoCapture && selectedStudent && (<PhotoCapture ... />)}]: the
    component has no [key], so a change of student keeps it mounted. *)
Definition mounted (a : AppState) : bool :=
  showPhotoCapture a && isSome (selectedStudent a).

(** The events of a re-render of the parent: leaving the tree runs the
    clean-up of the camera effect. *)
Definition rerender (before after : AppState) : list Event :=
  if mounted before && negb (mounted after) then PhotoCapture.unmount
  else [].

(** Explicit close: the close button and the Escape key call [onClose]. *)
Definition closeSession (parent : AppState -> Props.t) (s : Session)
    : Session * list Event :=
  let a := Props.onClose (parent (app s)) (app s) in
  (mkSession a (capture s), rerender (app s) a).

Module PageBuffer.

(** [Append]: a frame is captured or imported, then kept ("Keep & Next");
    [Remove]: the cross on a thumbnail. *)
Inductive Op :=
| Append (image : string) (w : World)
| Remove (photoId : Q).

Definition step (parent : AppState -> Props.t) (s : Session) (op : Op)
    : Session :=
  match op with
  | Append image w =>
      PhotoCapture.handleKeepAndAddMore parent w
        (mkSession (app s) (setCurrentPhoto (Some image) (capture s)))
  | Remove photoId => PhotoCapture.handleRemovePhoto parent photoId s
  end.

Definition run (parent : AppState -> Props.t) (ops : list Op) (s : Session)
    : Session :=
  fold_left (step parent) ops s.

(** The page numbers stored in the buffer, in buffer order. *)
Definition pageNumbers (s : Session) : list nat :=
  map pageNumber (capturedPhotos (app s)).

End PageBuffer.

(** ** The capture cells between mount and unmount *)

Module CameraLife.

(** What writes the capture cells of a mounted component, one handler at
    a time.  [Retry] is the "Retry Camera" button: it is drawn only in the
    camera-error view ([cameraError ? ... : ...]) and is disabled while
    uploading.  [SetCurrentPhoto] and [SetUploading] are the writes of
    keep, retake, next student and finish. *)
Inductive Op :=
| Retry (w : World)
| TakePhoto (w : World)
| FileSelect (file : option PhotoCapture.Picked)
| SetCurrentPhoto (v : option string)
| SetUploading (v : bool).

Definition step (c : CaptureState) (op : Op) : CaptureState * list Event :=
  match op with
  | Retry w =>
      if Js.truthy (cameraError c) && negb (uploading c)
      then PhotoCapture.handleRetryCamera w c
      else (c, [])
  | TakePhoto w => PhotoCapture.handleTakePhoto w c
  | FileSelect file => PhotoCapture.handleFileSelect file c
  | SetCurrentPhoto v => (setCurrentPhoto v c, [])
  | SetUploading v => (setUploading v c, [])
  end.

Fixpoint run (c : CaptureState) (ops : list Op) : CaptureState * list Event :=
  match ops with
  | [] => (c, [])
  | op :: ops' =>
      let (c1, ev1) := step c op in
      let (c2, ev2) := run c1 ops' in
      (c2, ev1 ++ ev2)
  end.

(** Mounting runs the camera effect on the initial cells; [ops] is what
    happens afterwards. *)
Definition mount (w : World) (ops : list Op) : CaptureState * list Event :=
  let (c0, ev0) := PhotoCapture.initCamera w initialCapture in
  let (c, ev) := run c0 ops in
  (c, ev0 ++ ev).

End CameraLife.

Unset Implicit Arguments.

(** * Observations on sessions and traces, sample data

    What the properties below speak about: readings of a session and of a
    trace, the contract between the component and its parent, and the
    worlds and sessions used as examples. *)

Definition studentA : Student := mkStudent "a" "101" "A" "Pending" false None.

Definition studentB : Student := mkStudent "b" "102" "B" "Absent" false None.

Definition studentC : Student := mkStudent "c" "103" "C" "Pending" false None.

Definition studentM : Student := mkStudent "m" "104" "M" "Missing" false None.

(** A world where the camera is refused, conversions and uploads succeed,
    the roster cannot be refreshed, and the clock reads [now]. *)
Definition sampleWorld (now : Q) : World :=
  mkWorld (fun _ => Throws "NotAllowedError") false
          (Throws "no ImageCapture") (Throws "no frame")
          (fun url => Returns url)
          (fun _ _ => Returns (UploadResponse.mk true None None))
          (fun _ _ => Throws "offline")
          now 0 "2024-01-01T00:00:00.000Z".

(** The same world with the back end refusing the batch. *)
Definition refusingWorld (now : Q) : World :=
  mkWorld (fun _ => Throws "NotAllowedError") false
          (Throws "no ImageCapture") (Throws "no frame")
          (fun url => Returns url)
          (fun _ _ => Returns (UploadResponse.mk false (Some "disk full") None))
          (fun _ _ => Throws "offline")
          now 0 "2024-01-01T00:00:00.000Z".

Definition sampleApp : AppState :=
  mkApp [studentA; studentB; studentC] (Some studentA) true [] false None
        1 50 3 1.

(** A session on student A with a camera held (tracks 7 and 8). *)
Definition sampleSession : Session :=
  mkSession sampleApp
            (mkCapture None false (Some (mkStream [7; 8])) true None false).

(** What both parents pass for [capturedPhotos] and [onPhotosUpdate]. *)
Definition wired (parent : AppState -> Props.t) : Prop :=
  (forall r, Props.capturedPhotos (parent r) = capturedPhotos r)
  /\ (forall r f a, Props.onPhotosUpdate (parent r) f a
                    = setCapturedPhotos (f (capturedPhotos a)) a)
  /\ (forall r, Props.student (parent r) = selectedStudent r).

(** Every stored number is at least the 1-based position. *)
Definition atLeastPosition (buf : list Photo) : Prop :=
  forall i p, nth_error buf i = Some p -> i + 1 <= pageNumber p.

(** The batch went through: some call to the scan uploader in the trace
    was answered with [success]. *)
Definition uploaded (w : World) (ev : list Event) : bool :=
  existsb
    (fun e =>
       match e with
       | UploadScans studentId formData =>
           match uploadScans w studentId formData with
           | Returns response => UploadResponse.success response
           | Throws _ => false
           end
       | _ => false
       end) ev.

(** The trace has a call to the scan uploader. *)
Definition callsUploader (ev : list Event) : bool :=
  existsb (fun e => match e with UploadScans _ _ => true | _ => false end) ev.

(** The trace stops a track or asks for a camera. *)
Definition touchesCamera (ev : list Event) : bool :=
  existsb (fun e => match e with
                    | TrackStop _ | GetUserMedia _ => true
                    | _ => false
                    end) ev.

(** The camera-error view, where "Retry Camera" is, is shown only while
    no stream is held. *)
Definition errorWithoutStream (c : CaptureState) : Prop :=
  Js.truthy (cameraError c) = true -> stream c = None.

(** What [handleFinish] relies on in its parent: [onFinish] resolves to
    [true] exactly when the uploader accepted the batch, never rejects,
    leaves the buffer alone unless it resolves to [true], and stays away
    from the camera; [onNextStudent] and [onClose] empty the buffer. *)
Record finishContract (parent : AppState -> Props.t) : Prop := {
  onFinish_answer : forall r w photos a,
    let '(a', ans, ev) := Props.onFinish (parent r) w photos a in
    touchesCamera ev = false
    /\ ((ans = Returns true /\ uploaded w ev = true)
        \/ (ans = Returns false /\ uploaded w ev = false
            /\ capturedPhotos a' = capturedPhotos a));
  onNextStudent_buffer : forall r a,
    capturedPhotos (fst (Props.onNextStudent (parent r) a)) = []
    /\ touchesCamera (snd (Props.onNextStudent (parent r) a)) = false;
  onClose_buffer : forall r a,
    capturedPhotos (Props.onClose (parent r) a) = []
}.

(** The two cells a finish is judged by. *)
Definition buffer (s : Session) : list Photo := capturedPhotos (app s).

Definition pending (s : Session) : option string := currentPhoto (capture s).

(** What a finish must do with the buffer, the pending frame and the
    camera, given its trace. *)
Definition finishOutcome (w : World) (s : Session)
    (result : Session * list Event) : Prop :=
  let (s', ev) := result in
  (if uploaded w ev
   then buffer s' = [] /\ pending s' = None
   else buffer s' = buffer s /\ pending s' = pending s)
  /\ stream (capture s') = stream (capture s)
  /\ touchesCamera ev = false.

(** The finish handlers of the repository: each component under each
    parent. *)
Definition finishHandlers : list (World -> Session -> Session * list Event) :=
  [PhotoCapture.handleFinish AppAuto.props;
   PhotoCaptureStatus.handleFinish App.props;
   PhotoCapture.handleFinish App.props;
   PhotoCaptureStatus.handleFinish AppAuto.props].

(** A session with two committed pages and a third frame pending, built
    with the handlers themselves. *)
Definition twoPagesAndPending : Session :=
  let s := PageBuffer.run AppAuto.props
             [PageBuffer.Append "page one" (sampleWorld 1);
              PageBuffer.Append "page two" (sampleWorld 2)] sampleSession in
  mkSession (app s) (setCurrentPhoto (Some "page three") (capture s)).

Definition validationMessage : string :=
  "Please capture at least one photo before finishing.".

(** [studentData.rollNumber] of the session. *)
Definition sessionRoll (s : Session) : string :=
  match selectedStudent (app s) with
  | Some st => rollNumber st
  | None => "Unknown"
  end.

(** The pending frame as the page that a finish makes of it. *)
Definition pendingPage (w : World) (s : Session) : list Photo :=
  match pending s with
  | Some image =>
      if String.eqb image "" then []
      else [mkPhoto (dateNow w) image (length (buffer s) + 1) (isoString w)
                    (sessionRoll s)]
  | None => []
  end.

(** The images and page numbers of the batches handed to [onFinish], and
    the file names of the batches sent to the uploader. *)
Definition submitted (ev : list Event) : list (list (string * nat)) :=
  flat_map (fun e => match e with
                     | OnFinish photos =>
                         [map (fun p => (data p, pageNumber p)) photos]
                     | _ => []
                     end) ev.

Definition sentFiles (ev : list Event) : list (list (string * string)) :=
  flat_map (fun e => match e with
                     | UploadScans _ formData =>
                         [flat_map (fun entry =>
                                      match entry with
                                      | FileEntry _ f => [(fileName f, blob f)]
                                      | TextEntry _ _ => []
                                      end) formData]
                     | _ => []
                     end) ev.

(** The constraints of the acquisition attempts of a trace, in order. *)
Definition attempts (ev : list Event) : list VideoConstraints :=
  flat_map (fun e => match e with GetUserMedia c => [c] | _ => [] end) ev.

Definition stopsTrack (ev : list Event) : bool :=
  existsb (fun e => match e with TrackStop _ => true | _ => false end) ev.

Definition capturing : CaptureState :=
  mkCapture None true (Some (mkStream [7; 8])) true None false.

(** The files of the calls to the uploader, in the order appended. *)
Definition uploadedFiles (ev : list Event) : list (list File) :=
  flat_map (fun e => match e with
                     | UploadScans _ formData =>
                         [flat_map (fun entry =>
                                      match entry with
                                      | FileEntry _ f => [f]
                                      | TextEntry _ _ => []
                                      end) formData]
                     | _ => []
                     end) ev.

Definition twoPages : list Photo :=
  [mkPhoto 1 "page one" 4 "t" "101"; mkPhoto 2 "page two" 9 "t" "101"].

(** * More of the code *)

(** ** The API service, src/unnamed/part_002 *)

Module Api.

(** [s.includes(p)] *)
Definition includes (p s : string) : bool := isSome (String.index 0 p s).

(** The [catch] of the wrapper that [createApiServiceWithErrorHandling]
    puts around every method: the message of the error thrown on. *)
Definition translate (message : string) : string :=
  if includes "NetworkError" message || includes "Failed to fetch" message
  then "Network error: Please check server connection."
  else if includes "404" message then "Requested resource not found."
  else if includes "500" message then "Server error: Please try again later."
  else message.

(** A method seen through the proxy. *)
Definition withErrorHandling (A : Type) (call : Answer A) : Answer A :=
  match call with
  | Returns value => Returns value
  | Throws message => Throws (translate message)
  end.
Arguments withErrorHandling {A} call.

(** A parsed JSON body, as far as [request] looks into it. *)
Record Data := mkData {
  payload : string;
  message : option string
}.

(** What [fetch] resolves to. *)
Record Response := mkResponse {
  ok : bool;
  contentType : option string;
  json : Answer Data
}.

(** [request(endpoint, options)], from the answer of [fetch] on: parsed
    data for a JSON response, the response itself otherwise.  In the
    branch without JSON the error built from the body is thrown inside a
    [try] whose [catch] throws ['Download failed']. *)
Definition request (fetched : Answer Response) : Answer (Data + Response) :=
  match fetched with
  | Throws m => Throws m
  | Returns response =>
      if Js.truthy (contentType response)
         && includes "application/json"
                     (match contentType response with
                      | Some t => t
                      | None => ""
                      end)
      then
        match json response with
        | Throws m => Throws m
        | Returns data =>
            if negb (ok response)
            then Throws (orElse (message data) "API request failed")
            else Returns (inl data)
        end
      else if negb (ok response) then
        let inner : Answer unit :=
          match json response with
          | Returns errorData =>
              Throws (orElse (message errorData) "Download failed")
          | Throws m => Throws m
          end in
        match inner with
        | Returns _ => Returns (inr response)
        | Throws _ => Throws "Download failed"
        end
      else Returns (inr response)
  end.

(** [\w] *)
Definition isWordChar (c : ascii) : bool :=
  let n := nat_of_ascii c in
  ((48 <=? n) && (n <=? 57)) || ((65 <=? n) && (n <=? 90))
  || ((97 <=? n) && (n <=? 122)) || (n =? 95).

(** What is left of [s] after its longest run of word characters. *)
Fixpoint afterWord (s : string) : string :=
  match s with
  | String c rest => if isWordChar c then afterWord rest else s
  | EmptyString => s
  end.

(** [s.slice(n)] *)
Definition drop (n : nat) (s : string) : string :=
  substring n (String.length s - n) s.

(** [base64Data.replace(/^data:image\/\w+;base64,/, '')]: [\w+] takes the
    longest run of word characters, and a shorter run cannot be followed
    by [;]. *)
Definition stripDataPrefix (base64Data : string) : string :=
  if String.prefix "data:image/" base64Data then
    let rest := drop 11 base64Data in
    let after := afterWord rest in
    if (String.length after <? String.length rest)
       && String.prefix ";base64," after
    then drop 8 after
    else base64Data
  else base64Data.

(** The loop [for (let offset = 0; offset < byteCharacters.length;
    offset += 512)]: one array of character codes per slice.  [fuel]
    bounds the number of turns. *)
Fixpoint byteArrays (fuel offset : nat) (byteCharacters : string)
    : list (list nat) :=
  match fuel with
  | 0 => []
  | S fuel' =>
      if offset <? String.length byteCharacters then
        map nat_of_ascii
            (list_ascii_of_string (substring offset 512 byteCharacters))
        :: byteArrays fuel' (offset + 512) byteCharacters
      else []
  end.

(** [new Blob(byteArrays)]: the arrays one after the other. *)
Definition blobOf (arrays : list (list nat)) : string :=
  string_of_list_ascii (map ascii_of_nat (concat arrays)).

(** [base64ToFile(base64Data, filename)]; [atob] throws on text that is
    not base64.  Every turn of the loop moves [offset] forward, so the
    length of the text is fuel enough. *)
Definition base64ToFile (atob : string -> Answer string)
    (base64Data filename : string) : Answer File :=
  match atob (stripDataPrefix base64Data) with
  | Throws m => Throws m
  | Returns byteCharacters =>
      Returns
        (mkFile filename "image/jpeg"
                (blobOf (byteArrays (String.length byteCharacters) 0
                                    byteCharacters)))
  end.

End Api.

(** ** The statistics bar, src/unnamed/part_001 *)

Module Stats.

(** [const remaining = total - scanned - absent - missing;] *)
Definition remaining (total scanned absent missing : Z) : Z :=
  (total - scanned - absent - missing)%Z.

End Stats.

(** ** The other handlers of src/src/App.jsx *)

(** Calls to the back end that the handlers below add to the events. *)
Inductive Request :=
| UpdateStudentStatus (studentId status : string)
| GeneratePDF (studentId : string)
| Ev (e : Event).

Module AppStatus.

(** [<Stats total={totalStudents}
            scanned={students.filter(s => s.isScanned).length}
            absent={students.filter(s => s.status === 'Absent').length}
            missing={students.filter(s => s.status === 'Missing').length} />] *)
Definition remaining (a : AppState) : Z :=
  Stats.remaining
    (Z.of_nat (totalStudents a))
    (Z.of_nat (length (filter isScanned (students a))))
    (Z.of_nat (length (filter (fun s => String.eqb (status s) "Absent")
                              (students a))))
    (Z.of_nat (length (filter (fun s => String.eqb (status s) "Missing")
                              (students a)))).

(** [{ ...student, status: newStatus }] *)
Definition withStatus (newStatus : string) (student : Student) : Student :=
  mkStudent (_id student) (rollNumber student) (name student) newStatus
            (isScanned student) (pdfPath student).

(** [prev.map(student => student._id === studentId ? ... : student)] *)
Definition updateStatus (studentId newStatus : string) (prev : list Student)
    : list Student :=
  map (fun student =>
         if String.eqb (_id student) studentId
         then withStatus newStatus student
         else student) prev.

(** [handleStatusChange]; [answer] is what [updateStudentStatus] resolves
    to ([response.success]) or throws.  The move to the next student runs
    from a timer, with the [handleNextStudent] of the render [r]. *)
Definition handleStatusChange (answer : Answer bool) (r : AppState)
    (studentId newStatus : string) (a : AppState)
    : AppState * list Request :=
  let call := UpdateStudentStatus studentId newStatus in
  match answer with
  | Returns true =>
      let a1 := setStudents (updateStatus studentId newStatus (students a)) a in
      if match selectedStudent r with
         | Some sel => String.eqb (_id sel) studentId
         | None => false
         end
         && (String.eqb newStatus "Absent" || String.eqb newStatus "Missing")
      then
        let (a2, ev) := App.handleNextStudent r a1 in
        (a2, call :: map Ev ev)
      else (a1, [call])
  | Returns false => (a, [call])
  | Throws _ => (setError (Some "Failed to update student status") a, [call])
  end.

(** The common text of [handleMarkAsAbsent] and [handleMarkAsMissing]. *)
Definition handleMarkAs (newStatus failure : string) (answer : Answer bool)
    (w : World) (r a : AppState) : AppState * list Request :=
  match selectedStudent r with
  | None => (a, [])
  | Some sel =>
      let call := UpdateStudentStatus (_id sel) newStatus in
      match answer with
      | Returns true =>
          let (a1, ev1) :=
            fetchStudents w (currentPage r) (itemsPerPage r) a in
          let (a2, ev2) := App.handleNextStudent r a1 in
          (a2, call :: map Ev (ev1 ++ ev2))
      | Returns false => (a, [call])
      | Throws _ => (setError (Some failure) a, [call])
      end
  end.

Definition handleMarkAsAbsent : Answer bool -> World -> AppState -> AppState
                                -> AppState * list Request :=
  handleMarkAs "Absent" "Failed to mark student as absent".

Definition handleMarkAsMissing : Answer bool -> World -> AppState -> AppState
                                 -> AppState * list Request :=
  handleMarkAs "Missing" "Failed to mark student as missing".

(** [handleScanRequest(student)] *)
Definition handleScanRequest (student : Student) (a : AppState) : AppState :=
  setCapturedPhotos []
    (setShowPhotoCapture true (setSelectedStudent (Some student) a)).

(** [handleGeneratePDF(student)]; [answer] is [result.success] or the
    error of [generatePDF]. *)
Definition handleGeneratePDF (answer : Answer bool) (w : World)
    (r : AppState) (student : Student) (a : AppState)
    : AppState * list Request :=
  let call := GeneratePDF (_id student) in
  match answer with
  | Returns true =>
      let (a1, ev) := fetchStudents w (currentPage r) (itemsPerPage r) a in
      (a1, call :: map Ev ev)
  | Returns false => (a, [call])
  | Throws _ =>
      (setError (Some "PDF download failed. Please try again.") a, [call])
  end.

End AppStatus.

(** ** The other handlers of src/unnamed/part_000 *)

Module AppAutoPdf.

(** [handleGeneratePDF(student)] with its two guards; [answer] is
    [result.success] or the message of the error of [generatePDF]. *)
Definition handleGeneratePDF (answer : Answer bool) (w : World)
    (r : AppState) (student : Student) (a : AppState)
    : AppState * list Request :=
  let a0 := setError None a in
  if negb (isScanned student) then
    (setError
       (Some "Student has not been scanned yet. Please scan copies first.")
       a0, [])
  else if negb (Js.truthy (pdfPath student)) then
    (setError
       (Some "PDF not generated yet. Please wait or rescan the copies.")
       a0, [])
  else
    let call := GeneratePDF (_id student) in
    match answer with
    | Returns true =>
        let (a1, ev) := fetchStudents w (currentPage r) (itemsPerPage r) a0 in
        (a1, call :: map Ev ev)
    | Returns false => (a0, [call])
    | Throws m =>
        (setError
           (Some (orElse (Some m)
                         "PDF download failed. Please try scanning again."))
           a0, [call])
    end.

End AppAutoPdf.

(** ** The keyboard shortcuts of PhotoCapture.jsx (first component) *)

Module PhotoCaptureKeys.

(** The [keydown] event as far as the handler reads it: [e.key] and
    [e.target.tagName]. *)
Record KeyboardEvent := mkKey {
  key : string;
  targetTagName : string
}.

(** [names.includes(k)] *)
Definition isKey (k : string) (names : list string) : bool :=
  existsb (String.eqb k) names.

(** [handleKeyPress(e)]; [activeElement] is
    [document.activeElement?.tagName].  The result carries whether
    [e.preventDefault()] was called. *)
Definition handleKeyPress (parent : AppState -> Props.t) (w : World)
    (e : KeyboardEvent) (activeElement : option string) (s : Session)
    : Session * list Event * bool :=
  if isKey (targetTagName e) ["INPUT"; "TEXTAREA"; "SELECT"]
  then (s, [], false)
  else
    let isFocusOnButton :=
      match activeElement with
      | Some tagName => String.eqb tagName "BUTTON"
      | None => false
      end in
    if isFocusOnButton && String.eqb (key e) "Enter" then (s, [], false)
    else
      let prevented :=
        isKey (key e) ["r"; "R"; "c"; "C"; "k"; "K"; "f"; "F"; "a"; "A";
                       "n"; "N"; "Escape"] in
      let p := parent (app s) in
      let hasPhoto := Js.truthy (currentPhoto (capture s)) in
      let '(s', ev) :=
        if String.eqb (key e) "Enter" then
          if negb isFocusOnButton then
            if negb hasPhoto && negb (isProcessing (capture s))
               && cameraReady (capture s)
            then
              let (c', ev) := PhotoCapture.handleTakePhoto w (capture s) in
              (mkSession (app s) c', ev)
            else if hasPhoto
            then (PhotoCapture.handleKeepAndAddMore parent w s, [])
            else (s, [])
          else (s, [])
        else if isKey (key e) ["r"; "R"] then
          if hasPhoto then (PhotoCapture.handleRetake s, []) else (s, [])
        else if isKey (key e) ["k"; "K"; "f"; "F"] then
          if (0 <? length (Props.capturedPhotos p)) || hasPhoto
          then PhotoCapture.handleFinish parent w s
          else (s, [])
        else if isKey (key e) ["a"; "A"] then
          if hasPhoto
          then (PhotoCapture.handleKeepAndAddMore parent w s, [])
          else (s, [])
        else if isKey (key e) ["n"; "N"] then
          if Props.hasNextStudent p && negb (uploading (capture s))
          then PhotoCapture.handleNextStudent parent s
          else (s, [])
        else if String.eqb (key e) "Escape" then closeSession parent s
        else (s, [])
      in
      (s', ev, prevented).

End PhotoCaptureKeys.

(** ** Observations and sample data for the further properties *)

(** One press of the N key outside any form field, no button focused.
    The key acts like the "Next Student" button, which is drawn only while
    [hasNextStudent] holds and is disabled while uploading. *)
Definition pressN (w : World) (s : Session) : Session :=
  fst (fst (PhotoCaptureKeys.handleKeyPress App.props w
              (PhotoCaptureKeys.mkKey "n" "BODY") None s)).

(** [n] presses, each in the render of the session the press before it
    left. *)
Fixpoint pressNext (w : World) (n : nat) (s : Session) : Session :=
  match n with
  | 0 => s
  | S n' => pressNext w n' (pressN w s)
  end.

Definition longApp : AppState :=
  mkApp [studentA; studentB; studentC; studentM;
         mkStudent "d" "105" "D" "Pending" true None;
         mkStudent "e" "106" "E" "Pending" false None]
        (Some studentA) true [] false None 1 50 6 1.

(** A session on the first student of [longApp], camera held. *)
Definition longSession : Session :=
  mkSession longApp
            (mkCapture None false (Some (mkStream [7; 8])) true None false).

(** A back end that holds the roster of [longApp] with student A marked
    Absent. *)
Definition markedWorld : World :=
  mkWorld (fun _ => Throws "NotAllowedError") false
          (Throws "no ImageCapture") (Throws "no frame")
          (fun url => Returns url)
          (fun _ _ => Returns (UploadResponse.mk true None None))
          (fun _ _ =>
             Returns (StudentsResponse.mk true
                        (AppStatus.updateStatus "a" "Absent" (students longApp))
                        6 1 1))
          1 0 "2024-01-01T00:00:00.000Z".

Definition count (f : Student -> bool) (l : list Student) : Z :=
  Z.of_nat (length (filter f l)).

(** Still to be scanned: not scanned, not Absent, not Missing. *)
Definition stillOpen (s : Student) : bool :=
  negb (isScanned s) && negb (String.eqb (status s) "Absent")
  && negb (String.eqb (status s) "Missing").

(** Counted twice by the bar: scanned and also Absent or Missing. *)
Definition countedTwice (s : Student) : bool :=
  isScanned s
  && (String.eqb (status s) "Absent" || String.eqb (status s) "Missing").

Definition asksForPDF (ev : list Request) : bool :=
  existsb (fun q => match q with GeneratePDF _ => true | _ => false end) ev.

(** The response announces JSON. *)
Definition isJson (response : Api.Response) : bool :=
  Js.truthy (Api.contentType response)
  && Api.includes "application/json"
       (match Api.contentType response with Some t => t | None => "" end).

(** The trace only talks to the back end. *)
Definition onlyBackend (ev : list Event) : bool :=
  forallb (fun e => match e with
                    | Fetch _ | UploadScans _ _ | GetStudents _ _ => true
                    | _ => false
                    end) ev.

(** A world where the image "page two" cannot be fetched. *)
Definition tornWorld : World :=
  mkWorld (fun _ => Throws "NotAllowedError") false
          (Throws "no ImageCapture") (Throws "no frame")
          (fun url => if String.eqb url "page two"
                      then Throws "bad data URL" else Returns url)
          (fun _ _ => Returns (UploadResponse.mk true None None))
          (fun _ _ => Throws "offline")
          1 0 "2024-01-01T00:00:00.000Z".

(** The file may enter the pending frame. *)
Definition importable (f : PhotoCapture.Picked) : bool :=
  Js.startsWith "image/" (PhotoCapture.type f)
  && (PhotoCapture.size f <=? 10 * 1024 * 1024)%N
  && match PhotoCapture.readAsDataURL f with
     | Returns _ => true
     | Throws _ => false
     end.

(** A browser without the still-capture primitive whose canvas works. *)
Definition canvasWorld : World :=
  mkWorld (fun _ => Returns (mkStream [7; 8])) false
          (Throws "no ImageCapture") (Returns "data:image/jpeg;base64,AA")
          (fun url => Returns url)
          (fun _ _ => Returns (UploadResponse.mk true None None))
          (fun _ _ => Throws "offline")
          1 0 "2024-01-01T00:00:00.000Z".

(** A world known only by its clock and its random number. *)
Definition clockWorld (now random : Q) : World :=
  mkWorld (fun _ => Throws "NotAllowedError") false
          (Throws "no ImageCapture") (Throws "no frame")
          (fun url => Returns url)
          (fun _ _ => Returns (UploadResponse.mk true None None))
          (fun _ _ => Throws "offline")
          now random "2024-01-01T00:00:00.000Z".

Definition pagesOf (photos : list Photo) : list (string * nat) :=
  map (fun p => (data p, pageNumber p)) photos.

(** [photo.id !== photoId] *)
Definition otherId (photoId : Q) (photo : Photo) : bool :=
  negb (Qeq_bool (id photo) photoId).

Definition typing (e : PhotoCaptureKeys.KeyboardEvent) : bool :=
  PhotoCaptureKeys.isKey (PhotoCaptureKeys.targetTagName e)
                         ["INPUT"; "TEXTAREA"; "SELECT"].

(** A session that is uploading, with two pages and a pending frame. *)
Definition uploadingSession : Session :=
  mkSession (app twoPagesAndPending)
            (setUploading true (capture twoPagesAndPending)).

(** The manual "next student" of each component under each parent. *)
Definition skipHandlers : list (Session -> Session * list Event) :=
  [PhotoCapture.handleNextStudent AppAuto.props;
   PhotoCaptureStatus.handleNextStudent App.props;
   PhotoCapture.handleNextStudent App.props;
   PhotoCaptureStatus.handleNextStudent AppAuto.props].

(** * Properties *)

(** ** Roster navigation *)

Lemma findIndex_Some (A : Type) (p : A -> bool) (l : list A) (k : nat) :
  Js.findIndex p l = Some k ->
  (exists x, nth_error l k = Some x /\ p x = true)
  /\ forall j y, j < k -> nth_error l j = Some y -> p y = false.
Proof.
  revert k; induction l as [|x r IH]; intros k; simpl; [discriminate|].
  destruct (p x) eqn:Hx.
  - intros [= <-]. split; [exists x; auto | intros j y Hj; lia].
  - destruct (Js.findIndex p r) as [i|]; [|discriminate].
    intros [= <-]. destruct (IH i eq_refl) as [Hex Hbefore].
    split; [exact Hex|].
    intros [|j] y Hj; simpl; [intros [= <-]; exact Hx|].
    apply Hbefore; lia.
Qed.

(** [None] from [findIndex] means that no element passes the test. *)
Lemma findIndex_None (A : Type) (p : A -> bool) (l : list A) :
  Js.findIndex p l = None -> forall x, In x l -> p x = false.
Proof.
  induction l as [|x r IH]; simpl; [intros _ y []|].
  destruct (p x) eqn:Hx; [discriminate|].
  destruct (Js.findIndex p r); [discriminate|].
  intros _ y [<-|Hy]; auto.
Qed.

Lemma findIndex_lt (A : Type) (p : A -> bool) (l : list A) (k : nat) :
  Js.findIndex p l = Some k -> k < length l.
Proof.
  intros H. destruct (findIndex_Some _ _ _ _ H) as [[x [Hx _]] _].
  apply nth_error_Some. congruence.
Qed.

Lemma App_scan_Some students i n s :
  App.scan students i n = Some s ->
  exists j, i <= j < i + n /\ nth_error students j = Some s
            /\ App.eligible s = true
            /\ forall k t, i <= k < j -> nth_error students k = Some t ->
                           App.eligible t = false.
Proof.
  revert i; induction n as [|n IH]; intros i; simpl; [discriminate|].
  destruct (nth_error students i) as [x|] eqn:Hi; [|discriminate].
  destruct (App.eligible x) eqn:Hx.
  - intros [= <-]. exists i.
    split; [lia|]. split; [exact Hi|]. split; [exact Hx|].
    intros k t Hk; lia.
  - intros H. destruct (IH _ H) as [j [Hj [Hn [He Hb]]]].
    exists j.
    split; [lia|]. split; [exact Hn|]. split; [exact He|].
    intros k t Hk Hkt. destruct (Nat.eq_dec k i) as [->|Hne].
    + congruence.
    + apply (Hb k); auto; lia.
Qed.

Lemma App_scan_None students i n :
  i + n <= length students ->
  App.scan students i n = None ->
  forall k t, i <= k < i + n -> nth_error students k = Some t ->
              App.eligible t = false.
Proof.
  revert i; induction n as [|n IH]; intros i Hlen; simpl.
  - intros _ k t Hk; lia.
  - destruct (nth_error students i) as [x|] eqn:Hi.
    + destruct (App.eligible x) eqn:Hx; [discriminate|].
      intros H k t Hk Hkt. destruct (Nat.eq_dec k i) as [->|Hne].
      * congruence.
      * apply (IH (S i)) with (k := k); auto; lia.
    + apply nth_error_None in Hi. lia.
Qed.

Lemma App_eligible_true s :
  App.eligible s = true -> status s = "Pending" /\ isScanned s = false.
Proof.
  unfold App.eligible. intros H. apply andb_true_iff in H as [Hs Hn].
  apply String.eqb_eq in Hs. apply negb_true_iff in Hn. auto.
Qed.

(** The navigator of src/src/App.jsx meets the rule of the roster
    navigator in full: with [k] the first position whose [_id] is the
    current one, the result is the first student after [k] that is Pending
    and not scanned; nothing at or before [k] is returned, nothing is
    wrapped around, and the result is [None] when no student is selected,
    when the current [_id] is not in the sequence, and when no student after
    [k] qualifies. *)
Theorem App_getNextStudent_spec (students : list Student) (sel : Student) :
  App.getNextStudent students None = None
  /\ match Js.findIndex (fun s => String.eqb (_id s) (_id sel)) students with
     | None => App.getNextStudent students (Some sel) = None
     | Some k =>
         match App.getNextStudent students (Some sel) with
         | Some s =>
             exists i, k < i /\ nth_error students i = Some s
                       /\ status s = "Pending" /\ isScanned s = false
                       /\ forall j t, k < j < i ->
                                      nth_error students j = Some t ->
                                      App.eligible t = false
         | None =>
             forall j t, k < j -> nth_error students j = Some t ->
                         App.eligible t = false
         end
     end.
Proof.
  split; [reflexivity|].
  unfold App.getNextStudent.
  destruct (Js.findIndex _ students) as [k|] eqn:Hk.
  - pose proof (findIndex_lt _ _ _ _ Hk) as Hlt.
    destruct (Nat.eqb_spec (length students) 0) as [H0|_]; [lia|].
    destruct (App.scan students (k + 1) (length students - (k + 1)))
      as [s|] eqn:Hs.
    + destruct (App_scan_Some _ _ _ _ Hs) as [i [Hi [Hn [He Hb]]]].
      destruct (App_eligible_true _ He) as [Hp Hsc].
      exists i.
      split; [lia|]. split; [exact Hn|]. split; [exact Hp|].
      split; [exact Hsc|].
      intros j t Hj. apply Hb; lia.
    + intros j t Hj Hjt.
      assert (j < length students) by (apply nth_error_Some; congruence).
      apply (App_scan_None students (k + 1) (length students - (k + 1)))
        with (k := j); auto; lia.
  - destruct (Nat.eqb (length students) 0); reflexivity.
Qed.

(** The result depends on the selected student through its [_id] only. *)
Lemma App_getNextStudent_by_id students a b :
  _id a = _id b ->
  App.getNextStudent students (Some a) = App.getNextStudent students (Some b).
Proof. unfold App.getNextStudent. intros ->. reflexivity. Qed.

(** The scenario of the roster [A(Pending), B(Absent), C(Pending)] with A
    current: C is next. *)
Example App_getNextStudent_skips_absent :
  App.getNextStudent [studentA; studentB; studentC] (Some studentA)
  = Some studentC.
Proof. reflexivity. Qed.

Example App_getNextStudent_skips_missing :
  App.getNextStudent [studentA; studentM; studentC] (Some studentA)
  = Some studentC.
Proof. reflexivity. Qed.

Lemma scan_agree students : forall n i,
  (forall s, In s students -> status s = "Pending" \/ status s = "Absent") ->
  AppAuto.scan students i n = App.scan students i n.
Proof.
  induction n as [|n IH]; intros i Hall; simpl; [reflexivity|].
  destruct (nth_error students i) as [s|] eqn:Hi; [|reflexivity].
  assert (He : AppAuto.eligible s = App.eligible s).
  { unfold AppAuto.eligible, App.eligible.
    destruct (Hall s (nth_error_In _ _ Hi)) as [-> | ->];
      destruct (isScanned s); reflexivity. }
  rewrite He, (IH (S i) Hall). reflexivity.
Qed.

(** The two revisions of the navigator agree on every roster whose
    students are all Pending or Absent. *)
Lemma AppAuto_getNextStudent_agrees students sel currentPage totalPages :
  (forall s, In s students -> status s = "Pending" \/ status s = "Absent") ->
  AppAuto.getNextStudent students sel currentPage totalPages
  = App.getNextStudent students sel.
Proof.
  intros Hall. unfold AppAuto.getNextStudent, App.getNextStudent.
  destruct sel as [sel|]; [|reflexivity].
  destruct (Nat.eqb (length students) 0); [reflexivity|].
  destruct (Js.findIndex _ students) as [k|]; [|reflexivity].
  rewrite (scan_agree students _ _ Hall).
  destruct (App.scan students (k + 1) (length students - (k + 1)));
    [reflexivity|].
  destruct (Nat.ltb currentPage totalPages); reflexivity.
Qed.

(** C1, on src/unnamed/part_000: the test of that revision is
    [!isScanned && status !== 'Absent'], so with the roster
    [A(Pending), M(Missing), C(Pending)] and A current it returns the
    Missing student M, where the revision of src/src/App.jsx returns C. *)
Theorem AppAuto_getNextStudent_returns_missing :
  AppAuto.getNextStudent [studentA; studentM; studentC] (Some studentA) 1 1
  = Some studentM
  /\ status studentM <> "Pending"
  /\ App.getNextStudent [studentA; studentM; studentC] (Some studentA)
     = Some studentC.
Proof. repeat split. discriminate. Qed.

(** ** The page buffer *)

Lemma App_wired : wired App.props.
Proof. repeat split. Qed.

Lemma AppAuto_wired : wired AppAuto.props.
Proof. repeat split. Qed.

Lemma nth_error_filter_origin (A : Type) (f : A -> bool) (l : list A) :
  forall i x, nth_error (filter f l) i = Some x ->
              exists j, i <= j /\ nth_error l j = Some x.
Proof.
  induction l as [|y r IH]; intros i x; simpl.
  - destruct i; discriminate.
  - destruct (f y).
    + destruct i as [|i]; simpl.
      * intros H. exists 0. split; [lia | exact H].
      * intros H. destruct (IH _ _ H) as [j [Hj Hn]].
        exists (S j). split; [lia | exact Hn].
    + intros H. destruct (IH _ _ H) as [j [Hj Hn]].
      exists (S j). split; [lia | exact Hn].
Qed.

Lemma atLeastPosition_filter f buf :
  atLeastPosition buf -> atLeastPosition (filter f buf).
Proof.
  intros Hinv i p Hi.
  destruct (nth_error_filter_origin _ f buf i p Hi) as [j [Hj Hn]].
  specialize (Hinv j p Hn). lia.
Qed.

Lemma atLeastPosition_snoc buf p :
  atLeastPosition buf -> pageNumber p = length buf + 1 ->
  atLeastPosition (buf ++ [p]).
Proof.
  intros Hinv Hp i q Hi.
  destruct (Nat.lt_ge_cases i (length buf)) as [Hlt|Hge].
  - rewrite nth_error_app1 in Hi by exact Hlt. exact (Hinv i q Hi).
  - rewrite nth_error_app2 in Hi by exact Hge.
    destruct (i - length buf) as [|d] eqn:Hd; simpl in Hi.
    + injection Hi as <-. lia.
    + destruct d; discriminate.
Qed.

Lemma numbers_snoc buf p :
  map pageNumber buf = seq 1 (length buf) ->
  pageNumber p = length buf + 1 ->
  map pageNumber (buf ++ [p]) = seq 1 (length (buf ++ [p])).
Proof.
  intros Hbuf Hp.
  rewrite map_app, length_app, seq_app, Hbuf. simpl.
  rewrite Hp. do 2 f_equal. lia.
Qed.

Section WiredParent.

Variable parent : AppState -> Props.t.
Hypothesis Hwired : wired parent.

(** Keeping a frame either leaves the buffer alone or puts one page at
    its end, numbered previous length + 1. *)
Lemma handleKeepAndAddMore_buffer w s :
  let buf := capturedPhotos (app s) in
  let buf' := capturedPhotos (app (PhotoCapture.handleKeepAndAddMore parent w s)) in
  buf' = buf
  \/ exists p, buf' = buf ++ [p] /\ pageNumber p = length buf + 1
               /\ Some (data p) = currentPhoto (capture s).
Proof.
  destruct Hwired as [Hcap [Hupd _]].
  unfold PhotoCapture.handleKeepAndAddMore,
         PhotoCapture.addCurrentPhotoToCaptured.
  destruct (Js.truthy _ && negb _); [|left; reflexivity].
  destruct (currentPhoto (capture s)) as [photo|]; [|left; reflexivity].
  destruct (String.eqb photo ""); [left; reflexivity|].
  right. simpl. rewrite Hupd, Hcap. simpl.
  eexists. split; [reflexivity|]. simpl. auto.
Qed.

(** Removing keeps the other pages, their order and their stored
    numbers. *)
Lemma handleRemovePhoto_buffer photoId s :
  capturedPhotos (app (PhotoCapture.handleRemovePhoto parent photoId s))
  = filter (fun photo => negb (Qeq_bool (id photo) photoId))
           (capturedPhotos (app s)).
Proof.
  destruct Hwired as [_ [Hupd _]].
  unfold PhotoCapture.handleRemovePhoto. simpl. rewrite Hupd. reflexivity.
Qed.

(** An append of a non-empty image outside a capture in flight puts the
    page last, numbered previous length + 1. *)
Lemma step_append_buffer w s image :
  image <> "" -> isProcessing (capture s) = false ->
  exists p,
    capturedPhotos (app (PageBuffer.step parent s (PageBuffer.Append image w)))
    = capturedPhotos (app s) ++ [p]
    /\ pageNumber p = length (capturedPhotos (app s)) + 1
    /\ data p = image.
Proof.
  intros Himage Hidle. destruct Hwired as [Hcap [Hupd _]].
  apply String.eqb_neq in Himage.
  unfold PageBuffer.step, PhotoCapture.handleKeepAndAddMore,
         PhotoCapture.addCurrentPhotoToCaptured.
  simpl. rewrite Himage, Hidle. simpl. rewrite Hupd, Hcap. simpl.
  eexists. split; [reflexivity|]. split; reflexivity.
Qed.

Lemma step_atLeastPosition s op :
  atLeastPosition (capturedPhotos (app s)) ->
  atLeastPosition (capturedPhotos (app (PageBuffer.step parent s op))).
Proof.
  intros Hinv. destruct op as [image w|photoId]; unfold PageBuffer.step.
  - destruct (handleKeepAndAddMore_buffer w
                (mkSession (app s) (setCurrentPhoto (Some image) (capture s))))
      as [Heq|[p [Heq [Hp _]]]]; simpl in *; rewrite Heq.
    + exact Hinv.
    + apply atLeastPosition_snoc; assumption.
  - rewrite handleRemovePhoto_buffer. apply atLeastPosition_filter, Hinv.
Qed.

Lemma run_atLeastPosition ops : forall s,
  atLeastPosition (capturedPhotos (app s)) ->
  atLeastPosition (capturedPhotos (app (PageBuffer.run parent ops s))).
Proof.
  induction ops as [|op ops IH]; intros s Hinv; simpl; [exact Hinv|].
  apply IH, step_atLeastPosition, Hinv.
Qed.

Lemma run_appends_numbers appends : forall s,
  PageBuffer.pageNumbers s = seq 1 (length (capturedPhotos (app s))) ->
  let s' := PageBuffer.run parent
              (map (fun iw => PageBuffer.Append (fst iw) (snd iw)) appends) s in
  PageBuffer.pageNumbers s' = seq 1 (length (capturedPhotos (app s'))).
Proof.
  induction appends as [|[image w] appends IH]; intros s Hs; simpl;
    [exact Hs|].
  apply IH. unfold PageBuffer.pageNumbers in *.
  destruct (handleKeepAndAddMore_buffer w
              (mkSession (app s) (setCurrentPhoto (Some image) (capture s))))
    as [Heq|[p [Heq [Hp _]]]]; simpl in *; rewrite Heq.
  - exact Hs.
  - apply numbers_snoc; assumption.
Qed.

End WiredParent.

(** C2, as stated, fails: append twice and remove the first page; the page
    left is first in the buffer and still carries the number 2, and one
    more append stores a second page numbered 2. *)
Lemma PageBuffer_numbers_counterexample :
  let ops := [PageBuffer.Append "page one" (sampleWorld 1);
              PageBuffer.Append "page two" (sampleWorld 2);
              PageBuffer.Remove 1] in
  let s := PageBuffer.run AppAuto.props ops sampleSession in
  map data (capturedPhotos (app s)) = ["page two"]
  /\ PageBuffer.pageNumbers s = [2]
  /\ PageBuffer.pageNumbers s <> seq 1 (length (capturedPhotos (app s)))
  /\ PageBuffer.pageNumbers
       (PageBuffer.step AppAuto.props s
          (PageBuffer.Append "page three" (sampleWorld 3)))
     = [2; 2].
Proof.
  vm_compute. repeat split. discriminate.
Qed.

(** C2, amended: the stored page number is the one given at append
    (previous buffer length + 1) and is never rewritten.  From an empty
    buffer, after any sequence of appends and removes every remaining page
    has a stored number at least its 1-based position; after appends only
    the stored numbers are exactly the 1-based positions; a remove keeps
    all pages with another id, in order, with their stored numbers; an
    append of a non-empty image puts the page last, numbered previous
    length + 1.  This holds under both parents. *)
Theorem PageBuffer_stored_numbers (a : AppState) (c : CaptureState) :
  Forall
    (fun parent =>
       let s0 := mkSession (setCapturedPhotos [] a) c in
       (forall ops,
           atLeastPosition
             (capturedPhotos (app (PageBuffer.run parent ops s0))))
       /\ (forall appends,
              let s' := PageBuffer.run parent
                          (map (fun iw => PageBuffer.Append (fst iw) (snd iw))
                               appends) s0 in
              PageBuffer.pageNumbers s'
              = seq 1 (length (capturedPhotos (app s'))))
       /\ (forall photoId s,
              capturedPhotos
                (app (PhotoCapture.handleRemovePhoto parent photoId s))
              = filter (fun photo => negb (Qeq_bool (id photo) photoId))
                       (capturedPhotos (app s)))
       /\ (forall w s image,
              image <> "" -> isProcessing (capture s) = false ->
              exists p,
                capturedPhotos
                  (app (PageBuffer.step parent s (PageBuffer.Append image w)))
                = capturedPhotos (app s) ++ [p]
                /\ pageNumber p = length (capturedPhotos (app s)) + 1
                /\ data p = image))
    [App.props; AppAuto.props].
Proof.
  assert (Hgen : forall parent, wired parent ->
            let s0 := mkSession (setCapturedPhotos [] a) c in
            (forall ops,
                atLeastPosition
                  (capturedPhotos (app (PageBuffer.run parent ops s0))))
            /\ (forall appends,
                   let s' := PageBuffer.run parent
                               (map (fun iw => PageBuffer.Append (fst iw) (snd iw))
                                    appends) s0 in
                   PageBuffer.pageNumbers s'
                   = seq 1 (length (capturedPhotos (app s'))))
            /\ (forall photoId s,
                   capturedPhotos
                     (app (PhotoCapture.handleRemovePhoto parent photoId s))
                   = filter (fun photo => negb (Qeq_bool (id photo) photoId))
                            (capturedPhotos (app s)))
            /\ (forall w s image,
                   image <> "" -> isProcessing (capture s) = false ->
                   exists p,
                     capturedPhotos
                       (app (PageBuffer.step parent s
                               (PageBuffer.Append image w)))
                     = capturedPhotos (app s) ++ [p]
                     /\ pageNumber p = length (capturedPhotos (app s)) + 1
                     /\ data p = image)).
  { intros parent Hw. split; [|split; [|split]].
    - intros ops. apply run_atLeastPosition; [exact Hw|].
      intros i p Hi. destruct i; discriminate.
    - intros appends. apply run_appends_numbers; [exact Hw|reflexivity].
    - intros photoId s. apply handleRemovePhoto_buffer, Hw.
    - intros w s image. apply step_append_buffer, Hw. }
  apply Forall_cons; [exact (Hgen _ App_wired)|].
  apply Forall_cons; [exact (Hgen _ AppAuto_wired)|].
  apply Forall_nil.
Qed.

(** ** The upload transaction *)

Lemma existsb_fetches f photos :
  (forall url, f (Fetch url) = false) -> existsb f (fetches photos) = false.
Proof.
  intros Hf. unfold fetches. induction photos as [|p r IH]; simpl; auto.
  rewrite Hf. exact IH.
Qed.

Lemma capturedPhotos_fetchStudents w page limit a :
  capturedPhotos (fst (fetchStudents w page limit a)) = capturedPhotos a
  /\ selectedStudent (fst (fetchStudents w page limit a)) = selectedStudent a
  /\ showPhotoCapture (fst (fetchStudents w page limit a)) = showPhotoCapture a
  /\ snd (fetchStudents w page limit a) = [GetStudents page limit].
Proof.
  unfold fetchStudents.
  destruct (getStudents w page limit) as [r|m];
    [destruct (StudentsResponse.success r)|]; repeat split.
Qed.

Ltac trace_simpl :=
  unfold touchesCamera, uploaded, callsUploader;
  repeat (rewrite existsb_app || rewrite existsb_fetches by reflexivity);
  simpl.

Lemma App_finishContract : finishContract App.props.
Proof.
  constructor.
  - intros r w photos a. simpl. unfold App.handlePhotosCaptured.
    destruct (selectedStudent r) as [sel|];
      [|split; [reflexivity | right; repeat split]].
    destruct (Nat.eqb (length photos) 0);
      [split; [reflexivity | right; repeat split]|].
    destruct (imageFiles w _ 0 photos) as [files|m].
    + destruct (uploadScans w (_id sel) (imagesForm files)) as [resp|m] eqn:Hup.
      * destruct (UploadResponse.success resp) eqn:Hok.
        -- destruct (fetchStudents w (currentPage r) (itemsPerPage r) a)
             as [a' ev] eqn:Hf.
           pose proof (capturedPhotos_fetchStudents w (currentPage r)
                         (itemsPerPage r) a) as [_ [_ [_ Hev]]].
           rewrite Hf in Hev. simpl in Hev. subst ev.
           split; [trace_simpl; reflexivity|].
           left. split; [reflexivity|]. trace_simpl. rewrite Hup, Hok.
           reflexivity.
        -- split; [trace_simpl; reflexivity|].
           right. split; [reflexivity|]. split; [|reflexivity].
           trace_simpl. rewrite Hup, Hok. reflexivity.
      * split; [trace_simpl; reflexivity|].
        right. split; [reflexivity|]. split; [|reflexivity].
        trace_simpl. rewrite Hup. reflexivity.
    + split; [trace_simpl; reflexivity|].
      right. split; [reflexivity|]. split; [|reflexivity].
      trace_simpl. reflexivity.
  - intros r a. simpl. unfold App.handleNextStudent.
    destruct (App.getNextStudent _ _); repeat split.
  - intros r a. reflexivity.
Qed.

Lemma AppAuto_finishContract : finishContract AppAuto.props.
Proof.
  constructor.
  - intros r w photos a. simpl. unfold AppAuto.handlePhotosCaptured.
    destruct (selectedStudent r) as [sel|];
      [|split; [reflexivity | right; repeat split]].
    destruct (Nat.eqb (length photos) 0);
      [split; [reflexivity | right; repeat split]|].
    destruct (imageFiles w _ 0 photos) as [files|m].
    + match goal with
      | |- context [uploadScans w ?i ?f] =>
          destruct (uploadScans w i f) as [resp|m] eqn:Hup
      end.
      * destruct (UploadResponse.success resp) eqn:Hok.
        -- destruct (fetchStudents w (currentPage r) (itemsPerPage r)
                       (setError None a)) as [a' ev] eqn:Hf.
           pose proof (capturedPhotos_fetchStudents w (currentPage r)
                         (itemsPerPage r) (setError None a))
             as [_ [_ [_ Hev]]].
           rewrite Hf in Hev. simpl in Hev. subst ev.
           destruct (AppAuto.getNextStudent _ _ _ _).
           ++ split; [trace_simpl; reflexivity|].
              left. split; [reflexivity|]. trace_simpl. rewrite Hup, Hok.
              reflexivity.
           ++ split; [trace_simpl; reflexivity|].
              left. split; [reflexivity|]. trace_simpl. rewrite Hup, Hok.
              reflexivity.
        -- split; [trace_simpl; reflexivity|].
           right. split; [reflexivity|]. split; [|reflexivity].
           trace_simpl. rewrite Hup, Hok. reflexivity.
      * split; [trace_simpl; reflexivity|].
        right. split; [reflexivity|]. split; [|reflexivity].
        trace_simpl. rewrite Hup. reflexivity.
    + split; [trace_simpl; reflexivity|].
      right. split; [reflexivity|]. split; [|reflexivity].
      trace_simpl. reflexivity.
  - intros r a. simpl. unfold AppAuto.handleNextStudent.
    destruct (AppAuto.getNextStudent _ _ _ _); repeat split.
  - intros r a. reflexivity.
Qed.

Section FinishUnderContract.

Variable parent : AppState -> Props.t.
Hypothesis Hwired : wired parent.
Hypothesis Hcontract : finishContract parent.

Lemma PhotoCapture_handleFinish_outcome w s :
  finishOutcome w s (PhotoCapture.handleFinish parent w s).
Proof.
  destruct Hwired as [Hcap [Hupd _]].
  unfold finishOutcome, PhotoCapture.handleFinish, buffer, pending.
  destruct (Nat.eqb _ 0); [simpl; auto|].
  pose proof (onFinish_answer _ Hcontract (app s) w
                (PhotoCapture.finalPhotos parent w s) (app s)) as Hans.
  destruct (Props.onFinish (parent (app s)) w
              (PhotoCapture.finalPhotos parent w s) (app s))
    as [[a ans] ev].
  destruct Hans as [Hcam [[-> Hup]|[-> [Hup Hbuf]]]].
  - simpl. rewrite Hup, Hupd. simpl. auto.
  - simpl. rewrite Hup. simpl. auto.
Qed.

Lemma PhotoCaptureStatus_handleFinish_outcome w s :
  finishOutcome w s (PhotoCaptureStatus.handleFinish parent w s).
Proof.
  destruct Hwired as [Hcap [Hupd _]].
  unfold finishOutcome, PhotoCaptureStatus.handleFinish, buffer, pending.
  destruct (Nat.eqb _ 0); [simpl; auto|].
  pose proof (onFinish_answer _ Hcontract (app s) w
                (PhotoCapture.finalPhotos parent w s) (app s)) as Hans.
  destruct (Props.onFinish (parent (app s)) w
              (PhotoCapture.finalPhotos parent w s) (app s))
    as [[a ans] ev].
  destruct Hans as [Hcam [[-> Hup]|[-> [Hup Hbuf]]]].
  - destruct (Props.hasNextStudent (parent (app s))).
    + pose proof (onNextStudent_buffer _ Hcontract (app s)
                    (Props.onPhotosUpdate (parent (app s))
                       (fun _ : list Photo => @nil Photo) a))
        as [Hempty Hcam2].
      destruct (Props.onNextStudent (parent (app s)) _) as [a2 ev2].
      simpl in *. unfold uploaded in *. unfold touchesCamera in *.
      rewrite !existsb_app. fold (uploaded w ev2).
      rewrite Hup, Hcam, Hcam2. simpl. auto.
    + simpl. rewrite Hup.
      rewrite (onClose_buffer _ Hcontract). auto.
  - simpl. rewrite Hup. simpl. auto.
Qed.

End FinishUnderContract.

(** C3: whatever the world answers, a finish whose batch the uploader
    accepted leaves an empty buffer and no pending frame; every other
    finish (nothing to upload, a conversion that fails, an upload that
    throws, an uploader that reports failure) leaves the buffer and the
    pending frame as they were. *)
Theorem handleFinish_clears_or_keeps (w : World) (s : Session) :
  Forall
    (fun finish : World -> Session -> Session * list Event =>
       let (s', ev) := finish w s in
       if uploaded w ev
       then buffer s' = [] /\ pending s' = None
       else buffer s' = buffer s /\ pending s' = pending s)
    finishHandlers.
Proof.
  unfold finishHandlers.
  pose proof (PhotoCapture_handleFinish_outcome _ AppAuto_wired
                AppAuto_finishContract w s) as H1.
  pose proof (PhotoCaptureStatus_handleFinish_outcome _ App_wired
                App_finishContract w s) as H2.
  pose proof (PhotoCapture_handleFinish_outcome _ App_wired
                App_finishContract w s) as H3.
  pose proof (PhotoCaptureStatus_handleFinish_outcome _ AppAuto_wired
                AppAuto_finishContract w s) as H4.
  unfold finishOutcome in *.
  repeat (apply Forall_cons || apply Forall_nil).
  - destruct (PhotoCapture.handleFinish AppAuto.props w s);
      exact (proj1 H1).
  - destruct (PhotoCaptureStatus.handleFinish App.props w s);
      exact (proj1 H2).
  - destruct (PhotoCapture.handleFinish App.props w s);
      exact (proj1 H3).
  - destruct (PhotoCaptureStatus.handleFinish AppAuto.props w s);
      exact (proj1 H4).
Qed.

(** Both outcomes occur: the accepting world empties the session, the
    refusing world leaves the two committed pages and the pending frame in
    place and shows the reason. *)
Example handleFinish_accepted :
  let (s', ev) := PhotoCapture.handleFinish AppAuto.props (sampleWorld 3)
                    twoPagesAndPending in
  uploaded (sampleWorld 3) ev = true /\ buffer s' = [] /\ pending s' = None.
Proof. vm_compute. repeat split. Qed.

Example handleFinish_refused :
  let (s', ev) := PhotoCapture.handleFinish AppAuto.props (refusingWorld 3)
                    twoPagesAndPending in
  uploaded (refusingWorld 3) ev = false
  /\ map data (buffer s') = ["page one"; "page two"]
  /\ pending s' = Some "page three"
  /\ error (app s') = Some "disk full".
Proof. vm_compute. repeat split. Qed.

(** C4: with an empty buffer and no pending frame, every finish handler
    returns the session unchanged and its whole trace is the validation
    alert, so there is no call to the scan uploader; and both
    [handlePhotosCaptured] refuse an empty batch without any call. *)
Theorem handleFinish_empty_rejected (w : World) (s : Session) :
  buffer s = [] ->
  Js.truthy (pending s) = false ->
  Forall
    (fun finish : World -> Session -> Session * list Event =>
       finish w s = (s, [Alert validationMessage])
       /\ callsUploader (snd (finish w s)) = false)
    finishHandlers
  /\ forall r a,
       App.handlePhotosCaptured r w [] a = (a, Returns false, [])
       /\ AppAuto.handlePhotosCaptured r w [] a = (a, Returns false, []).
Proof.
  unfold buffer, pending. intros Hbuf Hpend. split.
  - unfold finishHandlers.
    repeat (apply Forall_cons || apply Forall_nil);
      unfold PhotoCapture.handleFinish, PhotoCaptureStatus.handleFinish;
      simpl; rewrite Hbuf, Hpend; simpl; split; reflexivity.
  - intros r a.
    unfold App.handlePhotosCaptured, AppAuto.handlePhotosCaptured.
    destruct (selectedStudent r); split; reflexivity.
Qed.

Lemma handleFinish_empty_rejected_witness :
  Forall
    (fun finish : World -> Session -> Session * list Event =>
       finish (sampleWorld 1) sampleSession
       = (sampleSession, [Alert validationMessage])
       /\ callsUploader (snd (finish (sampleWorld 1) sampleSession)) = false)
    finishHandlers
  /\ forall r a,
       App.handlePhotosCaptured r (sampleWorld 1) [] a = (a, Returns false, [])
       /\ AppAuto.handlePhotosCaptured r (sampleWorld 1) [] a
          = (a, Returns false, []).
Proof.
  apply (handleFinish_empty_rejected (sampleWorld 1) sampleSession);
    reflexivity.
Defined.

(** C5: when there is something to upload, every finish handler first
    hands to [onFinish] the buffer, in buffer order, followed by the
    pending frame (if there is one) as a page numbered buffer length + 1. *)
Theorem handleFinish_submits_pending_last (w : World) (s : Session) :
  length (buffer s) + (if Js.truthy (pending s) then 1 else 0) <> 0 ->
  Forall
    (fun finish : World -> Session -> Session * list Event =>
       exists rest,
         snd (finish w s) = OnFinish (buffer s ++ pendingPage w s) :: rest)
    finishHandlers.
Proof.
  unfold buffer, pending, pendingPage, sessionRoll, finishHandlers.
  intros Htotal. apply Nat.eqb_neq in Htotal.
  assert (Hbatch : forall parent, wired parent ->
            PhotoCapture.finalPhotos parent w s
            = capturedPhotos (app s) ++ pendingPage w s).
  { intros parent [Hcap [_ Hst]].
    unfold PhotoCapture.finalPhotos, PhotoCapture.studentRollNumber,
           pendingPage, pending, buffer, sessionRoll.
    rewrite Hcap, Hst.
    destruct (currentPhoto (capture s)) as [image|];
      [destruct (String.eqb image "")|]; rewrite ?app_nil_r; reflexivity. }
  unfold pendingPage, pending, buffer, sessionRoll in Hbatch.
  repeat (apply Forall_cons || apply Forall_nil);
    unfold PhotoCapture.handleFinish, PhotoCaptureStatus.handleFinish;
    match goal with
    | |- context [PhotoCapture.finalPhotos ?p w s] =>
        rewrite (Hbatch p) by (apply App_wired || apply AppAuto_wired);
        change (Props.capturedPhotos (p (app s))) with (capturedPhotos (app s))
    end;
    rewrite Htotal;
    match goal with
    | |- context [Props.onFinish ?p w ?b ?a] =>
        destruct (Props.onFinish p w b a) as [[a' [[|]|m]] ev]
    end;
    repeat match goal with
           | |- context [if ?c then _ else _] => destruct c
           | |- context [let (_, _) := ?x in _] => destruct x
           end;
    simpl; eexists; reflexivity.
Qed.

Lemma handleFinish_submits_pending_last_witness :
  length (buffer twoPagesAndPending)
  + (if Js.truthy (pending twoPagesAndPending) then 1 else 0) <> 0
  /\ Forall
       (fun finish : World -> Session -> Session * list Event =>
          exists rest,
            snd (finish (sampleWorld 3) twoPagesAndPending)
            = OnFinish (buffer twoPagesAndPending
                        ++ pendingPage (sampleWorld 3) twoPagesAndPending)
              :: rest)
       finishHandlers.
Proof.
  split.
  - vm_compute. discriminate.
  - apply (handleFinish_submits_pending_last (sampleWorld 3)
             twoPagesAndPending).
    vm_compute. discriminate.
Defined.

(** Two pages kept for student A, a third frame pending, finish: one
    batch of exactly three images in capture order,
    numbered 1, 2, 3, sent as page_1.jpg, page_2.jpg, page_3.jpg. *)
Example handleFinish_two_pages_and_pending :
  Forall
    (fun finish : World -> Session -> Session * list Event =>
       let ev := snd (finish (sampleWorld 3) twoPagesAndPending) in
       submitted ev = [[("page one", 1); ("page two", 2); ("page three", 3)]]
       /\ sentFiles ev = [[("page_1.jpg", "page one");
                           ("page_2.jpg", "page two");
                           ("page_3.jpg", "page three")]])
    finishHandlers.
Proof.
  unfold finishHandlers.
  repeat (apply Forall_cons || apply Forall_nil); vm_compute; split;
    reflexivity.
Qed.

(** ** The camera *)

Lemma attempts_stopTracks held rest :
  attempts (PhotoCapture.stopTracks held ++ rest) = attempts rest.
Proof.
  unfold attempts, PhotoCapture.stopTracks. rewrite flat_map_app.
  destruct held as [ms|]; [|reflexivity].
  induction (getTracks ms) as [|t l IH]; simpl; auto.
Qed.

(** C6: [setupCamera] asks first for the environment-facing camera at
    ideal 1280x720 and, only when that request is refused, for the
    user-facing camera at the same size.  When both are refused it
    returns [false] with [cameraReady] off and [cameraError] set; the
    camera-error view then offers the file upload (disabled only while an
    upload runs), and a picked image of at most 10 MB becomes the pending
    frame. *)
Theorem setupCamera_tiers (w : World) (r c : CaptureState) :
  let rear := mkVideo "environment" 1280 720 in
  let front := mkVideo "user" 1280 720 in
  let '(c', ok, ev) := PhotoCapture.setupCamera w r c in
  match getUserMedia w rear with
  | Returns ms =>
      attempts ev = [rear] /\ ok = true
      /\ stream c' = Some ms /\ cameraReady c' = true
  | Throws _ =>
      attempts ev = [rear; front]
      /\ match getUserMedia w front with
         | Returns fs =>
             ok = true /\ stream c' = Some fs /\ cameraReady c' = true
         | Throws _ =>
             ok = false /\ cameraReady c' = false
             /\ isSome (cameraError c') = true
             /\ In (PhotoCapture.UseFileUpload, uploading c)
                   (PhotoCapture.cameraErrorActions c')
             /\ forall f url,
                  Js.startsWith "image/" (PhotoCapture.type f) = true ->
                  (PhotoCapture.size f <= 10 * 1024 * 1024)%N ->
                  PhotoCapture.readAsDataURL f = Returns url ->
                  PhotoCapture.handleFileSelect (Some f) c'
                  = (setCurrentPhoto (Some url) c', [])
         end
  end.
Proof.
  unfold PhotoCapture.setupCamera.
  change PhotoCapture.environmentConstraints
    with (mkVideo "environment" 1280 720).
  change PhotoCapture.fallbackConstraints with (mkVideo "user" 1280 720).
  cbv zeta.
  destruct (getUserMedia w (mkVideo "environment" 1280 720)) as [ms|m].
  - rewrite attempts_stopTracks. repeat split.
  - destruct (getUserMedia w (mkVideo "user" 1280 720)) as [fs|m'];
      rewrite attempts_stopTracks.
    + repeat split.
    + split; [reflexivity|]. split; [reflexivity|]. split; [reflexivity|].
      split; [reflexivity|]. split; [simpl; auto|].
      intros f url Htype Hsize Hread.
      unfold PhotoCapture.handleFileSelect. rewrite Htype. simpl negb.
      cbv iota. apply N.ltb_ge in Hsize. rewrite Hsize, Hread. reflexivity.
Qed.

(** A world without any camera, and a picture picked from the disk. *)
Example setupCamera_both_refused :
  PhotoCapture.setupCamera (sampleWorld 1) initialCapture initialCapture
  = (mkCapture None false None false
       (Some "Camera access failed. Please check permissions and ensure camera is available.")
       false,
     false,
     [GetUserMedia (mkVideo "environment" 1280 720);
      GetUserMedia (mkVideo "user" 1280 720)]).
Proof. reflexivity. Qed.

(** C8: a capture request made while a capture is in flight, while the
    camera is not ready, or while no stream is held returns at once: the
    cells of the component are unchanged and nothing is done; the handler
    has no access to the buffer. *)
Theorem handleTakePhoto_guard (w : World) (r : CaptureState) :
  isProcessing r = true \/ cameraReady r = false \/ stream r = None ->
  PhotoCapture.handleTakePhoto w r = (r, []).
Proof.
  intros H. unfold PhotoCapture.handleTakePhoto.
  destruct H as [-> | [-> | ->]]; simpl.
  - reflexivity.
  - rewrite orb_true_r. reflexivity.
  - rewrite orb_true_r. reflexivity.
Qed.

Lemma handleTakePhoto_guard_witness :
  isProcessing capturing = true
  /\ PhotoCapture.handleTakePhoto (sampleWorld 1) capturing = (capturing, []).
Proof.
  split; [reflexivity|].
  apply (handleTakePhoto_guard (sampleWorld 1) capturing).
  left. reflexivity.
Defined.

(** Outside the guard the request goes through: with the still-capture
    primitive the frame read from the blob becomes the pending frame. *)
Example handleTakePhoto_captures :
  let w := mkWorld (fun _ => Throws "unused") true (Returns (Some "frame"))
                   (Throws "unused") (fun u => Returns u)
                   (fun _ _ => Throws "unused") (fun _ _ => Throws "unused")
                   1 0 "t" in
  PhotoCapture.handleTakePhoto w (capture sampleSession)
  = (setCurrentPhoto (Some "frame") (capture sampleSession), []).
Proof. reflexivity. Qed.

Example handleFileSelect_in_camera_error :
  let failed := fst (fst (PhotoCapture.setupCamera (sampleWorld 1)
                            initialCapture initialCapture)) in
  PhotoCapture.handleFileSelect
    (Some (PhotoCapture.mkPicked "image/png" 52000 (Returns "data:image/png;base64,AAAA")))
    failed
  = (setCurrentPhoto (Some "data:image/png;base64,AAAA") failed, []).
Proof. reflexivity. Qed.

(** The camera-error view of the second component offers the retry
    only. *)
Example PhotoCaptureStatus_offers_retry_only r :
  map fst (PhotoCaptureStatus.cameraErrorActions r)
  = [PhotoCapture.RetryCamera].
Proof. reflexivity. Qed.

(** Mounting in a world without a camera ends in the camera-error
    state. *)
Example initCamera_without_camera :
  PhotoCapture.initCamera (sampleWorld 1) initialCapture
  = (setCameraError
       (Some "Camera access failed. Please check permissions and ensure camera is available.")
       initialCapture,
     [GetUserMedia PhotoCapture.environmentConstraints;
      GetUserMedia PhotoCapture.fallbackConstraints]).
Proof. reflexivity. Qed.

(** C7, as stated, fails on the advance: student A has two pages and a
    pending frame, the camera is held (tracks 7 and 8), the upload is
    accepted and the session moves to student C; the component is still
    mounted, it holds the same stream, and no track was stopped. *)
Lemma camera_kept_on_advance :
  Forall
    (fun finish : World -> Session -> Session * list Event =>
       let (s', ev) := finish (sampleWorld 3) twoPagesAndPending in
       stream (capture twoPagesAndPending) = Some (mkStream [7; 8])
       /\ uploaded (sampleWorld 3) ev = true
       /\ selectedStudent (app s') = Some studentC
       /\ mounted (app s') = true
       /\ stream (capture s') = Some (mkStream [7; 8])
       /\ stopsTrack (ev ++ rerender (app twoPagesAndPending) (app s'))
          = false)
    [PhotoCaptureStatus.handleFinish App.props;
     PhotoCapture.handleFinish AppAuto.props].
Proof.
  repeat (apply Forall_cons || apply Forall_nil); vm_compute;
    repeat split.
Qed.

(** The clean-up of the camera effect belongs to the first render, where
    [stream] is [null]: closing a session that holds tracks 7 and 8
    unmounts the component and stops neither. *)
Lemma camera_kept_on_close :
  PhotoCapture.unmount = []
  /\ forall parent, In parent [App.props; AppAuto.props] ->
       let (s', ev) := closeSession parent sampleSession in
       mounted (app sampleSession) = true
       /\ mounted (app s') = false
       /\ stream (capture sampleSession) = Some (mkStream [7; 8])
       /\ ev = [].
Proof.
  split; [reflexivity|].
  intros parent [<-|[<-|[]]]; vm_compute; repeat split.
Qed.

(** Both parents, taken together. *)
Lemma props_wired parent :
  In parent [App.props; AppAuto.props] -> wired parent.
Proof. intros [<-|[<-|[]]]; [apply App_wired | apply AppAuto_wired]. Qed.

Lemma props_contract parent :
  In parent [App.props; AppAuto.props] -> finishContract parent.
Proof.
  intros [<-|[<-|[]]];
    [apply App_finishContract | apply AppAuto_finishContract].
Qed.

Lemma uploaded_cons_OnFinish w batch ev :
  uploaded w (OnFinish batch :: ev) = uploaded w ev.
Proof. reflexivity. Qed.

(** The capture handlers leave the camera cells alone. *)
Lemma handleTakePhoto_camera_cells w c :
  let (c', ev) := PhotoCapture.handleTakePhoto w c in
  stream c' = stream c /\ cameraError c' = cameraError c
  /\ touchesCamera ev = false.
Proof.
  assert (Hcanvas :
    let (c', ev) :=
      PhotoCapture.capturedOrAlert (setIsProcessing true c)
        (PhotoCapture.captureWithCanvasFallback w c (setIsProcessing true c)) in
    stream c' = stream c /\ cameraError c' = cameraError c
    /\ touchesCamera ev = false).
  { unfold PhotoCapture.captureWithCanvasFallback.
    destruct (stream c) eqn:Hs; [destruct (canvasFrame w)|]; simpl; auto. }
  unfold PhotoCapture.handleTakePhoto.
  destruct (isProcessing c || negb (cameraReady c)
            || negb (isSome (stream c))); [auto|].
  destruct (imageCaptureInWindow w); [|exact Hcanvas].
  destruct (option_map getTracks (stream c)) as [[|t ts]|]; [simpl; auto| |simpl; auto].
  destruct (takePhoto w) as [[frame|]|m]; [simpl; auto|simpl; auto|exact Hcanvas].
Qed.

Lemma handleFileSelect_camera_cells file c :
  let (c', ev) := PhotoCapture.handleFileSelect file c in
  stream c' = stream c /\ cameraError c' = cameraError c
  /\ touchesCamera ev = false.
Proof.
  unfold PhotoCapture.handleFileSelect.
  destruct file as [f|]; [|auto].
  destruct (negb (Js.startsWith "image/" (PhotoCapture.type f))); [auto|].
  destruct (10 * 1024 * 1024 <? PhotoCapture.size f)%N; [auto|].
  destruct (PhotoCapture.readAsDataURL f); auto.
Qed.

Lemma touchesCamera_stopsTrack ev :
  touchesCamera ev = false -> stopsTrack ev = false.
Proof.
  induction ev as [|e ev IH]; simpl; [reflexivity|].
  destruct e; simpl; try discriminate; exact IH.
Qed.

(** A set-up that starts without a stream ends with a stream and no
    error, or with an error and no stream; it has no track to stop. *)
Lemma setupCamera_errorWithoutStream w r c :
  stream r = None -> stream c = None ->
  errorWithoutStream (fst (fst (PhotoCapture.setupCamera w r c)))
  /\ stopsTrack (snd (PhotoCapture.setupCamera w r c)) = false.
Proof.
  intros Hr Hnone. unfold PhotoCapture.setupCamera, errorWithoutStream.
  rewrite Hr.
  destruct (getUserMedia w PhotoCapture.environmentConstraints);
    [|destruct (getUserMedia w PhotoCapture.fallbackConstraints)];
    simpl; split; try reflexivity; try discriminate.
  intros _. exact Hnone.
Qed.

Lemma CameraLife_step c op :
  errorWithoutStream c ->
  let (c', ev) := CameraLife.step c op in
  errorWithoutStream c'
  /\ stopsTrack ev = false
  /\ (touchesCamera ev = true -> stream c = None)
  /\ (stream c <> None -> stream c' = stream c).
Proof.
  intros Hinv. destruct op as [w|w|file|v|v]; simpl.
  - destruct (Js.truthy (cameraError c)) eqn:Herr; simpl;
      [|split; [exact Hinv|]; split; [reflexivity|];
        split; [discriminate | reflexivity]].
    destruct (uploading c); simpl;
      [split; [exact Hinv|]; split; [reflexivity|];
       split; [discriminate | reflexivity]|].
    pose proof (Hinv Herr) as Hnone.
    unfold PhotoCapture.handleRetryCamera.
    pose proof (setupCamera_errorWithoutStream w c
                  (setCameraReady false (setCameraError None c))
                  Hnone Hnone)
      as [Hafter Hstops].
    destruct (PhotoCapture.setupCamera w c _) as [[c' ok] ev].
    split; [exact Hafter|]. split; [exact Hstops|].
    split; [intros _; exact Hnone|].
    intros Hheld. contradiction.
  - pose proof (handleTakePhoto_camera_cells w c) as H.
    destruct (PhotoCapture.handleTakePhoto w c) as [c' ev].
    destruct H as [Hs [He Hc]]. unfold errorWithoutStream in *.
    rewrite Hs, He, Hc. split; [exact Hinv|].
    split; [apply touchesCamera_stopsTrack, Hc|].
    split; [discriminate | reflexivity].
  - pose proof (handleFileSelect_camera_cells file c) as H.
    destruct (PhotoCapture.handleFileSelect file c) as [c' ev].
    destruct H as [Hs [He Hc]]. unfold errorWithoutStream in *.
    rewrite Hs, He, Hc. split; [exact Hinv|].
    split; [apply touchesCamera_stopsTrack, Hc|].
    split; [discriminate | reflexivity].
  - split; [exact Hinv|]. split; [reflexivity|].
    split; [discriminate | reflexivity].
  - split; [exact Hinv|]. split; [reflexivity|].
    split; [discriminate | reflexivity].
Qed.

Lemma stopsTrack_app ev1 ev2 :
  stopsTrack (ev1 ++ ev2) = stopsTrack ev1 || stopsTrack ev2.
Proof. apply existsb_app. Qed.

Lemma CameraLife_run ops : forall c,
  errorWithoutStream c ->
  errorWithoutStream (fst (CameraLife.run c ops))
  /\ stopsTrack (snd (CameraLife.run c ops)) = false.
Proof.
  induction ops as [|op ops IH]; intros c Hinv; simpl; [auto|].
  pose proof (CameraLife_step c op Hinv) as Hstep.
  destruct (CameraLife.step c op) as [c1 ev1].
  destruct Hstep as [Hinv1 [Hstops1 _]]. specialize (IH c1 Hinv1).
  destruct (CameraLife.run c1 ops) as [c2 ev2]. simpl in *.
  rewrite stopsTrack_app, Hstops1. exact IH.
Qed.

Lemma CameraLife_mount w ops :
  errorWithoutStream (fst (CameraLife.mount w ops))
  /\ stopsTrack (snd (CameraLife.mount w ops)) = false.
Proof.
  unfold CameraLife.mount, PhotoCapture.initCamera.
  pose proof (setupCamera_errorWithoutStream w initialCapture initialCapture
                eq_refl eq_refl) as [H0 Hstops0].
  destruct (PhotoCapture.setupCamera w initialCapture initialCapture)
    as [[c0 ok] ev0].
  pose proof (CameraLife_run ops c0 H0) as H.
  destruct (CameraLife.run c0 ops) as [c ev]. simpl in *.
  rewrite stopsTrack_app, Hstops0. exact H.
Qed.

(** What the parents do to the mounting of the component. *)
Lemma fetchStudents_mounted w page limit a :
  mounted (fst (fetchStudents w page limit a)) = mounted a.
Proof.
  unfold fetchStudents.
  destruct (getStudents w page limit) as [resp|m];
    [destruct (StudentsResponse.success resp)|]; reflexivity.
Qed.

Lemma onFinish_mounted parent :
  In parent [App.props; AppAuto.props] ->
  forall r w photos a,
    mounted a = true ->
    mounted (fst (fst (Props.onFinish (parent r) w photos a))) = true.
Proof.
  intros [<-|[<-|[]]] r w photos a Hm; simpl.
  - unfold App.handlePhotosCaptured.
    destruct (selectedStudent r); [|exact Hm].
    destruct (Nat.eqb (length photos) 0); [exact Hm|].
    destruct (imageFiles w _ 0 photos) as [files|m]; [|exact Hm].
    destruct (uploadScans w _ _) as [response|m]; [|exact Hm].
    destruct (UploadResponse.success response); [|exact Hm].
    pose proof (fetchStudents_mounted w (currentPage r) (itemsPerPage r) a)
      as Hf.
    destruct (fetchStudents w (currentPage r) (itemsPerPage r) a).
    simpl in *. rewrite Hf. exact Hm.
  - unfold AppAuto.handlePhotosCaptured.
    destruct (selectedStudent r); [|exact Hm].
    destruct (Nat.eqb (length photos) 0); [exact Hm|].
    destruct (imageFiles w _ 0 photos) as [files|m]; [|exact Hm].
    destruct (uploadScans w _ _) as [response|m]; [|exact Hm].
    destruct (UploadResponse.success response); [|exact Hm].
    pose proof (fetchStudents_mounted w (currentPage r) (itemsPerPage r)
                  (setError None a)) as Hf.
    destruct (fetchStudents w (currentPage r) (itemsPerPage r)
                (setError None a)) as [a' ev].
    simpl in Hf.
    assert (Ha' : mounted a' = true) by (rewrite Hf; exact Hm).
    destruct (AppAuto.getNextStudent _ _ _ _); simpl; [|exact Ha'].
    unfold mounted in *. simpl.
    apply andb_true_iff in Ha' as [-> _]. reflexivity.
Qed.

Lemma onNextStudent_mounted parent :
  In parent [App.props; AppAuto.props] ->
  forall r a,
    Props.hasNextStudent (parent r) = true ->
    showPhotoCapture a = true ->
    mounted (fst (Props.onNextStudent (parent r) a)) = true.
Proof.
  intros [<-|[<-|[]]] r a Hnext Hshow; simpl in *.
  - unfold App.hasNextStudent in Hnext. unfold App.handleNextStudent.
    destruct (App.getNextStudent _ _); [|discriminate].
    unfold mounted. simpl. rewrite Hshow. reflexivity.
  - unfold AppAuto.hasNextStudent in Hnext.
    unfold AppAuto.handleNextStudent.
    destruct (AppAuto.getNextStudent _ _ _ _); [|discriminate].
    unfold mounted. simpl. rewrite Hshow. reflexivity.
Qed.

(** C7, amended: while the component is mounted a camera is asked for
    only when no stream is held (at mount, and by "Retry Camera", which is
    offered only in the camera-error view), and a stream once held is
    never replaced; [setupCamera] itself stops every track of the stream
    of the render it runs in before it asks, and stops nothing
    afterwards, but in a mounted component it never runs in a render that
    holds one, and no track is stopped.  A finish neither stops a track nor asks for a camera and
    leaves the stream where it is; unless it ends the walk (upload
    accepted and no next student offered), the component stays mounted:
    the advance to the next student keeps the camera. *)
Theorem camera_single_handle_while_mounted
    (w : World) (r c : CaptureState) (s : Session)
    (ops : list CameraLife.Op) :
  (let (held, trace) := CameraLife.mount w ops in
   stopsTrack trace = false
   /\ forall op,
        let (held', ev) := CameraLife.step held op in
        (touchesCamera ev = true -> stream held = None)
        /\ (stream held <> None -> stream held' = stream held))
  /\ (exists rest,
         snd (PhotoCapture.setupCamera w r c)
         = PhotoCapture.stopTracks (stream r)
           ++ GetUserMedia PhotoCapture.environmentConstraints :: rest
         /\ stopsTrack rest = false)
  /\ Forall
       (fun parent : AppState -> Props.t =>
          Forall
            (fun finish : World -> Session -> Session * list Event =>
               let (s', ev) := finish w s in
               stream (capture s') = stream (capture s)
               /\ touchesCamera ev = false
               /\ (mounted (app s) = true ->
                   uploaded w ev = false
                   \/ Props.hasNextStudent (parent (app s)) = true ->
                   mounted (app s') = true
                   /\ rerender (app s) (app s') = []))
            [PhotoCapture.handleFinish parent;
             PhotoCaptureStatus.handleFinish parent])
       [App.props; AppAuto.props].
Proof.
  split; [|split].
  - pose proof (CameraLife_mount w ops) as [Hinv Hstops].
    destruct (CameraLife.mount w ops) as [held ev0]. simpl in Hinv, Hstops.
    split; [exact Hstops|].
    intros op. pose proof (CameraLife_step held op Hinv) as Hstep.
    destruct (CameraLife.step held op) as [held' ev].
    destruct Hstep as [_ [_ Hstep]]. exact Hstep.
  - unfold PhotoCapture.setupCamera.
    destruct (getUserMedia w PhotoCapture.environmentConstraints);
      [|destruct (getUserMedia w PhotoCapture.fallbackConstraints)];
      simpl; eexists; split; reflexivity.
  - assert (Hre : forall a a', mounted a' = true ->
                               mounted a' = true /\ rerender a a' = []).
    { intros a a' Hm. split; [exact Hm|]. unfold rerender.
      rewrite Hm, andb_false_r. reflexivity. }
    apply Forall_forall. intros parent Hparent.
    pose proof (props_wired parent Hparent) as Hw.
    pose proof (props_contract parent Hparent) as Hc.
    pose proof (PhotoCapture_handleFinish_outcome parent Hw Hc w s) as H1.
    pose proof (PhotoCaptureStatus_handleFinish_outcome parent Hw Hc w s)
      as H2.
    unfold finishOutcome in H1, H2.
    destruct Hw as [Hcap [Hupd _]].
    pose proof (onFinish_answer _ Hc (app s) w
                  (PhotoCapture.finalPhotos parent w s) (app s)) as Hans.
    pose proof (onFinish_mounted parent Hparent (app s) w
                  (PhotoCapture.finalPhotos parent w s) (app s)) as Hmount.
    repeat (apply Forall_cons || apply Forall_nil).
    + destruct (PhotoCapture.handleFinish parent w s) as [s' ev] eqn:Hfin.
      destruct H1 as [_ [Hs Hcam]].
      split; [exact Hs|]. split; [exact Hcam|].
      intros Hm _. apply Hre.
      revert Hfin. unfold PhotoCapture.handleFinish.
      destruct (Nat.eqb _ 0); [intros [= <- _]; exact Hm|].
      destruct (Props.onFinish (parent (app s)) w
                  (PhotoCapture.finalPhotos parent w s) (app s))
        as [[a ans] ev1].
      simpl in Hmount. specialize (Hmount Hm).
      destruct ans as [[|]|m]; intros [= <- _]; simpl;
        rewrite ?Hupd; exact Hmount.
    + destruct (PhotoCaptureStatus.handleFinish parent w s) as [s' ev]
        eqn:Hfin.
      destruct H2 as [_ [Hs Hcam]].
      split; [exact Hs|]. split; [exact Hcam|].
      intros Hm Hstay. apply Hre.
      revert Hfin Hstay. unfold PhotoCaptureStatus.handleFinish.
      destruct (Nat.eqb _ 0); [intros [= <- _] _; exact Hm|].
      destruct (Props.onFinish (parent (app s)) w
                  (PhotoCapture.finalPhotos parent w s) (app s))
        as [[a ans] ev1].
      simpl in Hmount. specialize (Hmount Hm).
      destruct Hans as [_ [[-> Hup]|[-> [Hup _]]]].
      * destruct (Props.hasNextStudent (parent (app s))) eqn:Hnext.
        -- pose proof (onNextStudent_mounted parent Hparent (app s)
                         (Props.onPhotosUpdate (parent (app s))
                            (fun _ : list Photo => @nil Photo) a) Hnext)
             as Hn.
           destruct (Props.onNextStudent (parent (app s)) _) as [a2 ev2].
           intros [= <- _] _. simpl in *. apply Hn. rewrite Hupd.
           unfold mounted in Hmount. simpl.
           apply andb_true_iff in Hmount as [-> _]. reflexivity.
        -- intros [= _ <-] [Hno|Hyes]; [|discriminate].
           rewrite uploaded_cons_OnFinish, Hup in Hno. discriminate.
      * intros [= <- _] _. exact Hmount.
Qed.

(** An accepted finish on student A with student C next: under either
    parent the component is still mounted and the stream is the one held
    before. *)
Lemma camera_single_handle_while_mounted_witness :
  (let s' := fst (PhotoCaptureStatus.handleFinish App.props (sampleWorld 3)
                    twoPagesAndPending) in
   mounted (app s') = true
   /\ stream (capture s') = Some (mkStream [7; 8]))
  /\ (let s' := fst (PhotoCapture.handleFinish AppAuto.props (sampleWorld 3)
                       twoPagesAndPending) in
      mounted (app s') = true
      /\ stream (capture s') = Some (mkStream [7; 8])).
Proof.
  destruct (camera_single_handle_while_mounted (sampleWorld 3)
              initialCapture initialCapture twoPagesAndPending [])
    as [_ [_ H]].
  inversion H as [|p1 l1 Happ H']; subst.
  inversion H' as [|p2 l2 Hauto _]; subst.
  inversion Happ as [|f1 k1 _ Happ']; subst.
  inversion Happ' as [|f2 k2 Hstatus _]; subst.
  inversion Hauto as [|f3 k3 Hfirst _]; subst.
  cbv zeta. split.
  - destruct (PhotoCaptureStatus.handleFinish App.props (sampleWorld 3)
                twoPagesAndPending) as [s' ev].
    destruct Hstatus as [Hstream [_ Hmounted]]. simpl fst. split.
    + apply Hmounted; [reflexivity | right; reflexivity].
    + rewrite Hstream. reflexivity.
  - destruct (PhotoCapture.handleFinish AppAuto.props (sampleWorld 3)
                twoPagesAndPending) as [s' ev].
    destruct Hfirst as [Hstream [_ Hmounted]]. simpl fst. split.
    + apply Hmounted; [reflexivity | right; reflexivity].
    + rewrite Hstream. reflexivity.
Defined.

(** Mounting without a camera, then two presses of "Retry Camera" with a
    camera present: the first acquires tracks 7 and 8, the second finds
    no button to press. *)
Example retry_is_offered_until_acquired :
  CameraLife.mount (sampleWorld 1)
    [CameraLife.Retry canvasWorld; CameraLife.Retry canvasWorld]
  = (mkCapture None false (Some (mkStream [7; 8])) true None false,
     [GetUserMedia PhotoCapture.environmentConstraints;
      GetUserMedia PhotoCapture.fallbackConstraints;
      GetUserMedia PhotoCapture.environmentConstraints]).
Proof. reflexivity. Qed.

(** ** Manual and automatic advancement *)

(** After an accepted batch the parent of part_000 selects the student its
    navigator gives, and stays on the current one when there is none; the
    parent of App.jsx leaves the selection to the component. *)
Lemma AppAuto_handlePhotosCaptured_selected r w photos a :
  let '(a', ans, ev) := AppAuto.handlePhotosCaptured r w photos a in
  uploaded w ev = true ->
  selectedStudent a'
  = match AppAuto.getNextStudent (students r) (selectedStudent r)
                                 (currentPage r) (totalPages r) with
    | Some nextStudent => Some nextStudent
    | None => selectedStudent a
    end.
Proof.
  unfold AppAuto.handlePhotosCaptured.
  destruct (selectedStudent r) as [sel|] eqn:Hsel; [|discriminate].
  destruct (Nat.eqb (length photos) 0); [discriminate|].
  destruct (imageFiles w _ 0 photos) as [files|m];
    [|trace_simpl; discriminate].
  match goal with
  | |- context [uploadScans w ?i ?f] =>
      destruct (uploadScans w i f) as [resp|m] eqn:Hup
  end.
  - destruct (UploadResponse.success resp) eqn:Hok.
    + pose proof (capturedPhotos_fetchStudents w (currentPage r)
                    (itemsPerPage r) (setError None a)) as [_ [Hs _]].
      destruct (fetchStudents w (currentPage r) (itemsPerPage r)
                  (setError None a)) as [a' ev].
      simpl in Hs.
      destruct (AppAuto.getNextStudent _ _ _ _); intros _;
        [reflexivity | exact Hs].
    + trace_simpl. rewrite Hup, Hok. discriminate.
  - trace_simpl. rewrite Hup. discriminate.
Qed.

Lemma App_handlePhotosCaptured_selected r w photos a :
  selectedStudent (fst (fst (App.handlePhotosCaptured r w photos a)))
  = selectedStudent a
  /\ showPhotoCapture (fst (fst (App.handlePhotosCaptured r w photos a)))
     = showPhotoCapture a.
Proof.
  unfold App.handlePhotosCaptured.
  destruct (selectedStudent r) as [sel|]; [|split; reflexivity].
  destruct (Nat.eqb (length photos) 0); [split; reflexivity|].
  destruct (imageFiles w _ 0 photos) as [files|m]; [|split; reflexivity].
  destruct (uploadScans w (_id sel) (imagesForm files)) as [resp|m];
    [|split; reflexivity].
  destruct (UploadResponse.success resp); [|split; reflexivity].
  pose proof (capturedPhotos_fetchStudents w (currentPage r)
                (itemsPerPage r) a) as [_ [Hs [Hshow _]]].
  destruct (fetchStudents w (currentPage r) (itemsPerPage r) a) as [a' ev].
  simpl in *. auto.
Qed.

(** C9: in each revision the manual "next student" and the advance after
    an accepted upload take the student from the same navigator on the
    same cells (the roster and the selected student of the render).
    With part_000 as parent the upload handler asks the navigator itself;
    with App.jsx as parent the component calls the very handler of the
    manual control.  Whenever the navigator gives a student, both paths
    select that student; when it gives none, neither selects a new one. *)
Theorem advance_same_student (w : World) (s : Session) :
  (let next := AppAuto.getNextStudent (students (app s))
                 (selectedStudent (app s)) (currentPage (app s))
                 (totalPages (app s)) in
   let manual := fst (PhotoCapture.handleNextStudent AppAuto.props s) in
   let (auto, ev) := PhotoCapture.handleFinish AppAuto.props w s in
   uploaded w ev = true ->
   selectedStudent (app manual) = next
   /\ selectedStudent (app auto)
      = match next with
        | Some n => Some n
        | None => selectedStudent (app s)
        end)
  /\ (let next := App.getNextStudent (students (app s))
                    (selectedStudent (app s)) in
      let manual := fst (PhotoCaptureStatus.handleNextStudent App.props s) in
      let (auto, ev) := PhotoCaptureStatus.handleFinish App.props w s in
      uploaded w ev = true ->
      selectedStudent (app manual) = next
      /\ selectedStudent (app auto) = next).
Proof.
  split.
  - cbv zeta.
    unfold PhotoCapture.handleNextStudent, PhotoCapture.handleFinish.
    destruct (Nat.eqb _ 0); [discriminate|].
    pose proof (AppAuto_handlePhotosCaptured_selected (app s) w
                  (PhotoCapture.finalPhotos AppAuto.props w s) (app s))
      as Hsel.
    pose proof (onFinish_answer _ AppAuto_finishContract (app s) w
                  (PhotoCapture.finalPhotos AppAuto.props w s) (app s))
      as Hans.
    simpl in Hsel, Hans |- *.
    destruct (AppAuto.handlePhotosCaptured (app s) w
                (PhotoCapture.finalPhotos AppAuto.props w s) (app s))
      as [[a ans] ev].
    destruct Hans as [_ [[-> Hup]|[-> [Hup _]]]].
    + rewrite uploaded_cons_OnFinish. intros _. split.
      * unfold AppAuto.handleNextStudent.
        destruct (AppAuto.getNextStudent _ _ _ _); reflexivity.
      * simpl. exact (Hsel Hup).
    + rewrite uploaded_cons_OnFinish, Hup. discriminate.
  - cbv zeta.
    unfold PhotoCaptureStatus.handleNextStudent,
           PhotoCaptureStatus.handleFinish.
    destruct (Nat.eqb _ 0); [discriminate|].
    pose proof (App_handlePhotosCaptured_selected (app s) w
                  (PhotoCapture.finalPhotos App.props w s) (app s))
      as [Hsel _].
    pose proof (onFinish_answer _ App_finishContract (app s) w
                  (PhotoCapture.finalPhotos App.props w s) (app s))
      as Hans.
    simpl in Hsel, Hans |- *.
    destruct (App.handlePhotosCaptured (app s) w
                (PhotoCapture.finalPhotos App.props w s) (app s))
      as [[a ans] ev].
    destruct Hans as [_ [[-> Hup]|[-> [Hup _]]]].
    + unfold App.hasNextStudent, App.handleNextStudent.
      destruct (App.getNextStudent _ _) as [n|]; simpl; intros _;
        split; reflexivity.
    + rewrite uploaded_cons_OnFinish, Hup. discriminate.
Qed.

Lemma advance_same_student_witness :
  let w := sampleWorld 3 in
  let s := twoPagesAndPending in
  (uploaded w (snd (PhotoCapture.handleFinish AppAuto.props w s)) = true
   /\ selectedStudent
        (app (fst (PhotoCapture.handleNextStudent AppAuto.props s)))
      = Some studentC
   /\ selectedStudent (app (fst (PhotoCapture.handleFinish AppAuto.props w s)))
      = Some studentC)
  /\ (uploaded w (snd (PhotoCaptureStatus.handleFinish App.props w s)) = true
      /\ selectedStudent
           (app (fst (PhotoCaptureStatus.handleNextStudent App.props s)))
         = Some studentC
      /\ selectedStudent
           (app (fst (PhotoCaptureStatus.handleFinish App.props w s)))
         = Some studentC).
Proof.
  cbv zeta.
  destruct (advance_same_student (sampleWorld 3) twoPagesAndPending)
    as [HA HB].
  cbv zeta in HA, HB.
  destruct (PhotoCapture.handleFinish AppAuto.props (sampleWorld 3)
              twoPagesAndPending) as [autoA evA] eqn:EA.
  destruct (PhotoCaptureStatus.handleFinish App.props (sampleWorld 3)
              twoPagesAndPending) as [autoB evB] eqn:EB.
  vm_compute in EA. vm_compute in EB.
  injection EA as <- <-. injection EB as <- <-.
  split.
  - split; [reflexivity|]. apply HA. reflexivity.
  - split; [reflexivity|]. apply HB. reflexivity.
Defined.

(** ** Packaging of the batch *)

Lemma imageFiles_nth w rethrow photos : forall index files,
  imageFiles w rethrow index photos = Returns files ->
  length files = length photos
  /\ forall i photo, nth_error photos i = Some photo ->
       exists b, fetchBlob w (data photo) = Returns b
                 /\ nth_error files i
                    = Some (mkFile ("page_"
                                    ++ Js.numberToString (index + i + 1)
                                    ++ ".jpg")
                                   "image/jpeg" b).
Proof.
  induction photos as [|photo rest IH]; intros index files; simpl.
  - intros [= <-]. split; [reflexivity|]. intros [|i] p; discriminate.
  - destruct (fetchBlob w (data photo)) as [b|m] eqn:Hb; [|discriminate].
    destruct (imageFiles w rethrow (S index) rest) as [files'|m] eqn:Hr;
      [|discriminate].
    intros [= <-]. destruct (IH _ _ Hr) as [Hlen Hnth].
    split; [simpl; congruence|].
    intros [|i] p; simpl.
    + intros [= <-]. exists b. split; [exact Hb|].
      rewrite Nat.add_0_r. reflexivity.
    + intros Hp. destruct (Hnth i p Hp) as [b' [Hb' Hf]].
      exists b'. split; [exact Hb'|].
      replace (index + S i + 1) with (S index + i + 1) by lia. exact Hf.
Qed.

Lemma imageFiles_total w rethrow photos : forall index,
  (forall photo, In photo photos ->
                 exists b, fetchBlob w (data photo) = Returns b) ->
  exists files, imageFiles w rethrow index photos = Returns files.
Proof.
  induction photos as [|photo rest IH]; intros index Hall; simpl.
  - eexists; reflexivity.
  - destruct (Hall photo (or_introl eq_refl)) as [b Hb]. rewrite Hb.
    destruct (IH (S index) (fun p Hp => Hall p (or_intror Hp)))
      as [files Hf].
    rewrite Hf. eexists; reflexivity.
Qed.

Lemma imageFiles_data w rethrow photos : forall photos' index,
  map data photos = map data photos' ->
  imageFiles w rethrow index photos = imageFiles w rethrow index photos'.
Proof.
  induction photos as [|p rest IH]; intros [|p' rest'] index; simpl;
    try discriminate; [reflexivity|].
  intros [= Hd Hrest]. rewrite Hd, (IH rest' (S index) Hrest). reflexivity.
Qed.

Lemma uploadedFiles_fetches photos rest :
  uploadedFiles (fetches photos ++ rest) = uploadedFiles rest.
Proof.
  unfold uploadedFiles, fetches. rewrite flat_map_app.
  induction photos as [|p r IH]; simpl; auto.
Qed.

Lemma files_of_imagesForm files extra :
  (forall e, In e extra -> exists k v, e = TextEntry k v) ->
  flat_map (fun entry => match entry with
                         | FileEntry _ f => [f]
                         | TextEntry _ _ => []
                         end) (imagesForm files ++ extra)
  = files.
Proof.
  intros Hextra. rewrite flat_map_app.
  assert (Hx : flat_map (fun entry => match entry with
                                      | FileEntry _ f => [f]
                                      | TextEntry _ _ => []
                                      end) extra = []).
  { induction extra as [|e extra IH]; [reflexivity|].
    destruct (Hextra e (or_introl eq_refl)) as [k [v ->]]. simpl.
    apply IH. intros e' He'. apply Hextra. right. exact He'. }
  rewrite Hx, app_nil_r. unfold imagesForm.
  induction files as [|f files IH]; simpl; [reflexivity|].
  rewrite IH. reflexivity.
Qed.

Lemma App_uploadedFiles r w photos a sel files :
  selectedStudent r = Some sel -> photos <> [] ->
  imageFiles w (fun _ m => m) 0 photos = Returns files ->
  uploadedFiles (snd (App.handlePhotosCaptured r w photos a)) = [files].
Proof.
  intros Hsel Hne Hfiles. unfold App.handlePhotosCaptured.
  rewrite Hsel, Hfiles.
  destruct photos as [|p rest]; [congruence|]. cbn [length Nat.eqb].
  pose proof (files_of_imagesForm files [] (fun e (H : In e []) =>
                match H with end)) as Hform.
  rewrite app_nil_r in Hform.
  destruct (uploadScans w (_id sel) (imagesForm files)) as [resp|m];
    [destruct (UploadResponse.success resp);
       [pose proof (capturedPhotos_fetchStudents w (currentPage r)
                      (itemsPerPage r) a) as [_ [_ [_ Hev]]];
        destruct (fetchStudents w (currentPage r) (itemsPerPage r) a)
          as [a' ev]; simpl in Hev; subst ev|]|];
    cbn [snd]; rewrite <- ?app_assoc, uploadedFiles_fetches;
    unfold uploadedFiles; cbn -[imagesForm]; rewrite Hform; reflexivity.
Qed.

Lemma AppAuto_uploadedFiles r w photos a sel files :
  selectedStudent r = Some sel -> photos <> [] ->
  imageFiles w AppAuto.rethrow 0 photos = Returns files ->
  uploadedFiles (snd (AppAuto.handlePhotosCaptured r w photos a)) = [files].
Proof.
  intros Hsel Hne Hfiles. unfold AppAuto.handlePhotosCaptured.
  rewrite Hsel, Hfiles.
  destruct photos as [|p rest]; [congruence|]. cbn [length Nat.eqb].
  assert (Hform : flat_map (fun entry => match entry with
                                         | FileEntry _ f => [f]
                                         | TextEntry _ _ => []
                                         end)
                    (imagesForm files
                     ++ [TextEntry "studentId" (_id sel);
                         TextEntry "rollNumber" (rollNumber sel)])
                  = files).
  { apply files_of_imagesForm. intros e [<-|[<-|[]]]; eauto. }
  match goal with
  | |- context [uploadScans w ?i ?f] =>
      destruct (uploadScans w i f) as [resp|m]
  end;
    [destruct (UploadResponse.success resp);
       [pose proof (capturedPhotos_fetchStudents w (currentPage r)
                      (itemsPerPage r) (setError None a))
          as [_ [_ [_ Hev]]];
        destruct (fetchStudents w (currentPage r) (itemsPerPage r)
                    (setError None a)) as [a' ev]; simpl in Hev; subst ev;
        destruct (AppAuto.getNextStudent _ _ _ _)|]|];
    cbn [snd]; rewrite <- ?app_assoc, uploadedFiles_fetches;
    unfold uploadedFiles; cbn -[imagesForm]; rewrite Hform; reflexivity.
Qed.

(** C10: for a non-empty batch of a selected student whose images all
    convert, each [handlePhotosCaptured] makes one call to the uploader
    with one file per page, in array order; the file at position [i]
    (from 0) is named page_(i+1).jpg, has type image/jpeg and holds the
    image of the page at that position.  Any batch with the same images
    in the same order gives the same files: the stored [pageNumber] (and
    [id], [timestamp], [studentRoll]) of a page plays no part. *)
Theorem handlePhotosCaptured_page_files
    (w : World) (r a : AppState) (sel : Student) (photos : list Photo) :
  selectedStudent r = Some sel ->
  photos <> [] ->
  (forall photo, In photo photos ->
                 exists b, fetchBlob w (data photo) = Returns b) ->
  Forall
    (fun handle : AppState -> World -> list Photo -> AppState
                  -> AppState * Answer bool * list Event =>
       exists files,
         uploadedFiles (snd (handle r w photos a)) = [files]
         /\ length files = length photos
         /\ (forall i photo, nth_error photos i = Some photo ->
               exists b,
                 fetchBlob w (data photo) = Returns b
                 /\ nth_error files i
                    = Some (mkFile ("page_" ++ Js.numberToString (i + 1)
                                    ++ ".jpg") "image/jpeg" b))
         /\ (forall photos', map data photos' = map data photos ->
               uploadedFiles (snd (handle r w photos' a)) = [files]))
    [App.handlePhotosCaptured; AppAuto.handlePhotosCaptured].
Proof.
  intros Hsel Hne Hall.
  assert (Hne' : forall photos', map data photos' = map data photos ->
                                 photos' <> []).
  { intros photos' Hmap ->. destruct photos; [congruence|discriminate]. }
  apply Forall_cons; [|apply Forall_cons; [|apply Forall_nil]].
  - destruct (imageFiles_total w (fun _ m => m) photos 0 Hall)
      as [files Hfiles].
    destruct (imageFiles_nth w _ photos 0 files Hfiles) as [Hlen Hnth].
    exists files. split; [|split; [exact Hlen | split; [exact Hnth|]]].
    + apply (App_uploadedFiles r w photos a sel files); assumption.
    + intros photos' Hmap.
      apply (App_uploadedFiles r w photos' a sel files); auto.
      rewrite (imageFiles_data w _ photos' photos 0 Hmap). exact Hfiles.
  - destruct (imageFiles_total w AppAuto.rethrow photos 0 Hall)
      as [files Hfiles].
    destruct (imageFiles_nth w _ photos 0 files Hfiles) as [Hlen Hnth].
    exists files. split; [|split; [exact Hlen | split; [exact Hnth|]]].
    + apply (AppAuto_uploadedFiles r w photos a sel files); assumption.
    + intros photos' Hmap.
      apply (AppAuto_uploadedFiles r w photos' a sel files); auto.
      rewrite (imageFiles_data w _ photos' photos 0 Hmap). exact Hfiles.
Qed.

Lemma handlePhotosCaptured_page_files_witness :
  selectedStudent sampleApp = Some studentA
  /\ Forall
       (fun handle : AppState -> World -> list Photo -> AppState
                     -> AppState * Answer bool * list Event =>
          exists files,
            uploadedFiles (snd (handle sampleApp (sampleWorld 3) twoPages
                                       sampleApp)) = [files]
            /\ length files = length twoPages
            /\ (forall i photo, nth_error twoPages i = Some photo ->
                  exists b,
                    fetchBlob (sampleWorld 3) (data photo) = Returns b
                    /\ nth_error files i
                       = Some (mkFile ("page_" ++ Js.numberToString (i + 1)
                                       ++ ".jpg") "image/jpeg" b))
            /\ (forall photos', map data photos' = map data twoPages ->
                  uploadedFiles (snd (handle sampleApp (sampleWorld 3) photos'
                                             sampleApp)) = [files]))
       [App.handlePhotosCaptured; AppAuto.handlePhotosCaptured].
Proof.
  split; [reflexivity|].
  apply (handlePhotosCaptured_page_files (sampleWorld 3) sampleApp sampleApp
           studentA twoPages).
  - reflexivity.
  - discriminate.
  - intros photo _. simpl. eexists. reflexivity.
Defined.

(** Pages stored with the numbers 4 and 9 leave as page_1.jpg and
    page_2.jpg. *)
Example handlePhotosCaptured_names_by_position :
  uploadedFiles
    (snd (App.handlePhotosCaptured sampleApp (sampleWorld 3) twoPages sampleApp))
  = [[mkFile "page_1.jpg" "image/jpeg" "page one";
      mkFile "page_2.jpg" "image/jpeg" "page two"]]
  /\ map pageNumber twoPages = [4; 9]
  /\ Js.numberToString 12 = "12".
Proof. repeat split. Qed.


(** * Further properties *)

(** ** Walking the roster *)

Lemma skipn_cons_nth (A : Type) (l : list A) : forall i x,
  nth_error l i = Some x -> skipn i l = x :: skipn (S i) l.
Proof.
  induction l as [|y l IH]; intros [|i] x; simpl; try discriminate.
  - intros [= ->]. reflexivity.
  - intros H. rewrite (IH i x H). reflexivity.
Qed.

Lemma App_scan_find students : forall n i,
  i + n = length students ->
  App.scan students i n = find App.eligible (skipn i students).
Proof.
  induction n as [|n IH]; intros i Hlen; simpl.
  - rewrite skipn_all2 by lia. reflexivity.
  - destruct (nth_error students i) as [s|] eqn:Hi.
    + rewrite (skipn_cons_nth _ students i s Hi). simpl.
      destruct (App.eligible s); [reflexivity|]. apply IH. lia.
    + apply nth_error_None in Hi. lia.
Qed.

Lemma App_getNextStudent_find students sel k :
  Js.findIndex (fun s => String.eqb (_id s) (_id sel)) students = Some k ->
  App.getNextStudent students (Some sel)
  = find App.eligible (skipn (k + 1) students).
Proof.
  intros Hk. pose proof (findIndex_lt _ _ _ _ Hk) as Hlt.
  unfold App.getNextStudent. rewrite Hk.
  destruct (Nat.eqb_spec (length students) 0) as [H0|_]; [lia|].
  apply App_scan_find. lia.
Qed.

Lemma findIndex_unique students : forall i s,
  NoDup (map _id students) ->
  nth_error students i = Some s ->
  Js.findIndex (fun x => String.eqb (_id x) (_id s)) students = Some i.
Proof.
  induction students as [|y l IH]; intros [|i] s Hnd; simpl;
    try discriminate.
  - intros [= ->]. rewrite String.eqb_refl. reflexivity.
  - intros Hi. inversion Hnd as [|? ? Hnotin Hnd']; subst.
    destruct (String.eqb_spec (_id y) (_id s)) as [Heq|_].
    + exfalso. apply Hnotin. rewrite Heq.
      apply in_map. exact (nth_error_In _ _ Hi).
    + rewrite (IH i s Hnd' Hi). reflexivity.
Qed.

Lemma find_split (A : Type) (f : A -> bool) (l : list A) : forall x,
  find f l = Some x ->
  exists l1 l2, l = l1 ++ x :: l2 /\ filter f l1 = [] /\ f x = true.
Proof.
  induction l as [|y l IH]; intros x; simpl; [discriminate|].
  destruct (f y) eqn:Hy.
  - intros [= ->]. exists [], l. auto.
  - intros H. destruct (IH x H) as [l1 [l2 [-> [Hl1 Hx]]]].
    exists (y :: l1), l2. simpl. rewrite Hy. auto.
Qed.

Lemma find_none_filter (A : Type) (f : A -> bool) (l : list A) :
  find f l = None -> filter f l = [].
Proof.
  induction l as [|y l IH]; simpl; [reflexivity|].
  destruct (f y); [discriminate | exact IH].
Qed.

Lemma skipn_split (A : Type) (l : list A) : forall n l1 x l2,
  skipn n l = l1 ++ x :: l2 ->
  nth_error l (n + length l1) = Some x
  /\ skipn (n + length l1 + 1) l = l2.
Proof.
  induction l as [|y l IH]; intros [|n] l1 x l2; simpl.
  - destruct l1; discriminate.
  - destruct l1; discriminate.
  - intros H. rewrite H. split.
    + rewrite nth_error_app2 by lia. rewrite Nat.sub_diag. reflexivity.
    + clear. induction l1 as [|z l1 IHl]; simpl; [reflexivity|exact IHl].
  - intros H. destruct (IH n l1 x l2 H) as [Hn Hs]. split; assumption.
Qed.

Lemma handleNextStudent_cells r a :
  students (fst (App.handleNextStudent r a)) = students a
  /\ selectedStudent (fst (App.handleNextStudent r a))
     = App.getNextStudent (students r) (selectedStudent r)
  /\ (App.getNextStudent (students r) (selectedStudent r) = None ->
      showPhotoCapture (fst (App.handleNextStudent r a)) = false).
Proof.
  unfold App.handleNextStudent.
  destruct (App.getNextStudent _ _); repeat split; discriminate.
Qed.

Lemma filter_nil_find (A : Type) (f : A -> bool) (l : list A) :
  filter f l = [] -> find f l = None.
Proof.
  induction l as [|y l IH]; simpl; [reflexivity|].
  destruct (f y); [discriminate | exact IH].
Qed.

(** What a press of N does while nothing is being uploaded. *)
Lemma pressN_acts w s :
  uploading (capture s) = false ->
  pressN w s
  = if App.hasNextStudent (app s)
    then mkSession
           (fst (App.handleNextStudent (app s)
                   (setCapturedPhotos [] (app s))))
           (setCurrentPhoto None (capture s))
    else s.
Proof.
  intros Hup. unfold pressN, PhotoCaptureKeys.handleKeyPress.
  cbn [PhotoCaptureKeys.isKey PhotoCaptureKeys.targetTagName
       PhotoCaptureKeys.key existsb String.eqb Ascii.eqb Bool.eqb
       orb andb negb fst snd].
  cbn [App.props Props.hasNextStudent]. rewrite Hup. cbn [negb].
  rewrite andb_true_r.
  destruct (App.hasNextStudent (app s)); [|reflexivity].
  unfold PhotoCapture.handleNextStudent.
  cbn [App.props Props.onPhotosUpdate Props.onNextStudent].
  destruct (App.handleNextStudent (app s) _) as [a' ev].
  destruct s. reflexivity.
Qed.

Lemma walk_from w : forall n s sel k,
  NoDup (map _id (students (app s))) ->
  selectedStudent (app s) = Some sel ->
  Js.findIndex (fun x => String.eqb (_id x) (_id sel)) (students (app s))
  = Some k ->
  uploading (capture s) = false ->
  let rest := filter App.eligible (skipn (k + 1) (students (app s))) in
  selectedStudent (app (pressNext w n s))
  = Some (nth (Nat.min n (length rest)) (sel :: rest) sel)
  /\ showPhotoCapture (app (pressNext w n s)) = showPhotoCapture (app s)
  /\ uploading (capture (pressNext w n s)) = false
  /\ (length rest <= n ->
      App.hasNextStudent (app (pressNext w n s)) = false).
Proof.
  induction n as [|n IH]; intros s sel k Hnd Hsel Hk Hup; cbv zeta.
  - simpl. split; [exact Hsel|]. split; [reflexivity|].
    split; [exact Hup|]. intros Hlen.
    unfold App.hasNextStudent.
    rewrite Hsel, (App_getNextStudent_find _ sel k Hk).
    rewrite filter_nil_find; [reflexivity|].
    destruct (filter App.eligible (skipn (k + 1) (students (app s))));
      [reflexivity | simpl in Hlen; lia].
  - simpl pressNext. rewrite (pressN_acts w s Hup).
    unfold App.hasNextStudent, App.handleNextStudent.
    rewrite Hsel, (App_getNextStudent_find _ sel k Hk).
    destruct (find App.eligible (skipn (k + 1) (students (app s))))
      as [next|] eqn:Hfind.
    + destruct (find_split _ _ _ _ Hfind) as [l1 [l2 [Hsplit [Hl1 Hnext]]]].
      destruct (skipn_split _ _ _ _ _ _ Hsplit) as [Hnth Hrest].
      assert (Hk' : Js.findIndex (fun x => String.eqb (_id x) (_id next))
                      (students (app s)) = Some (k + 1 + length l1))
        by (apply findIndex_unique; assumption).
      assert (Hwalk : filter App.eligible (skipn (k + 1) (students (app s)))
                      = next :: filter App.eligible l2).
      { rewrite Hsplit, filter_app, Hl1. simpl. rewrite Hnext. reflexivity. }
      cbn [isSome fst].
      match goal with
      | |- context [pressNext w n ?x] => set (s1 := x)
      end.
      destruct (IH s1 next (k + 1 + length l1))
        as [Hselected [Hshow [Hidle Hlast]]];
        [exact Hnd | reflexivity | exact Hk'
        | destruct s as [a c]; destruct c; exact Hup |].
      change (students (app s1)) with (students (app s)) in *.
      rewrite Hrest in Hselected, Hlast. rewrite Hwalk.
      split; [|split; [|split]].
      * rewrite Hselected. f_equal.
        replace (Nat.min (S n) (length (next :: filter App.eligible l2)))
          with (S (Nat.min n (length (filter App.eligible l2))))
          by reflexivity.
        refine (nth_indep (next :: filter App.eligible l2) next sel _).
        simpl. lia.
      * rewrite Hshow. reflexivity.
      * exact Hidle.
      * intros Hlen. apply Hlast. simpl in Hlen. lia.
    + cbn [isSome].
      destruct (IH s sel k Hnd Hsel Hk Hup)
        as [Hselected [Hshow [Hidle Hlast]]].
      rewrite (find_none_filter _ _ _ Hfind) in *.
      simpl length in *. rewrite Nat.min_0_r in *.
      split; [exact Hselected|]. split; [exact Hshow|].
      split; [exact Hidle|]. intros _. apply Hlast. lia.
Qed.

(** X1: with distinct ids and [App] as parent, each press of N (the "Next
    Student" control) selects the next Pending, unscanned student after
    the current one, in roster order.  Once the last of them is selected
    the control is gone: further presses change nothing, that student
    stays selected and the capture view stays open. *)
Theorem next_walks_eligible_in_order
    (w : World) (s : Session) (sel : Student) (k : nat) :
  NoDup (map _id (students (app s))) ->
  selectedStudent (app s) = Some sel ->
  Js.findIndex (fun x => String.eqb (_id x) (_id sel)) (students (app s))
  = Some k ->
  uploading (capture s) = false ->
  let rest := filter App.eligible (skipn (k + 1) (students (app s))) in
  forall n,
    let s' := pressNext w n s in
    selectedStudent (app s')
    = Some (nth (Nat.min n (length rest)) (sel :: rest) sel)
    /\ showPhotoCapture (app s') = showPhotoCapture (app s)
    /\ (length rest <= n ->
        App.hasNextStudent (app s') = false /\ pressN w s' = s').
Proof.
  intros Hnd Hsel Hk Hup rest n s'.
  destruct (walk_from w n s sel k Hnd Hsel Hk Hup)
    as [Hselected [Hshow [Hidle Hlast]]].
  split; [exact Hselected|]. split; [exact Hshow|].
  intros Hlen. pose proof (Hlast Hlen) as Hnone.
  split; [exact Hnone|].
  unfold s'. rewrite (pressN_acts w _ Hidle), Hnone. reflexivity.
Qed.

Lemma next_walks_eligible_in_order_witness :
  map (fun n => option_map _id
                  (selectedStudent (app (pressNext (sampleWorld 1) n
                                           longSession))))
      [0; 1; 2; 3; 6]
  = [Some "a"; Some "c"; Some "e"; Some "e"; Some "e"]
  /\ showPhotoCapture (app (pressNext (sampleWorld 1) 6 longSession)) = true
  /\ App.hasNextStudent (app (pressNext (sampleWorld 1) 6 longSession))
     = false.
Proof.
  assert (Hnd : NoDup (map _id (students (app longSession)))).
  { simpl. repeat constructor; simpl; intuition discriminate. }
  pose proof (next_walks_eligible_in_order (sampleWorld 1) longSession
                studentA 0 Hnd eq_refl eq_refl eq_refl) as H.
  cbv zeta in H.
  split; [|split].
  - cbn [map].
    rewrite (proj1 (H 0)), (proj1 (H 1)), (proj1 (H 2)), (proj1 (H 3)),
            (proj1 (H 6)).
    reflexivity.
  - rewrite (proj1 (proj2 (H 6))). reflexivity.
  - apply (proj2 (proj2 (H 6))). simpl. lia.
Defined.

(** ** Changing a status *)

Lemma updateStatus_ids studentId newStatus l :
  map _id (AppStatus.updateStatus studentId newStatus l) = map _id l.
Proof.
  unfold AppStatus.updateStatus. induction l as [|x l IH]; simpl;
    [reflexivity|].
  rewrite IH. destruct (String.eqb (_id x) studentId); reflexivity.
Qed.

Lemma findIndex_updateStatus studentId newStatus target l :
  Js.findIndex (fun s => String.eqb (_id s) target)
               (AppStatus.updateStatus studentId newStatus l)
  = Js.findIndex (fun s => String.eqb (_id s) target) l.
Proof.
  unfold AppStatus.updateStatus. induction l as [|x l IH]; simpl;
    [reflexivity|].
  rewrite IH. destruct (String.eqb (_id x) studentId); reflexivity.
Qed.

Lemma nth_error_updateStatus studentId newStatus l : forall j,
  nth_error (AppStatus.updateStatus studentId newStatus l) j
  = match nth_error l j with
    | Some s => Some (if String.eqb (_id s) studentId
                      then AppStatus.withStatus newStatus s else s)
    | None => None
    end.
Proof.
  unfold AppStatus.updateStatus. intros j. rewrite nth_error_map.
  destruct (nth_error l j); reflexivity.
Qed.

Lemma App_scan_ext l l' : forall n i,
  (forall j, i <= j -> nth_error l j = nth_error l' j) ->
  App.scan l i n = App.scan l' i n.
Proof.
  induction n as [|n IH]; intros i Hext; simpl; [reflexivity|].
  rewrite <- (Hext i (le_n i)).
  destruct (nth_error l i) as [s|]; [|reflexivity].
  destruct (App.eligible s); [reflexivity|].
  apply IH. intros j Hj. apply Hext. lia.
Qed.

Lemma unique_id_position l sel k :
  NoDup (map _id l) ->
  Js.findIndex (fun s => String.eqb (_id s) (_id sel)) l = Some k ->
  forall j s, nth_error l j = Some s -> _id s = _id sel -> j = k.
Proof.
  intros Hnd Hk j s Hj Hid.
  pose proof (findIndex_unique l j s Hnd Hj) as Hj'.
  rewrite Hid in Hj'. congruence.
Qed.

(** Rewriting the status of the current student leaves the navigator's
    answer as it was. *)
Lemma getNextStudent_updateStatus l sel newStatus :
  NoDup (map _id l) ->
  App.getNextStudent (AppStatus.updateStatus (_id sel) newStatus l) (Some sel)
  = App.getNextStudent l (Some sel).
Proof.
  intros Hnd. unfold App.getNextStudent.
  rewrite findIndex_updateStatus.
  assert (Hlen : length (AppStatus.updateStatus (_id sel) newStatus l)
                 = length l)
    by (unfold AppStatus.updateStatus; apply length_map).
  rewrite Hlen.
  destruct (Nat.eqb (length l) 0); [reflexivity|].
  destruct (Js.findIndex _ l) as [k|] eqn:Hk; [|reflexivity].
  apply App_scan_ext. intros j Hj. rewrite nth_error_updateStatus.
  destruct (nth_error l j) as [s|] eqn:Hs; [|reflexivity].
  destruct (String.eqb_spec (_id s) (_id sel)) as [Heq|_]; [|reflexivity].
  pose proof (unique_id_position l sel k Hnd Hk j s Hs Heq). lia.
Qed.

(** X2: when the back end accepts Absent or Missing for the current
    student, the roster keeps its length, order and ids, only students
    with that id get the new status, and the student moved to is the one
    the navigator designates on the rewritten roster (ids distinct). *)
Theorem status_change_moves_to_next
    (a : AppState) (sel : Student) (newStatus : string) :
  NoDup (map _id (students a)) ->
  selectedStudent a = Some sel ->
  newStatus = "Absent" \/ newStatus = "Missing" ->
  let (a', ev) :=
    AppStatus.handleStatusChange (Returns true) a (_id sel) newStatus a in
  map _id (students a') = map _id (students a)
  /\ (forall j s, nth_error (students a) j = Some s ->
        nth_error (students a') j
        = Some (if String.eqb (_id s) (_id sel)
                then AppStatus.withStatus newStatus s else s))
  /\ selectedStudent a' = App.getNextStudent (students a') (Some sel)
  /\ capturedPhotos a' = []
  /\ ev = [UpdateStudentStatus (_id sel) newStatus].
Proof.
  intros Hnd Hsel Hstatus.
  unfold AppStatus.handleStatusChange. rewrite Hsel, String.eqb_refl.
  assert (Hs : (String.eqb newStatus "Absent"
                || String.eqb newStatus "Missing") = true)
    by (destruct Hstatus as [-> | ->]; reflexivity).
  rewrite Hs. cbn [andb].
  set (a1 := setStudents _ a).
  destruct (handleNextStudent_cells a a1) as [Hstud [Hnext _]].
  assert (Hev : snd (App.handleNextStudent a a1) = []).
  { unfold App.handleNextStudent. destruct (App.getNextStudent _ _);
      reflexivity. }
  assert (Hbuf : capturedPhotos (fst (App.handleNextStudent a a1)) = []).
  { unfold App.handleNextStudent. destruct (App.getNextStudent _ _);
      reflexivity. }
  destruct (App.handleNextStudent a a1) as [a2 ev]. simpl in *.
  subst ev. rewrite Hstud. unfold a1. simpl.
  split; [apply updateStatus_ids|].
  split.
  { intros j s Hj. rewrite nth_error_updateStatus, Hj. reflexivity. }
  split.
  { rewrite Hnext, Hsel. symmetry.
    apply getNextStudent_updateStatus, Hnd. }
  split; [exact Hbuf | reflexivity].
Qed.

Lemma status_change_moves_to_next_witness :
  let (a', ev) :=
    AppStatus.handleStatusChange (Returns true) longApp "a" "Missing"
                                 longApp in
  map status (students a')
  = ["Missing"; "Absent"; "Pending"; "Missing"; "Pending"; "Pending"]
  /\ selectedStudent a' = Some studentC
  /\ selectedStudent a' = App.getNextStudent (students a') (Some studentA).
Proof.
  assert (Hnd : NoDup (map _id (students longApp))).
  { simpl. repeat constructor; simpl; intuition discriminate. }
  pose proof (status_change_moves_to_next longApp studentA "Missing" Hnd
                eq_refl (or_intror eq_refl)) as H.
  change (_id studentA) with "a" in H.
  destruct (AppStatus.handleStatusChange (Returns true) longApp "a"
              "Missing" longApp) as [a' ev] eqn:E.
  destruct H as [_ [_ [Hnext _]]].
  vm_compute in E. injection E as <- <-.
  split; [reflexivity|]. split; [reflexivity | exact Hnext].
Defined.

Lemma fetchStudents_accepted w page limit a resp :
  getStudents w page limit = Returns resp ->
  StudentsResponse.success resp = true ->
  students (fst (fetchStudents w page limit a)) = StudentsResponse.students resp.
Proof.
  intros Hget Hok. unfold fetchStudents. rewrite Hget, Hok. reflexivity.
Qed.

(** X3: "Mark absent" and "Mark missing" move on only when the back end
    accepted the status: a refusal changes nothing, an error only shows
    its message, and neither asks for the roster.  On acceptance the
    roster is refreshed and the next student is taken from the roster as
    it was rendered; when the refreshed roster is the rendered one with
    the new status on the current student (ids distinct), that is the
    student the navigator designates on the refreshed roster. *)
Theorem mark_moves_only_when_accepted
    (newStatus failure : string) (answer : Answer bool) (w : World)
    (r : AppState) (sel : Student) :
  selectedStudent r = Some sel ->
  NoDup (map _id (students r)) ->
  let (a', ev) := AppStatus.handleMarkAs newStatus failure answer w r r in
  match answer with
  | Returns true =>
      ev = [UpdateStudentStatus (_id sel) newStatus;
            Ev (GetStudents (currentPage r) (itemsPerPage r))]
      /\ selectedStudent a' = App.getNextStudent (students r) (Some sel)
      /\ capturedPhotos a' = []
      /\ forall resp,
           getStudents w (currentPage r) (itemsPerPage r) = Returns resp ->
           StudentsResponse.success resp = true ->
           StudentsResponse.students resp
           = AppStatus.updateStatus (_id sel) newStatus (students r) ->
           students a' = StudentsResponse.students resp
           /\ selectedStudent a' = App.getNextStudent (students a') (Some sel)
  | Returns false =>
      a' = r /\ ev = [UpdateStudentStatus (_id sel) newStatus]
  | Throws _ =>
      a' = setError (Some failure) r
      /\ ev = [UpdateStudentStatus (_id sel) newStatus]
  end.
Proof.
  intros Hsel Hnd. unfold AppStatus.handleMarkAs. rewrite Hsel.
  destruct answer as [[|]|m]; [|split; reflexivity|split; reflexivity].
  pose proof (capturedPhotos_fetchStudents w (currentPage r) (itemsPerPage r) r)
    as [_ [_ [_ Hev]]].
  pose proof (fetchStudents_accepted w (currentPage r) (itemsPerPage r) r)
    as Hfresh.
  destruct (fetchStudents w (currentPage r) (itemsPerPage r) r) as [a1 ev1].
  simpl in Hev, Hfresh. subst ev1.
  destruct (handleNextStudent_cells r a1) as [Hstud [Hnext _]].
  assert (Hev : snd (App.handleNextStudent r a1) = []).
  { unfold App.handleNextStudent. destruct (App.getNextStudent _ _);
      reflexivity. }
  assert (Hbuf : capturedPhotos (fst (App.handleNextStudent r a1)) = []).
  { unfold App.handleNextStudent. destruct (App.getNextStudent _ _);
      reflexivity. }
  destruct (App.handleNextStudent r a1) as [a2 ev2]. simpl in *. subst ev2.
  rewrite Hsel in Hnext.
  split; [reflexivity|]. split; [exact Hnext|]. split; [exact Hbuf|].
  intros resp Hget Hok Hroster.
  rewrite Hstud, (Hfresh resp Hget Hok). split; [reflexivity|].
  rewrite Hnext, Hroster. symmetry.
  apply getNextStudent_updateStatus, Hnd.
Qed.

Lemma mark_moves_only_when_accepted_witness :
  let (a', ev) :=
    AppStatus.handleMarkAsAbsent (Returns true) markedWorld longApp longApp in
  selectedStudent a' = Some studentC
  /\ map status (students a')
     = ["Absent"; "Absent"; "Pending"; "Missing"; "Pending"; "Pending"]
  /\ selectedStudent a' = App.getNextStudent (students a') (Some studentA).
Proof.
  assert (Hnd : NoDup (map _id (students longApp))).
  { simpl. repeat constructor; simpl; intuition discriminate. }
  pose proof (mark_moves_only_when_accepted "Absent"
                "Failed to mark student as absent" (Returns true)
                markedWorld longApp studentA eq_refl Hnd) as H.
  change (AppStatus.handleMarkAs "Absent" "Failed to mark student as absent")
    with AppStatus.handleMarkAsAbsent in H.
  destruct (AppStatus.handleMarkAsAbsent (Returns true) markedWorld longApp
              longApp) as [a' ev] eqn:E.
  destruct H as [_ [_ [_ Hfresh]]].
  destruct (Hfresh _ eq_refl eq_refl eq_refl) as [_ Hnext].
  vm_compute in E. injection E as <- <-.
  split; [reflexivity|]. split; [reflexivity | exact Hnext].
Defined.

(** ** The statistics bar *)

Lemma remaining_identity l total :
  Stats.remaining total (count isScanned l)
    (count (fun s => String.eqb (status s) "Absent") l)
    (count (fun s => String.eqb (status s) "Missing") l)
  = (total - Z.of_nat (length l) + count stillOpen l - count countedTwice l)%Z.
Proof.
  unfold Stats.remaining, count.
  induction l as [|s l IH]; simpl; [lia|].
  unfold stillOpen, countedTwice in *.
  destruct (isScanned s);
    destruct (String.eqb_spec (status s) "Absent") as [Ha|Ha];
    destruct (String.eqb_spec (status s) "Missing") as [Hm|Hm];
    try (rewrite Ha in Hm; discriminate);
    simpl; lia.
Qed.

(** X4: the "Remaining" figure of the bar is the number of students of
    the page that are neither scanned nor Absent nor Missing, plus the
    students the total counts beyond the page, minus the students that
    are scanned and also Absent or Missing (they are taken off twice).
    When the page is the whole roster and no scanned student is Absent or
    Missing, it is the number of open students, and it is at least one
    whenever a next student is offered. *)
Theorem remaining_counts_open (a : AppState) :
  AppStatus.remaining a
  = (Z.of_nat (totalStudents a) - Z.of_nat (length (students a))
     + count stillOpen (students a) - count countedTwice (students a))%Z
  /\ (totalStudents a = length (students a) ->
      count countedTwice (students a) = 0%Z ->
      AppStatus.remaining a = count stillOpen (students a)
      /\ (App.hasNextStudent a = true -> (1 <= AppStatus.remaining a)%Z)).
Proof.
  assert (Hid : AppStatus.remaining a
                = (Z.of_nat (totalStudents a) - Z.of_nat (length (students a))
                   + count stillOpen (students a) - count countedTwice (students a))%Z)
    by exact (remaining_identity (students a) (Z.of_nat (totalStudents a))).
  split; [exact Hid|].
  intros Htotal Htwice. rewrite Hid, Htotal, Htwice.
  split; [lia|].
  unfold App.hasNextStudent. intros Hnext.
  destruct (App.getNextStudent (students a) (selectedStudent a))
    as [s|] eqn:Hs; [|discriminate].
  assert (Hin : In s (students a) /\ App.eligible s = true).
  { unfold App.getNextStudent in Hs.
    destruct (selectedStudent a) as [sel|]; [|discriminate].
    destruct (Nat.eqb (length (students a)) 0); [discriminate|].
    destruct (Js.findIndex _ (students a)) as [k|]; [|discriminate].
    destruct (App_scan_Some _ _ _ _ Hs) as [j [_ [Hj [He _]]]].
    split; [exact (nth_error_In _ _ Hj) | exact He]. }
  destruct Hin as [Hin He].
  assert (Hopen : stillOpen s = true).
  { destruct (App_eligible_true s He) as [Hp Hsc].
    unfold stillOpen. rewrite Hp, Hsc. reflexivity. }
  assert (Hpos : In s (filter stillOpen (students a)))
    by (apply filter_In; auto).
  unfold count. destruct (filter stillOpen (students a)); [destruct Hpos|].
  simpl length. lia.
Qed.

Lemma remaining_counts_open_witness :
  AppStatus.remaining sampleApp = 2%Z
  /\ (1 <= AppStatus.remaining sampleApp)%Z.
Proof.
  destruct (remaining_counts_open sampleApp) as [_ H].
  destruct (H eq_refl eq_refl) as [Hopen Hnext].
  split; [rewrite Hopen; reflexivity | apply Hnext; reflexivity].
Defined.

(** ** The PDF download *)

(** X6: the PDF handler of part_000 asks the back end for a PDF exactly
    when the student is scanned and has a PDF path; otherwise it makes no
    request at all and shows a message.  In no case does it touch the
    selected student or the page buffer. *)
Theorem generatePDF_only_when_scanned
    (answer : Answer bool) (w : World) (r : AppState) (student : Student)
    (a : AppState) :
  let (a', ev) := AppAutoPdf.handleGeneratePDF answer w r student a in
  asksForPDF ev = isScanned student && Js.truthy (pdfPath student)
  /\ (isScanned student && Js.truthy (pdfPath student) = false ->
      ev = [] /\ isSome (error a') = true /\ students a' = students a)
  /\ selectedStudent a' = selectedStudent a
  /\ capturedPhotos a' = capturedPhotos a.
Proof.
  unfold AppAutoPdf.handleGeneratePDF.
  pose proof (capturedPhotos_fetchStudents w (currentPage r)
                (itemsPerPage r) (setError None a))
    as [Hbuf [Hsel [_ Hev]]].
  destruct (fetchStudents w (currentPage r) (itemsPerPage r)
              (setError None a)) as [a1 ev].
  simpl in Hbuf, Hsel, Hev. subst ev.
  destruct (isScanned student); [|repeat split].
  destruct (Js.truthy (pdfPath student)); [|repeat split].
  destruct answer as [[|]|m]; cbn [negb andb];
    repeat split; try (intros; discriminate); auto.
Qed.

Example generatePDF_unscanned_is_refused :
  AppAutoPdf.handleGeneratePDF (Returns true) (sampleWorld 1) sampleApp
                               studentA sampleApp
  = (setError
       (Some "Student has not been scanned yet. Please scan copies first.")
       sampleApp, [])
  /\ asksForPDF (snd (AppStatus.handleGeneratePDF (Returns true)
                        (sampleWorld 1) sampleApp studentA sampleApp))
     = true.
Proof. split; reflexivity. Qed.

(** ** The API service *)

(** X7: the error wrapper of the API service reports a network failure
    first, then a 404, then a 500, and anything else as it came; what it
    reports matches none of its patterns, so wrapping a wrapped call
    changes nothing, and a resolved value passes untouched. *)
Theorem error_wrapper_is_idempotent (A : Type) (call : Answer A) (m : string) :
  Api.translate (Api.translate m) = Api.translate m
  /\ Api.withErrorHandling (Api.withErrorHandling call)
     = Api.withErrorHandling call
  /\ (Api.includes "Failed to fetch" m = true ->
      Api.translate m = "Network error: Please check server connection.")
  /\ (Api.includes "NetworkError" m = false ->
      Api.includes "Failed to fetch" m = false ->
      Api.includes "404" m = true ->
      Api.translate m = "Requested resource not found.").
Proof.
  assert (Hidem : forall x, Api.translate (Api.translate x) = Api.translate x).
  { intros x. unfold Api.translate at 2 3.
    destruct (Api.includes "NetworkError" x || Api.includes "Failed to fetch" x)
      eqn:H1; [reflexivity|].
    destruct (Api.includes "404" x) eqn:H2; [reflexivity|].
    destruct (Api.includes "500" x) eqn:H3; [reflexivity|].
    unfold Api.translate. rewrite H1, H2, H3. reflexivity. }
  split; [apply Hidem|]. split.
  - destruct call as [v|x]; simpl; [reflexivity|]. rewrite Hidem. reflexivity.
  - split.
    + intros H. unfold Api.translate. rewrite H, orb_true_r. reflexivity.
    + intros H1 H2 H3. unfold Api.translate. rewrite H1, H2, H3. reflexivity.
Qed.

Lemma error_wrapper_is_idempotent_witness :
  Api.translate "TypeError: Failed to fetch (status 404)"
  = "Network error: Please check server connection."
  /\ Api.translate "Roll number 1404 not found"
     = "Requested resource not found.".
Proof.
  destruct (error_wrapper_is_idempotent unit (Returns tt)
              "TypeError: Failed to fetch (status 404)") as [_ [_ [H _]]].
  destruct (error_wrapper_is_idempotent unit (Returns tt)
              "Roll number 1404 not found") as [_ [_ [_ H']]].
  split; [apply H; reflexivity | apply H'; reflexivity].
Defined.

(** X8: [request] resolves exactly when the response is ok and, if it
    announces JSON, its body parses.  A response that is not ok and does
    not announce JSON is always reported as "Download failed", whatever
    its body says; one that announces JSON is reported with the message
    of its body, or "API request failed" when it has none. *)
Theorem request_outcomes (fetched : Answer Api.Response) :
  ((exists v, Api.request fetched = Returns v)
   <-> exists response,
         fetched = Returns response /\ Api.ok response = true
         /\ (isJson response = true ->
             exists d, Api.json response = Returns d))
  /\ (forall response,
        fetched = Returns response -> Api.ok response = false ->
        isJson response = false ->
        Api.request fetched = Throws "Download failed")
  /\ (forall response d,
        fetched = Returns response -> Api.ok response = false ->
        isJson response = true -> Api.json response = Returns d ->
        Api.request fetched
        = Throws (orElse (Api.message d) "API request failed")).
Proof.
  unfold isJson. split; [|split].
  - split.
    + intros [v Hv]. destruct fetched as [response|m]; [|discriminate].
      exists response. unfold Api.request in Hv.
      destruct (Js.truthy (Api.contentType response) && _) eqn:Hj.
      * destruct (Api.json response) as [d|m]; [|discriminate].
        destruct (Api.ok response); [|discriminate].
        repeat split. intros _. exists d. reflexivity.
      * destruct (Api.ok response); simpl in Hv.
        -- repeat split. discriminate.
        -- destruct (Api.json response); discriminate.
    + intros [response [-> [Hok Hjson]]]. unfold Api.request. rewrite Hok.
      destruct (Js.truthy (Api.contentType response) && _) eqn:Hj.
      * destruct (Hjson eq_refl) as [d ->]. simpl. eexists. reflexivity.
      * simpl. eexists. reflexivity.
  - intros response -> Hok Hj. unfold Api.request. rewrite Hj, Hok. simpl.
    destruct (Api.json response); reflexivity.
  - intros response d -> Hok Hj Hd. unfold Api.request.
    rewrite Hj, Hd, Hok. reflexivity.
Qed.

Lemma request_outcomes_witness :
  Api.request
    (Returns (Api.mkResponse false (Some "text/html")
                (Returns (Api.mkData "{}" (Some "Student not found")))))
  = Throws "Download failed"
  /\ Api.request
       (Returns (Api.mkResponse false (Some "application/json; charset=utf-8")
                   (Returns (Api.mkData "{}" (Some "Student not found")))))
     = Throws "Student not found".
Proof.
  split.
  - destruct (request_outcomes
                (Returns (Api.mkResponse false (Some "text/html")
                            (Returns (Api.mkData "{}"
                                        (Some "Student not found"))))))
      as [_ [H _]].
    apply (H _ eq_refl); reflexivity.
  - destruct (request_outcomes
                (Returns (Api.mkResponse false
                            (Some "application/json; charset=utf-8")
                            (Returns (Api.mkData "{}"
                                        (Some "Student not found"))))))
      as [_ [_ H]].
    exact (H _ (Api.mkData "{}" (Some "Student not found"))
             eq_refl eq_refl eq_refl eq_refl).
Defined.

Lemma list_of_substring s : forall n m,
  list_ascii_of_string (substring n m s)
  = firstn m (skipn n (list_ascii_of_string s)).
Proof.
  induction s as [|c s IH]; intros [|n] [|m]; simpl; try reflexivity.
  - rewrite (IH 0 m). reflexivity.
  - rewrite (IH n 0). reflexivity.
  - rewrite (IH n (S m)). reflexivity.
Qed.

Lemma length_list_of_string s :
  length (list_ascii_of_string s) = String.length s.
Proof. induction s as [|c s IH]; simpl; congruence. Qed.

Lemma byteArrays_concat s : forall fuel offset,
  String.length s - offset <= fuel ->
  concat (Api.byteArrays fuel offset s)
  = map nat_of_ascii (skipn offset (list_ascii_of_string s)).
Proof.
  induction fuel as [|fuel IH]; intros offset Hfuel; simpl.
  - rewrite skipn_all2 by (rewrite length_list_of_string; lia). reflexivity.
  - destruct (Nat.ltb_spec offset (String.length s)) as [Hlt|Hge].
    + simpl. rewrite IH by lia. rewrite list_of_substring.
      rewrite <- map_app. f_equal.
      replace (offset + 512) with (512 + offset) by lia.
      rewrite <- skipn_skipn. apply firstn_skipn.
    + rewrite skipn_all2 by (rewrite length_list_of_string; lia).
      reflexivity.
Qed.

Lemma byteArrays_sizes s : forall fuel offset,
  Forall (fun chunk => 1 <= length chunk <= 512)
         (Api.byteArrays fuel offset s).
Proof.
  induction fuel as [|fuel IH]; intros offset; simpl; [constructor|].
  destruct (Nat.ltb_spec offset (String.length s)) as [Hlt|Hge];
    [|constructor].
  constructor; [|apply IH].
  rewrite length_map, list_of_substring, length_firstn, length_skipn,
    length_list_of_string. lia.
Qed.

Lemma blobOf_byteArrays s :
  Api.blobOf (Api.byteArrays (String.length s) 0 s) = s.
Proof.
  unfold Api.blobOf. rewrite byteArrays_concat by lia. simpl skipn.
  rewrite map_map.
  rewrite (map_ext _ (fun c => c) (fun c => ascii_nat_embedding c)), map_id.
  apply string_of_list_ascii_of_string.
Qed.

Lemma substring_whole s : substring 0 (String.length s) s = s.
Proof. induction s as [|c s IH]; simpl; congruence. Qed.

Lemma afterWord_kind kind rest :
  forallb Api.isWordChar (list_ascii_of_string kind) = true ->
  Api.afterWord (kind ++ ";" ++ rest) = (";" ++ rest)%string.
Proof.
  induction kind as [|c kind IH]; simpl; [reflexivity|].
  intros H. apply andb_true_iff in H as [Hc Hk].
  rewrite Hc. apply IH, Hk.
Qed.

Lemma length_append s t :
  String.length (s ++ t) = String.length s + String.length t.
Proof. induction s as [|c s IH]; simpl; congruence. Qed.

Lemma prefix_empty s : String.prefix "" s = true.
Proof. destruct s; reflexivity. Qed.

Lemma stripDataPrefix_dataURL kind payload :
  kind <> "" ->
  forallb Api.isWordChar (list_ascii_of_string kind) = true ->
  Api.stripDataPrefix ("data:image/" ++ kind ++ ";base64," ++ payload)
  = payload.
Proof.
  intros Hne Hword. unfold Api.stripDataPrefix.
  set (rest := (kind ++ ";base64," ++ payload)%string).
  assert (Hdrop : Api.drop 11 ("data:image/" ++ rest) = rest).
  { unfold Api.drop. simpl. rewrite Nat.sub_0_r. apply substring_whole. }
  assert (Hpre : String.prefix "data:image/" ("data:image/" ++ rest) = true)
    by (simpl; apply prefix_empty).
  rewrite Hpre, Hdrop. unfold rest.
  change (";base64," ++ payload)%string
    with (";" ++ ("base64," ++ payload))%string.
  rewrite (afterWord_kind kind _ Hword).
  assert (Hlen : (String.length (";" ++ "base64," ++ payload)
                  <? String.length (kind ++ ";" ++ "base64," ++ payload))
                 = true).
  { apply Nat.ltb_lt. rewrite (length_append kind).
    destruct kind; [congruence | simpl; lia]. }
  assert (Hpre2 : String.prefix ";base64," (";" ++ "base64," ++ payload)
                  = true)
    by (simpl; apply prefix_empty).
  rewrite Hlen, Hpre2. cbn [andb]. unfold Api.drop. simpl.
  rewrite Nat.sub_0_r. apply substring_whole.
Qed.

(** X9: [base64ToFile] on a data URL [data:image/<kind>;base64,<payload>]
    gives a file with the given name, type image/jpeg, and exactly the
    characters that [atob] decodes from the payload: cutting them into
    arrays of at most 512 codes loses and reorders nothing.  The loop
    ends within as many turns as there are characters. *)
Theorem base64ToFile_keeps_bytes
    (atob : string -> Answer string) (kind payload decoded filename : string) :
  kind <> "" ->
  forallb Api.isWordChar (list_ascii_of_string kind) = true ->
  atob payload = Returns decoded ->
  Api.base64ToFile atob ("data:image/" ++ kind ++ ";base64," ++ payload)
                   filename
  = Returns (mkFile filename "image/jpeg" decoded)
  /\ concat (Api.byteArrays (String.length decoded) 0 decoded)
     = map nat_of_ascii (list_ascii_of_string decoded)
  /\ Forall (fun chunk => 1 <= length chunk <= 512)
            (Api.byteArrays (String.length decoded) 0 decoded).
Proof.
  intros Hne Hword Hatob. split; [|split].
  - unfold Api.base64ToFile.
    rewrite (stripDataPrefix_dataURL kind payload Hne Hword), Hatob.
    rewrite blobOf_byteArrays. reflexivity.
  - rewrite byteArrays_concat by lia. reflexivity.
  - apply byteArrays_sizes.
Qed.

Lemma base64ToFile_keeps_bytes_witness :
  Api.base64ToFile (fun _ => Returns "ABC") "data:image/png;base64,QUJD"
                   "image.jpg"
  = Returns (mkFile "image.jpg" "image/jpeg" "ABC").
Proof.
  apply (base64ToFile_keeps_bytes (fun _ => Returns "ABC") "png" "QUJD"
           "ABC" "image.jpg").
  - discriminate.
  - reflexivity.
  - reflexivity.
Defined.

(** ** More on the capture session *)

Lemma onlyBackend_fetches photos : onlyBackend (fetches photos) = true.
Proof. induction photos as [|p l IH]; simpl; auto. Qed.

Lemma onlyBackend_app ev1 ev2 :
  onlyBackend (ev1 ++ ev2) = onlyBackend ev1 && onlyBackend ev2.
Proof. apply forallb_app. Qed.

Ltac backend_simpl :=
  repeat (rewrite onlyBackend_app || rewrite onlyBackend_fetches);
  try reflexivity.

Lemma App_handlePhotosCaptured_backend r w photos a :
  onlyBackend (snd (App.handlePhotosCaptured r w photos a)) = true.
Proof.
  unfold App.handlePhotosCaptured.
  destruct (selectedStudent r) as [sel|]; [|reflexivity].
  destruct (Nat.eqb (length photos) 0); [reflexivity|].
  destruct (imageFiles w _ 0 photos) as [files|m];
    [|simpl; apply onlyBackend_fetches].
  destruct (uploadScans w (_id sel) (imagesForm files)) as [resp|m];
    [destruct (UploadResponse.success resp)|]; cbn [snd]; backend_simpl.
  pose proof (capturedPhotos_fetchStudents w (currentPage r) (itemsPerPage r) a)
    as [_ [_ [_ Hev]]].
  destruct (fetchStudents w (currentPage r) (itemsPerPage r) a) as [a' ev].
  simpl in Hev. subst ev. cbn [snd]. backend_simpl.
Qed.

Lemma AppAuto_handlePhotosCaptured_backend r w photos a :
  onlyBackend (snd (AppAuto.handlePhotosCaptured r w photos a)) = true.
Proof.
  unfold AppAuto.handlePhotosCaptured.
  destruct (selectedStudent r) as [sel|]; [|reflexivity].
  destruct (Nat.eqb (length photos) 0); [reflexivity|].
  destruct (imageFiles w _ 0 photos) as [files|m];
    [|simpl; apply onlyBackend_fetches].
  match goal with
  | |- context [uploadScans w ?i ?f] =>
      destruct (uploadScans w i f) as [resp|m]
  end;
    [destruct (UploadResponse.success resp)|]; cbn [snd]; backend_simpl.
  pose proof (capturedPhotos_fetchStudents w (currentPage r) (itemsPerPage r)
                (setError None a)) as [_ [_ [_ Hev]]].
  destruct (fetchStudents w (currentPage r) (itemsPerPage r)
              (setError None a)) as [a' ev].
  simpl in Hev. subst ev.
  destruct (AppAuto.getNextStudent _ _ _ _); cbn [snd]; backend_simpl.
Qed.

Lemma imageFiles_rejects w rethrow photos : forall index,
  (exists photo m, In photo photos /\ fetchBlob w (data photo) = Throws m) ->
  exists m, imageFiles w rethrow index photos = Throws m.
Proof.
  induction photos as [|p l IH]; intros index [photo [m [Hin Hm]]];
    [destruct Hin|]. simpl.
  destruct (fetchBlob w (data p)) as [b|m'] eqn:Hb; [|eexists; reflexivity].
  destruct Hin as [<-|Hin]; [congruence|].
  destruct (IH (S index) (ex_intro _ photo (ex_intro _ m (conj Hin Hm))))
    as [m'' ->].
  eexists; reflexivity.
Qed.

(** X10: a batch with one image that cannot be converted is never sent,
    not even in part: each [handlePhotosCaptured] asks for every image,
    makes no call to the uploader, answers [false], shows a message and
    leaves the roster, the selection and the page buffer as they were. *)
Theorem unreadable_image_blocks_upload
    (w : World) (r a : AppState) (sel : Student) (photos : list Photo) :
  selectedStudent r = Some sel ->
  (exists photo m, In photo photos /\ fetchBlob w (data photo) = Throws m) ->
  Forall
    (fun handle : AppState -> World -> list Photo -> AppState
                  -> AppState * Answer bool * list Event =>
       let '(a', answer, ev) := handle r w photos a in
       ev = fetches photos
       /\ callsUploader ev = false
       /\ answer = Returns false
       /\ isSome (error a') = true
       /\ students a' = students a
       /\ selectedStudent a' = selectedStudent a
       /\ capturedPhotos a' = capturedPhotos a)
    [App.handlePhotosCaptured; AppAuto.handlePhotosCaptured].
Proof.
  intros Hsel Hbad.
  assert (Hne : Nat.eqb (length photos) 0 = false).
  { destruct Hbad as [p [_ [Hin _]]]. destruct photos; [destruct Hin|].
    reflexivity. }
  assert (Hquiet : callsUploader (fetches photos) = false).
  { unfold callsUploader. apply existsb_fetches. reflexivity. }
  apply Forall_cons; [|apply Forall_cons; [|apply Forall_nil]].
  - unfold App.handlePhotosCaptured. rewrite Hsel, Hne.
    destruct (imageFiles_rejects w (fun _ m => m) photos 0 Hbad) as [m ->].
    repeat split. exact Hquiet.
  - unfold AppAuto.handlePhotosCaptured. rewrite Hsel, Hne.
    destruct (imageFiles_rejects w AppAuto.rethrow photos 0 Hbad) as [m ->].
    repeat split. exact Hquiet.
Qed.

Lemma unreadable_image_blocks_upload_witness :
  Forall
    (fun handle : AppState -> World -> list Photo -> AppState
                  -> AppState * Answer bool * list Event =>
       let '(a', answer, ev) := handle sampleApp tornWorld twoPages sampleApp in
       ev = fetches twoPages
       /\ callsUploader ev = false
       /\ answer = Returns false
       /\ isSome (error a') = true
       /\ students a' = students sampleApp
       /\ selectedStudent a' = selectedStudent sampleApp
       /\ capturedPhotos a' = capturedPhotos sampleApp)
    [App.handlePhotosCaptured; AppAuto.handlePhotosCaptured].
Proof.
  apply (unreadable_image_blocks_upload tornWorld sampleApp sampleApp
           studentA twoPages).
  - reflexivity.
  - exists (mkPhoto 2 "page two" 9 "t" "101"), "bad data URL".
    split; [simpl; auto | reflexivity].
Defined.

(** X11: a file import writes nothing but the pending frame, and writes
    it exactly when the file has an image type, is at most 10 MiB
    (10485760 bytes, the bound included) and can be read; every other
    file leaves the component as it was and raises exactly one alert, and
    no file at all does nothing. *)
Theorem handleFileSelect_accepts_exactly
    (f : PhotoCapture.Picked) (r : CaptureState) :
  (let (c', ev) := PhotoCapture.handleFileSelect (Some f) r in
   if importable f
   then ev = []
        /\ exists url, PhotoCapture.readAsDataURL f = Returns url
                       /\ c' = setCurrentPhoto (Some url) r
   else c' = r /\ exists msg, ev = [Alert msg])
  /\ PhotoCapture.handleFileSelect None r = (r, [])
  /\ importable (PhotoCapture.mkPicked "image/jpeg" 10485760 (Returns "u"))
     = true
  /\ importable (PhotoCapture.mkPicked "image/jpeg" 10485761 (Returns "u"))
     = false.
Proof.
  split; [|repeat split].
  unfold PhotoCapture.handleFileSelect, importable.
  destruct (Js.startsWith "image/" (PhotoCapture.type f)); cbn [negb andb];
    [|split; [reflexivity | eexists; reflexivity]].
  rewrite N.leb_antisym.
  destruct (10 * 1024 * 1024 <? PhotoCapture.size f)%N; cbn [negb andb];
    [split; [reflexivity | eexists; reflexivity]|].
  destruct (PhotoCapture.readAsDataURL f) as [url|m].
  - split; [reflexivity|]. exists url. split; reflexivity.
  - split; [reflexivity | eexists; reflexivity].
Qed.

(** X12: where the browser has no still-capture primitive, a capture that
    the canvas fallback completes stores the frame but leaves
    [isProcessing] set.  From then on "keep" does nothing, and once the
    frame is discarded every further capture request is turned down.
    With the primitive delivering its frame, the same capture ends with
    [isProcessing] cleared. *)
Theorem canvas_capture_stays_processing
    (w : World) (r : CaptureState) (ms : MediaStream) (url : string) :
  isProcessing r = false -> cameraReady r = true -> stream r = Some ms ->
  imageCaptureInWindow w = false -> canvasFrame w = Returns url ->
  let (c', ev) := PhotoCapture.handleTakePhoto w r in
  ev = [] /\ currentPhoto c' = Some url /\ isProcessing c' = true
  /\ (forall parent w' a,
        PhotoCapture.handleKeepAndAddMore parent w' (mkSession a c')
        = mkSession a c')
  /\ (forall w' a,
        let s := PhotoCapture.handleRetake (mkSession a c') in
        PhotoCapture.handleTakePhoto w' (capture s) = (capture s, [])
        /\ currentPhoto (capture s) = None)
  /\ (forall w' frame,
        imageCaptureInWindow w' = true -> getTracks ms <> [] ->
        takePhoto w' = Returns (Some frame) ->
        isProcessing (fst (PhotoCapture.handleTakePhoto w' r)) = false).
Proof.
  intros Hidle Hready Hstream Hno Hcanvas.
  unfold PhotoCapture.handleTakePhoto at 1.
  rewrite Hidle, Hready, Hstream, Hno. simpl.
  unfold PhotoCapture.captureWithCanvasFallback. rewrite Hstream, Hcanvas.
  simpl. split; [reflexivity|]. split; [reflexivity|]. split; [reflexivity|].
  split; [|split].
  - intros parent w' a. unfold PhotoCapture.handleKeepAndAddMore. simpl.
    rewrite andb_false_r. reflexivity.
  - intros w' a. split; reflexivity.
  - intros w' frame Hyes Htracks Hframe.
    unfold PhotoCapture.handleTakePhoto.
    rewrite Hidle, Hready, Hstream, Hyes. simpl.
    destruct (getTracks ms); [congruence|]. rewrite Hframe. reflexivity.
Qed.

Lemma canvas_capture_stays_processing_witness :
  let (c', ev) :=
    PhotoCapture.handleTakePhoto canvasWorld (capture sampleSession) in
  isProcessing c' = true
  /\ PhotoCapture.handleKeepAndAddMore AppAuto.props canvasWorld
       (mkSession sampleApp c')
     = mkSession sampleApp c'.
Proof.
  pose proof (canvas_capture_stays_processing canvasWorld
                (capture sampleSession) (mkStream [7; 8])
                "data:image/jpeg;base64,AA"
                eq_refl eq_refl eq_refl eq_refl eq_refl) as H.
  destruct (PhotoCapture.handleTakePhoto canvasWorld (capture sampleSession))
    as [c' ev].
  destruct H as [_ [_ [Hproc [Hkeep _]]]].
  split; [exact Hproc | apply Hkeep].
Defined.

(** X13: after every camera set-up the component is either ready with
    the stream just acquired and no error, or not ready with an error
    and the stream cell untouched; the value returned says which.  While
    it is not ready every capture request is turned down. *)
Theorem setupCamera_ready_or_error (w : World) (r c : CaptureState) :
  let '(c', ok, ev) := PhotoCapture.setupCamera w r c in
  cameraReady c' = ok
  /\ isSome (cameraError c') = negb ok
  /\ (if ok then exists tier ms,
                    In tier [PhotoCapture.environmentConstraints;
                             PhotoCapture.fallbackConstraints]
                    /\ getUserMedia w tier = Returns ms
                    /\ stream c' = Some ms
      else stream c' = stream c
           /\ forall w', PhotoCapture.handleTakePhoto w' c' = (c', []))
  /\ currentPhoto c' = currentPhoto c
  /\ uploading c' = uploading c.
Proof.
  unfold PhotoCapture.setupCamera.
  destruct (getUserMedia w PhotoCapture.environmentConstraints)
    as [ms|m] eqn:H1.
  - split; [reflexivity|]. split; [reflexivity|]. split; [|split; reflexivity].
    exists PhotoCapture.environmentConstraints, ms.
    split; [left; reflexivity | split; [exact H1 | reflexivity]].
  - destruct (getUserMedia w PhotoCapture.fallbackConstraints)
      as [fs|m'] eqn:H2.
    + split; [reflexivity|]. split; [reflexivity|].
      split; [|split; reflexivity].
      exists PhotoCapture.fallbackConstraints, fs.
      split; [right; left; reflexivity | split; [exact H2 | reflexivity]].
    + repeat split. intros w'. unfold PhotoCapture.handleTakePhoto. simpl.
      rewrite orb_true_r. reflexivity.
Qed.

Lemma submitted_app ev1 ev2 :
  submitted (ev1 ++ ev2) = submitted ev1 ++ submitted ev2.
Proof. apply flat_map_app. Qed.

Lemma submitted_backend ev : onlyBackend ev = true -> submitted ev = [].
Proof.
  induction ev as [|e ev IH]; simpl; [reflexivity|].
  intros H. apply andb_true_iff in H as [He Hev].
  destruct e; try discriminate; simpl; apply IH, Hev.
Qed.

Lemma props_backend parent :
  In parent [App.props; AppAuto.props] ->
  forall r w photos a,
    onlyBackend (snd (Props.onFinish (parent r) w photos a)) = true.
Proof.
  intros [<-|[<-|[]]] r w photos a; simpl.
  - apply App_handlePhotosCaptured_backend.
  - apply AppAuto_handlePhotosCaptured_backend.
Qed.

(** The events of a finish that has something to upload: the batch, what
    the parent does with the back end, and at most the alert of the
    [catch]. *)
Lemma handleFinish_events parent w s :
  In parent [App.props; AppAuto.props] ->
  length (buffer s) + (if Js.truthy (pending s) then 1 else 0) <> 0 ->
  exists ev tail,
    snd (PhotoCapture.handleFinish parent w s)
    = OnFinish (PhotoCapture.finalPhotos parent w s) :: ev ++ tail
    /\ onlyBackend ev = true
    /\ (tail = [] \/ tail = [Alert "Error finishing session. Please try again."]).
Proof.
  intros Hparent Htotal. apply Nat.eqb_neq in Htotal.
  pose proof (props_wired parent Hparent) as [Hcap _].
  pose proof (props_backend parent Hparent (app s) w
                (PhotoCapture.finalPhotos parent w s) (app s)) as Hback.
  unfold PhotoCapture.handleFinish, buffer, pending in *.
  rewrite Hcap, Htotal.
  destruct (Props.onFinish (parent (app s)) w _ (app s)) as [[a ans] ev].
  simpl in Hback.
  destruct ans as [[|]|m]; simpl.
  - exists ev, []. rewrite app_nil_r. auto.
  - exists ev, []. rewrite app_nil_r. auto.
  - exists ev, [Alert "Error finishing session. Please try again."]. auto.
Qed.

Lemma handleFinish_submitted parent w s :
  In parent [App.props; AppAuto.props] ->
  length (buffer s) + (if Js.truthy (pending s) then 1 else 0) <> 0 ->
  submitted (snd (PhotoCapture.handleFinish parent w s))
  = [pagesOf (PhotoCapture.finalPhotos parent w s)].
Proof.
  intros Hparent Htotal.
  destruct (handleFinish_events parent w s Hparent Htotal)
    as [ev [tail [-> [Hback Htail]]]].
  change (OnFinish ?b :: ev ++ tail) with ([OnFinish b] ++ ev ++ tail).
  rewrite !submitted_app, (submitted_backend ev Hback).
  destruct Htail as [-> | ->]; reflexivity.
Qed.

(** X14: keeping the pending frame and then finishing submits the same
    images with the same page numbers, in the same order, as finishing
    with the frame still pending. *)
Theorem keep_then_finish_same_pages (w1 w2 w : World) (s : Session) :
  Js.truthy (pending s) = true ->
  isProcessing (capture s) = false ->
  Forall
    (fun parent =>
       submitted
         (snd (PhotoCapture.handleFinish parent w2
                 (PhotoCapture.handleKeepAndAddMore parent w1 s)))
       = submitted (snd (PhotoCapture.handleFinish parent w s))
       /\ exists image,
            pending s = Some image
            /\ submitted (snd (PhotoCapture.handleFinish parent w s))
               = [pagesOf (buffer s) ++ [(image, length (buffer s) + 1)]])
    [App.props; AppAuto.props].
Proof.
  intros Hpending Hidle.
  apply Forall_forall. intros parent Hparent.
  pose proof (props_wired parent Hparent) as Hw.
  destruct Hw as [Hcap [Hupd Hst]].
  unfold pending, buffer in *.
  destruct (currentPhoto (capture s)) as [image|] eqn:Himage;
    [|discriminate].
  assert (Hne : String.eqb image "" = false)
    by (simpl in Hpending; apply negb_true_iff in Hpending; exact Hpending).
  assert (Hdirect : pagesOf (PhotoCapture.finalPhotos parent w s)
                    = pagesOf (capturedPhotos (app s))
                      ++ [(image, length (capturedPhotos (app s)) + 1)]).
  { unfold PhotoCapture.finalPhotos. rewrite Himage, Hne, Hcap.
    unfold pagesOf. rewrite map_app. reflexivity. }
  set (kept := PhotoCapture.handleKeepAndAddMore parent w1 s).
  assert (Hkept : capturedPhotos (app kept)
                  = capturedPhotos (app s)
                    ++ [mkPhoto (Js.plus (dateNow w1) (mathRandom w1)) image
                          (length (capturedPhotos (app s)) + 1)
                          (isoString w1)
                          (PhotoCapture.studentRollNumber (parent (app s)))]
                  /\ currentPhoto (capture kept) = None).
  { unfold kept, PhotoCapture.handleKeepAndAddMore,
           PhotoCapture.addCurrentPhotoToCaptured.
    rewrite Himage, Hidle. simpl. rewrite Hne. simpl.
    rewrite Hupd, Hcap. split; reflexivity. }
  destruct Hkept as [Hbuf Hnone].
  assert (Hafter : pagesOf (PhotoCapture.finalPhotos parent w2 kept)
                   = pagesOf (capturedPhotos (app s))
                     ++ [(image, length (capturedPhotos (app s)) + 1)]).
  { unfold PhotoCapture.finalPhotos. rewrite Hnone, Hcap, Hbuf.
    unfold pagesOf. rewrite map_app. reflexivity. }
  rewrite (handleFinish_submitted parent w s Hparent).
  - rewrite (handleFinish_submitted parent w2 kept Hparent).
    + rewrite Hafter, Hdirect. split; [reflexivity|].
      exists image. split; reflexivity.
    + unfold buffer. rewrite Hbuf, length_app. simpl. lia.
  - unfold buffer, pending. rewrite Himage. simpl. rewrite Hne. simpl. lia.
Qed.

Lemma keep_then_finish_same_pages_witness :
  Forall
    (fun parent =>
       submitted
         (snd (PhotoCapture.handleFinish parent (sampleWorld 9)
                 (PhotoCapture.handleKeepAndAddMore parent (sampleWorld 8)
                    twoPagesAndPending)))
       = submitted (snd (PhotoCapture.handleFinish parent (sampleWorld 3)
                           twoPagesAndPending))
       /\ exists image,
            pending twoPagesAndPending = Some image
            /\ submitted (snd (PhotoCapture.handleFinish parent (sampleWorld 3)
                                 twoPagesAndPending))
               = [pagesOf (buffer twoPagesAndPending)
                  ++ [(image, length (buffer twoPagesAndPending) + 1)]])
    [App.props; AppAuto.props].
Proof.
  apply (keep_then_finish_same_pages (sampleWorld 8) (sampleWorld 9)
           (sampleWorld 3) twoPagesAndPending); reflexivity.
Defined.

Lemma filter_all (A : Type) (f : A -> bool) (l : list A) :
  (forall x, In x l -> f x = true) -> filter f l = l.
Proof.
  induction l as [|x l IH]; intros H; simpl; [reflexivity|].
  rewrite (H x (or_introl eq_refl)), IH; [reflexivity|].
  intros y Hy. apply H. right. exact Hy.
Qed.

Lemma filter_twice (A : Type) (f : A -> bool) (l : list A) :
  filter f (filter f l) = filter f l.
Proof.
  apply filter_all. intros x Hx. apply filter_In in Hx. apply Hx.
Qed.

Lemma filter_swap (A : Type) (f g : A -> bool) (l : list A) :
  filter f (filter g l) = filter g (filter f l).
Proof.
  induction l as [|x l IH]; simpl; [reflexivity|].
  destruct (f x) eqn:Hf, (g x) eqn:Hg; simpl;
    rewrite ?Hf, ?Hg, IH; reflexivity.
Qed.

(** Two pages kept within the same millisecond can get the same id: the
    sum [Date.now() + Math.random()] keeps only the bits a double has
    room for. *)
Example ids_collide_after_rounding :
  Qeq_bool (Js.plus 1700000000000 (1 # 1048576))
           (Js.plus 1700000000000 (1 # 2097152)) = true
  /\ Qeq_bool (1700000000000 + (1 # 1048576))
              (1700000000000 + (1 # 2097152)) = false
  /\ Qeq_bool (Js.plus 1700000000000 (1 # 2048))
              (1700000000000 + (1 # 2048)) = true.
Proof. vm_compute. repeat split. Qed.

(** Then the cross on either thumbnail removes both pages. *)
Example remove_takes_every_page_with_the_id :
  let s := PageBuffer.run AppAuto.props
             [PageBuffer.Append "page one"
                (clockWorld 1700000000000 (1 # 1048576));
              PageBuffer.Append "page two"
                (clockWorld 1700000000000 (1 # 2097152))]
             sampleSession in
  map data (buffer s) = ["page one"; "page two"]
  /\ Forall (fun p => buffer (PhotoCapture.handleRemovePhoto AppAuto.props
                                (id p) s) = [])
            (buffer s).
Proof. vm_compute. repeat constructor. Qed.

(** X15: removing a page by id never reorders or renumbers the pages
    left.  Removing an id that no page carries changes nothing, removing
    twice is removing once, two removals can be made in either order, and
    a page just kept, removed again by the id it was stored with (the
    double [Date.now() + Math.random()]), leaves the buffer it was added
    to, provided no older page carries that id. *)
Theorem remove_laws (w : World) (s : Session) (i j : Q) (image : string) :
  Forall
    (fun parent =>
       let remove := PhotoCapture.handleRemovePhoto parent in
       ((forall p, In p (buffer s) -> Qeq_bool (id p) i = false) ->
        buffer (remove i s) = buffer s)
       /\ buffer (remove i (remove i s)) = buffer (remove i s)
       /\ buffer (remove i (remove j s)) = buffer (remove j (remove i s))
       /\ length (buffer (remove i s)) <= length (buffer s)
       /\ (image <> "" -> isProcessing (capture s) = false ->
           let kept := PageBuffer.step parent s (PageBuffer.Append image w) in
           exists page,
             buffer kept = buffer s ++ [page]
             /\ id page = Js.plus (dateNow w) (mathRandom w)
             /\ ((forall p, In p (buffer s) ->
                            Qeq_bool (id p) (id page) = false) ->
                 buffer (remove (id page) kept) = buffer s)))
    [App.props; AppAuto.props].
Proof.
  apply Forall_forall. intros parent Hparent.
  pose proof (props_wired parent Hparent) as Hw.
  cbv zeta. unfold buffer.
  rewrite !(handleRemovePhoto_buffer parent Hw).
  fold (otherId i). fold (otherId j).
  split; [|split; [|split; [|split]]].
  - intros Hfresh. apply filter_all. intros p Hp. unfold otherId.
    rewrite (Hfresh p Hp). reflexivity.
  - apply filter_twice.
  - apply filter_swap.
  - apply filter_length_le.
  - intros Himage Hidle.
    destruct (step_append_buffer parent Hw w s image Himage Hidle)
      as [p [Hbuf [_ _]]].
    assert (Hid : id p = Js.plus (dateNow w) (mathRandom w)).
    { revert Hbuf. destruct Hw as [Hcap [Hupd _]].
      apply String.eqb_neq in Himage.
      unfold PageBuffer.step, PhotoCapture.handleKeepAndAddMore,
             PhotoCapture.addCurrentPhotoToCaptured.
      simpl. rewrite Himage, Hidle. simpl. rewrite Hupd. simpl.
      intros H. apply app_inv_head in H. injection H as <-. reflexivity. }
    exists p. split; [exact Hbuf|]. split; [exact Hid|].
    intros Hfresh.
    rewrite (handleRemovePhoto_buffer parent Hw).
    rewrite Hbuf, filter_app. simpl.
    assert (Hself : Qeq_bool (id p) (id p) = true)
      by (apply Qeq_bool_iff; reflexivity).
    rewrite Hself. simpl. rewrite app_nil_r.
    apply filter_all. intros q Hq. rewrite (Hfresh q Hq). reflexivity.
Qed.

Lemma remove_laws_witness :
  buffer (PhotoCapture.handleRemovePhoto AppAuto.props 7 twoPagesAndPending)
  = buffer twoPagesAndPending
  /\ exists page,
       buffer (PageBuffer.step AppAuto.props twoPagesAndPending
                 (PageBuffer.Append "page four" (sampleWorld 5)))
       = buffer twoPagesAndPending ++ [page]
       /\ Qeq (id page) 5
       /\ buffer (PhotoCapture.handleRemovePhoto AppAuto.props (id page)
                    (PageBuffer.step AppAuto.props twoPagesAndPending
                       (PageBuffer.Append "page four" (sampleWorld 5))))
          = buffer twoPagesAndPending.
Proof.
  pose proof (remove_laws (sampleWorld 5) twoPagesAndPending 7 7 "page four")
    as H.
  apply Forall_forall with (x := AppAuto.props) in H;
    [|right; left; reflexivity].
  cbv zeta in H. destruct H as [Habsent [_ [_ [_ Hround]]]].
  split.
  - apply Habsent. intros p Hp. vm_compute in Hp.
    destruct Hp as [<-|[<-|[]]]; reflexivity.
  - destruct Hround as [page [Hbuf [Hid Hremove]]];
      [discriminate | reflexivity |].
    exists page. split; [exact Hbuf|].
    split; [rewrite Hid; vm_compute; reflexivity|].
    apply Hremove. intros p Hp. rewrite Hid. vm_compute in Hp.
    destruct Hp as [<-|[<-|[]]]; vm_compute; reflexivity.
Defined.

(** ** The keyboard *)

Ltac key_cases H :=
  unfold PhotoCaptureKeys.isKey in H; simpl in H;
  rewrite ?orb_false_r in H;
  repeat (apply orb_true_iff in H; destruct H as [H|H]);
  apply String.eqb_eq in H; rewrite H.

(** What the handler does on the keys N, C, K and F, and in a form
    field. *)
Lemma handleKeyPress_branches
    (parent : AppState -> Props.t) (w : World)
    (e : PhotoCaptureKeys.KeyboardEvent) (active : option string)
    (s : Session) :
  let result := PhotoCaptureKeys.handleKeyPress parent w e active s in
  (typing e = true -> result = (s, [], false))
  /\ (typing e = false ->
      PhotoCaptureKeys.isKey (PhotoCaptureKeys.key e) ["n"; "N"] = true ->
      result
      = (if Props.hasNextStudent (parent (app s))
            && negb (uploading (capture s))
         then PhotoCapture.handleNextStudent parent s
         else (s, []),
         true))
  /\ (typing e = false ->
      PhotoCaptureKeys.isKey (PhotoCaptureKeys.key e) ["c"; "C"] = true ->
      result = (s, [], true))
  /\ (typing e = false ->
      PhotoCaptureKeys.isKey (PhotoCaptureKeys.key e) ["k"; "K"; "f"; "F"]
      = true ->
      result
      = (if (0 <? length (Props.capturedPhotos (parent (app s))))
            || Js.truthy (currentPhoto (capture s))
         then PhotoCapture.handleFinish parent w s
         else (s, []),
         true)).
Proof.
  cbv zeta. unfold typing. split; [|split; [|split]].
  - intros Htyping. unfold PhotoCaptureKeys.handleKeyPress.
    rewrite Htyping. reflexivity.
  - intros Htyping Hkey. unfold PhotoCaptureKeys.handleKeyPress.
    rewrite Htyping. key_cases Hkey;
      cbn -[PhotoCapture.handleNextStudent];
      rewrite andb_false_r;
      destruct (Props.hasNextStudent (parent (app s))
                && negb (uploading (capture s)));
      [destruct (PhotoCapture.handleNextStudent parent s)| |
       destruct (PhotoCapture.handleNextStudent parent s)|]; reflexivity.
  - intros Htyping Hkey. unfold PhotoCaptureKeys.handleKeyPress.
    rewrite Htyping. key_cases Hkey; cbn; rewrite andb_false_r; reflexivity.
  - intros Htyping Hkey. unfold PhotoCaptureKeys.handleKeyPress.
    rewrite Htyping. key_cases Hkey;
      cbn -[PhotoCapture.handleFinish Js.truthy Nat.ltb];
      rewrite andb_false_r;
      destruct ((0 <? length (Props.capturedPhotos (parent (app s))))
                || Js.truthy (currentPhoto (capture s)));
      try destruct (PhotoCapture.handleFinish parent w s); reflexivity.
Qed.

Lemma finalPhotos_pending parent w s :
  In parent [App.props; AppAuto.props] ->
  PhotoCapture.finalPhotos parent w s = buffer s ++ pendingPage w s.
Proof.
  intros Hparent. destruct (props_wired parent Hparent) as [Hcap [_ Hst]].
  unfold PhotoCapture.finalPhotos, PhotoCapture.studentRollNumber,
         pendingPage, pending, buffer, sessionRoll.
  rewrite Hcap, Hst.
  destruct (currentPhoto (capture s)) as [image|];
    [destruct (String.eqb image "")|]; rewrite ?app_nil_r; reflexivity.
Qed.

Lemma onlyBackend_no_alert ev msg :
  onlyBackend ev = true -> ~ In (Alert msg) ev.
Proof.
  induction ev as [|e ev IH]; simpl; [tauto|].
  intros H. apply andb_true_iff in H as [He Hev].
  intros [Heq|Hin]; [subst e; discriminate | exact (IH Hev Hin)].
Qed.

(** X16: a key pressed while the target is an input, a text area or a
    select does nothing at all.  Elsewhere, N is swallowed without any
    effect while an upload is running or when no next student is
    offered.  K and F never raise the "capture at least one photo"
    alert: with nothing to upload they do nothing, and with a committed
    page or a pending frame they hand the buffer followed by the pending
    frame to [onFinish], whether or not an upload is already running. *)
Theorem shortcuts_gating
    (w : World) (e : PhotoCaptureKeys.KeyboardEvent) (active : option string)
    (s : Session) :
  Forall
    (fun parent =>
       let '(s', ev, prevented) :=
         PhotoCaptureKeys.handleKeyPress parent w e active s in
       (typing e = true -> s' = s /\ ev = [] /\ prevented = false)
       /\ (typing e = false ->
           PhotoCaptureKeys.isKey (PhotoCaptureKeys.key e) ["n"; "N"] = true ->
           uploading (capture s) = true
           \/ Props.hasNextStudent (parent (app s)) = false ->
           s' = s /\ ev = [] /\ prevented = true)
       /\ (typing e = false ->
           PhotoCaptureKeys.isKey (PhotoCaptureKeys.key e)
                                  ["k"; "K"; "f"; "F"] = true ->
           ~ In (Alert validationMessage) ev
           /\ (buffer s = [] -> Js.truthy (pending s) = false ->
               s' = s /\ ev = [])
           /\ (buffer s <> [] \/ Js.truthy (pending s) = true ->
               exists rest,
                 ev = OnFinish (buffer s ++ pendingPage w s) :: rest)))
    [App.props; AppAuto.props].
Proof.
  apply Forall_forall. intros parent Hparent.
  destruct (handleKeyPress_branches parent w e active s)
    as [Htyping [Hnext [_ Hfinish]]].
  destruct (props_wired parent Hparent) as [Hcap _].
  destruct (PhotoCaptureKeys.handleKeyPress parent w e active s)
    as [[s' ev] prevented].
  split; [|split].
  - intros Ht. specialize (Htyping Ht). injection Htyping as -> -> ->. auto.
  - intros Ht Hkey Hgate. specialize (Hnext Ht Hkey).
    assert (Hoff : Props.hasNextStudent (parent (app s))
                   && negb (uploading (capture s)) = false).
    { destruct Hgate as [-> | ->]; [apply andb_false_r | reflexivity]. }
    rewrite Hoff in Hnext. injection Hnext as -> -> ->. auto.
  - intros Ht Hkey. specialize (Hfinish Ht Hkey). rewrite Hcap in Hfinish.
    unfold buffer, pending.
    destruct (capturedPhotos (app s)) as [|p0 l] eqn:Hbuf.
    + destruct (Js.truthy (currentPhoto (capture s))) eqn:Hp.
      * simpl in Hfinish.
        assert (Htotal : length (buffer s)
                         + (if Js.truthy (pending s) then 1 else 0) <> 0).
        { unfold buffer, pending. rewrite Hbuf, Hp. simpl. lia. }
        destruct (handleFinish_events parent w s Hparent Htotal)
          as [evb [tail [Hev [Hback Htail]]]].
        rewrite (finalPhotos_pending parent w s Hparent) in Hev.
        unfold buffer in Hev. rewrite Hbuf in Hev.
        destruct (PhotoCapture.handleFinish parent w s) as [sf evf].
        simpl in Hev. injection Hfinish as -> -> ->. subst evf.
        split; [|split].
        -- intros [Hx|Hx]; [discriminate|].
           apply in_app_or in Hx as [Hx|Hx].
           ++ exact (onlyBackend_no_alert _ _ Hback Hx).
           ++ destruct Htail as [-> | ->]; [destruct Hx|].
              destruct Hx as [Hx|[]]. discriminate.
        -- discriminate.
        -- intros _. eexists. reflexivity.
      * simpl in Hfinish. injection Hfinish as -> -> ->.
        split; [tauto|]. split; [auto|].
        intros [Hne|Hne]; [congruence | discriminate].
    + simpl in Hfinish.
      assert (Htotal : length (buffer s)
                       + (if Js.truthy (pending s) then 1 else 0) <> 0).
      { unfold buffer. rewrite Hbuf. simpl. lia. }
      destruct (handleFinish_events parent w s Hparent Htotal)
        as [evb [tail [Hev [Hback Htail]]]].
      rewrite (finalPhotos_pending parent w s Hparent) in Hev.
      unfold buffer in Hev. rewrite Hbuf in Hev.
      destruct (PhotoCapture.handleFinish parent w s) as [sf evf].
      simpl in Hev. injection Hfinish as -> -> ->. subst evf.
      split; [|split].
      * intros [Hx|Hx]; [discriminate|].
        apply in_app_or in Hx as [Hx|Hx].
        -- exact (onlyBackend_no_alert _ _ Hback Hx).
        -- destruct Htail as [-> | ->]; [destruct Hx|].
           destruct Hx as [Hx|[]]. discriminate.
      * discriminate.
      * intros _. eexists. reflexivity.
Qed.

Lemma shortcuts_gating_witness :
  let '(s', ev, prevented) :=
    PhotoCaptureKeys.handleKeyPress AppAuto.props (sampleWorld 3)
      (PhotoCaptureKeys.mkKey "n" "BODY") None uploadingSession in
  s' = uploadingSession /\ ev = [] /\ prevented = true.
Proof.
  pose proof (shortcuts_gating (sampleWorld 3)
                (PhotoCaptureKeys.mkKey "n" "BODY") None uploadingSession)
    as H.
  apply Forall_forall with (x := AppAuto.props) in H;
    [|right; left; reflexivity].
  destruct (PhotoCaptureKeys.handleKeyPress AppAuto.props (sampleWorld 3)
              (PhotoCaptureKeys.mkKey "n" "BODY") None uploadingSession)
    as [[s' ev] prevented].
  destruct H as [_ [H _]]. apply H; [reflexivity | reflexivity|].
  left. reflexivity.
Defined.

(** The finish key during an upload hands the batch over once more. *)
Example finish_key_while_uploading :
  let '(s', ev, prevented) :=
    PhotoCaptureKeys.handleKeyPress AppAuto.props (sampleWorld 3)
      (PhotoCaptureKeys.mkKey "F" "BODY") None uploadingSession in
  submitted ev = [[("page one", 1); ("page two", 2); ("page three", 3)]]
  /\ callsUploader ev = true.
Proof. vm_compute. split; reflexivity. Qed.

(** X17: skipping to the next student throws away the pending frame and
    every committed page without uploading anything: afterwards the
    buffer is empty and no frame is pending, the trace has no call to the
    uploader, and the camera cells and the upload flag are as before. *)
Theorem skip_discards_pages (s : Session) :
  Forall
    (fun skip : Session -> Session * list Event =>
       let (s', ev) := skip s in
       buffer s' = [] /\ pending s' = None
       /\ callsUploader ev = false /\ touchesCamera ev = false
       /\ setCurrentPhoto (currentPhoto (capture s)) (capture s') = capture s
       /\ students (app s') = students (app s))
    skipHandlers.
Proof.
  unfold skipHandlers, buffer, pending.
  repeat (apply Forall_cons || apply Forall_nil);
    unfold PhotoCapture.handleNextStudent,
           PhotoCaptureStatus.handleNextStudent;
    simpl;
    unfold App.handleNextStudent, AppAuto.handleNextStudent;
    match goal with
    | |- context [match ?x with Some _ => _ | None => _ end] => destruct x
    end;
    simpl; destruct (capture s); repeat split.
Qed.

(** X18: a capture request ends in one of four ways.  It is turned down
    or it fails, and then the component is exactly as before (a failure
    raising one alert); or it delivers a frame, taken from the
    still-capture primitive or from the canvas, which becomes the pending
    frame; or the still-capture primitive answers but its blob cannot be
    read, and then nothing is stored, nothing is shown, the in-flight flag
    stays set and every later capture request is turned down.  Only the
    pending frame and the in-flight flag can change: camera, error and
    upload cells never do. *)
Theorem capture_outcomes (w : World) (r : CaptureState) :
  let (c', ev) := PhotoCapture.handleTakePhoto w r in
  setCurrentPhoto (currentPhoto r) (setIsProcessing (isProcessing r) c') = r
  /\ ((c' = r /\ (ev = [] \/ ev = [Alert PhotoCapture.captureFailed]))
      \/ (ev = []
          /\ exists frame,
               currentPhoto c' = Some frame
               /\ (takePhoto w = Returns (Some frame)
                   \/ canvasFrame w = Returns frame))
      \/ (ev = [] /\ takePhoto w = Returns None
          /\ c' = setIsProcessing true r
          /\ forall w', PhotoCapture.handleTakePhoto w' c' = (c', []))).
Proof.
  unfold PhotoCapture.handleTakePhoto at 1.
  destruct (isProcessing r) eqn:Hp; simpl.
  { split; [destruct r; simpl in *; subst; reflexivity | left; auto]. }
  destruct (cameraReady r) eqn:Hr; simpl;
    [|split; [destruct r; simpl in *; subst; reflexivity | left; auto]].
  destruct (stream r) as [ms|] eqn:Hs; simpl;
    [|split; [destruct r; simpl in *; subst; reflexivity | left; auto]].
  assert (Hback : setIsProcessing false (setIsProcessing true r) = r)
    by (destruct r; simpl in *; subst; reflexivity).
  assert (Hcanvas :
    let (c', ev) :=
      PhotoCapture.capturedOrAlert (setIsProcessing true r)
        (PhotoCapture.captureWithCanvasFallback w r (setIsProcessing true r)) in
    setCurrentPhoto (currentPhoto r) (setIsProcessing false c') = r
    /\ ((c' = r /\ (ev = [] \/ ev = [Alert PhotoCapture.captureFailed]))
        \/ (ev = []
            /\ exists frame,
                 currentPhoto c' = Some frame
                 /\ (takePhoto w = Returns (Some frame)
                     \/ canvasFrame w = Returns frame))
        \/ (ev = [] /\ takePhoto w = Returns None
            /\ c' = setIsProcessing true r
            /\ forall w', PhotoCapture.handleTakePhoto w' c' = (c', [])))).
  { unfold PhotoCapture.captureWithCanvasFallback. rewrite Hs.
    destruct (canvasFrame w) as [frame|m] eqn:Hc; simpl.
    - split; [destruct r; simpl in *; subst; reflexivity|].
      right. left. split; [reflexivity|]. exists frame. auto.
    - rewrite Hback.
      split; [destruct r; simpl in *; subst; reflexivity | left; auto]. }
  destruct (imageCaptureInWindow w); [|exact Hcanvas].
  destruct (getTracks ms) as [|t ts].
  - rewrite Hback.
    split; [destruct r; simpl in *; subst; reflexivity | left; auto].
  - destruct (takePhoto w) as [[frame|]|m] eqn:Ht; [| |exact Hcanvas].
    + split; [destruct r; simpl in *; subst; reflexivity|].
      right. left. split; [reflexivity|]. exists frame. auto.
    + split; [destruct r; simpl in *; subst; reflexivity|].
      right. right. split; [reflexivity|]. split; [reflexivity|].
      split; [reflexivity|]. intros w'. reflexivity.
Qed.

(** A blob that cannot be read leaves the capture in flight for good. *)
Example handleTakePhoto_unreadable_blob :
  let w := mkWorld (fun _ => Throws "unused") true (Returns None)
                   (Returns "canvas") (fun u => Returns u)
                   (fun _ _ => Throws "unused") (fun _ _ => Throws "unused")
                   1 0 "t" in
  PhotoCapture.handleTakePhoto w (capture sampleSession)
  = (setIsProcessing true (capture sampleSession), []).
Proof. reflexivity. Qed.

(** Refreshing the roster ends with the loading flag off and never
    touches the selected student, the page buffer, the capture view or
    the page size.  Only an answer marked successful replaces the roster
    and the paging figures; a refusal keeps them and clears the error; a
    failed request keeps them and shows its message. *)
Theorem fetchStudents_keeps_or_replaces
    (w : World) (page limit : nat) (a : AppState) :
  let (a', ev) := fetchStudents w page limit a in
  ev = [GetStudents page limit]
  /\ loading a' = false
  /\ selectedStudent a' = selectedStudent a
  /\ capturedPhotos a' = capturedPhotos a
  /\ showPhotoCapture a' = showPhotoCapture a
  /\ itemsPerPage a' = itemsPerPage a
  /\ match getStudents w page limit with
     | Returns resp =>
         error a' = None
         /\ if StudentsResponse.success resp
            then students a' = StudentsResponse.students resp
                 /\ totalStudents a' = StudentsResponse.totalStudents resp
                 /\ totalPages a' = StudentsResponse.totalPages resp
                 /\ currentPage a' = StudentsResponse.currentPage resp
            else students a' = students a
                 /\ totalStudents a' = totalStudents a
                 /\ totalPages a' = totalPages a
                 /\ currentPage a' = currentPage a
     | Throws m =>
         error a' = Some m /\ students a' = students a
         /\ totalStudents a' = totalStudents a
         /\ totalPages a' = totalPages a
         /\ currentPage a' = currentPage a
     end.
Proof.
  unfold fetchStudents.
  destruct (getStudents w page limit) as [resp|m];
    [destruct (StudentsResponse.success resp)|]; repeat split.
Qed.
